(** * EMORECO backend: the audio-analysis relay

    A shallow embedding of the four deployment variants of the
    [/api/analyze-audio] route and of the helpers they share:

    - [Fallback]  : src/api/audio-analysis.js (simulated data on any failure)
    - [Basic]     : src/unnamed/part_000, first file (transcription only)
    - [Parallel]  : src/unnamed/part_000, second file (Promise.all + Perplexity)
    - [Watson]    : src/unnamed/part_001 (sequential, Hugging Face + IBM Watson)

    JavaScript strings are sequences of UTF-16 code units, numbers are
    modelled by exact rationals, and every network call is an event appended
    to a log, answered by an oracle of the surrounding world. *)

From Stdlib Require Import List ZArith QArith Qround NArith Bool String Ascii Lia Lqa.
Import ListNotations.

Set Implicit Arguments.
Set Warnings "-register-all".

(* ================================================================== *)
(** ** JavaScript values *)

Module JS.

(** A string is its list of UTF-16 code units. *)
Definition jsstring : Type := list N.

(** An ASCII literal of the source, as code units. *)
Fixpoint str (s : string) : jsstring :=
  match s with
  | EmptyString => []
  | String a s' => N_of_ascii a :: str s'
  end.

Definition jsstring_eqb (a b : jsstring) : bool :=
  if list_eq_dec N.eq_dec a b then true else false.

(** The code units matched by the regular expression class [\s]. *)
Definition isWhiteSpace (c : N) : bool :=
  ((9 <=? c) && (c <=? 13)         (* \t \n \v \f \r *)
   || (c =? 32)                    (* space *)
   || (c =? 160)                   (* U+00A0 *)
   || (c =? 5760)                  (* U+1680 *)
   || ((8192 <=? c) && (c <=? 8202))   (* U+2000 .. U+200A *)
   || (c =? 8232) || (c =? 8233)   (* U+2028, U+2029 *)
   || (c =? 8239)                  (* U+202F *)
   || (c =? 8287)                  (* U+205F *)
   || (c =? 12288)                 (* U+3000 *)
   || (c =? 65279))%N.             (* U+FEFF *)

(** [s.split(/\s+/)]: [tok] is the substring collected since the end of
    the last separator, [inSep] tells that the previous code unit belonged
    to a separator.  A separator at the very start pushes the empty
    substring before it, and the substring after the last separator is
    always pushed, empty or not. *)
Fixpoint splitWs (tok : jsstring) (inSep : bool) (s : jsstring)
  : list jsstring :=
  match s with
  | [] => [tok]
  | c :: s' =>
      if isWhiteSpace c then
        if inSep then splitWs [] true s'
        else tok :: splitWs [] true s'
      else splitWs (tok ++ [c]) false s'
  end.

Definition split_whitespace (s : jsstring) : list jsstring :=
  splitWs [] false s.

(** Numbers are exact rationals, standing for the doubles of JavaScript.
    [Math.round]: nearest integer, ties towards +infinity. *)
Definition Math_round (x : Q) : Z := Qfloor (x + (1 # 2)).

(** Opaque JSON documents passed through from the providers. *)
Inductive JSON : Type :=
| JNull
| JBool (b : bool)
| JNum (q : Q)
| JStr (s : jsstring)
| JArr (items : list JSON)
| JObj (fields : list (string * JSON)).

(** Truthiness of a JSON value, for [x || fallback]. *)
Definition truthy (j : JSON) : bool :=
  match j with
  | JNull => false
  | JBool b => b
  | JNum q => negb (Qeq_bool q 0)
  | JStr s => match s with [] => false | _ => true end
  | JArr _ | JObj _ => true
  end.

Definition json_or (j fallback : JSON) : JSON :=
  if truthy j then j else fallback.

(** [s || fallback] for a string that may be null or undefined. *)
Definition str_or (s : option jsstring) (fallback : option jsstring)
  : option jsstring :=
  match s with
  | Some (_ :: _) => s
  | _ => fallback
  end.

(** [n || fallback] for a number that may be null or undefined. *)
Definition falsyNum (n : option Q) : bool :=
  match n with
  | None => true
  | Some q => Qeq_bool q 0
  end.

Definition num_or (n : option Q) (fallback : Q) : option Q :=
  if falsyNum n then Some fallback else n.

(** A thrown value: an [Error] with its message; axios errors also carry
    the body of the response, read as [error.response?.data]. *)
Record JsError : Type := mkError {
  message : jsstring;
  response_data : option JSON
}.

(** [new Error(msg)] *)
Definition Error (msg : jsstring) : JsError := mkError msg None.

(** The [TypeError] raised by reading property [prop] of [undefined]. *)
Definition TypeError (prop : string) : JsError :=
  Error (str ("Cannot read properties of undefined (reading '"
                ++ prop ++ "')")).

(** [s || 'literal'] where [s] may be missing or empty. *)
Definition str_or_lit (s : option jsstring) (fallback : jsstring)
  : jsstring :=
  match s with
  | Some (c :: s') => c :: s'
  | _ => fallback
  end.

(** [{ error: <message> }] *)
Definition errorObject (msg : jsstring) : JSON :=
  JObj [("error"%string, JStr msg)].

End JS.
Import JS.

(* ================================================================== *)
(** ** calculateWPM (identical in the three files that define it) *)

(** [calculateWPM(text, audioDuration)].  The guard [!audioDuration ||
    audioDuration === 0] comes first, so [text.split] throws on a missing
    text only when the duration is a non-zero number. *)
Definition calculateWPM (text : option jsstring) (audioDuration : option Q)
  : JsError + Z :=
  match audioDuration with
  | None => inr 0%Z
  | Some d =>
      if Qeq_bool d 0 then inr 0%Z
      else
        match text with
        | None => inl (TypeError "split")
        | Some t =>
            let words := List.length (split_whitespace t) in
            let minutes := (d / 60)%Q in
            inr (Math_round (inject_Z (Z.of_nat words) / minutes))
        end
  end.

(* ================================================================== *)
(** ** Configuration, requests and the outside world *)

Definition Bytes : Type := list Byte.byte.

(** The credentials read from [process.env] when the module is loaded. *)
Record Config : Type := {
  ASSEMBLYAI_API_KEY : option jsstring;
  HUGGING_FACE_TOKEN : option jsstring;
  PERPLEXITY_API_KEY : option jsstring;
  IBM_WATSON_API_KEY : option jsstring;
  IBM_WATSON_URL : option jsstring
}.

(** [!!KEY]: an environment variable is usable when set and non-empty. *)
Definition configured (key : option jsstring) : bool :=
  match key with
  | Some (_ :: _) => true
  | _ => false
  end.

(** [req.file], as multer's memory storage leaves it. *)
Record File : Type := { buffer : Bytes }.

(** The body of [GET /v2/transcript/:id]; every field may be missing
    ([None], and [JNull] for the sentiment results). *)
Record TranscriptData : Type := {
  status : option jsstring;
  text : option jsstring;
  transcript : option jsstring;
  confidence : option Q;
  audio_duration : option Q;
  sentiment_analysis_results : JSON;
  error : option jsstring
}.

(** What the template literal of [processWithPerplexity] interpolates. *)
Record Prompt : Type := {
  TRANSCRIPT : option jsstring;
  speech_wordsPerMinute : Z;
  speech_confidence : option Q;
  speech_audioDuration : option Q;
  sentiment_analysis : JSON;
  EMOTION_ANALYSIS : JSON
}.

Inductive Request : Type :=
| Upload (audio : Bytes)                     (* POST api.assemblyai.com/v2/upload *)
| Transcribe (audio_url : option jsstring)   (* POST api.assemblyai.com/v2/transcript *)
| Status (id : option jsstring)              (* GET  api.assemblyai.com/v2/transcript/:id *)
| EmotionAudio (audio : Bytes)               (* POST superb/hubert-large-superb-er *)
| EmotionText (inputs : option jsstring)     (* POST j-hartmann/emotion-english-distilroberta-base *)
| Perplexity (prompt : Prompt)               (* POST api.perplexity.ai/chat/completions *)
| Tone (txt : option jsstring).              (* POST IBM Watson /v3/tone *)

Inductive Event : Type :=
| Call (r : Request)                 (* the request is issued *)
| Settle (r : Request) (ok : bool)   (* its promise is fulfilled or rejected *)
| Sleep (ms : Z).                    (* a [setTimeout] of [ms] has elapsed *)

(** The third-party services.  The status endpoint is asked repeatedly, so
    its answer depends on how many status requests came before. *)
Record World : Type := {
  post_upload : Bytes -> JsError + option jsstring;
  post_transcript : option jsstring -> JsError + option jsstring;
  get_transcript : option jsstring -> nat -> JsError + TranscriptData;
  post_emotion_audio : Bytes -> JsError + JSON;
  post_emotion_text : option jsstring -> JsError + JSON;
  post_perplexity : Prompt -> JsError + JSON;
  post_tone : option jsstring -> JsError + JSON
}.

(** What one request has done so far. *)
Record St : Type := {
  log : list Event;
  polls : nat
}.

Definition st0 : St := {| log := []; polls := 0 |}.

(* ================================================================== *)
(** ** A state and exception monad for the async functions *)

(** How a computation ends: with a value, with a thrown error, or cut short
    because the fuel given to a loop ran out; [processWithAssemblyAI_shape]
    below shows that the last case does not arise. *)
Inductive Outcome (A : Type) : Type :=
| Return (a : A)
| Throw (e : JsError)
| OutOfFuel.
Arguments Return {A} a.
Arguments Throw {A} e.
Arguments OutOfFuel {A}.

Definition M (A : Type) : Type := St -> Outcome A * St.

Definition ret {A} (a : A) : M A := fun st => (Return a, st).

Definition throw {A} (e : JsError) : M A := fun st => (Throw e, st).

Definition bind {A B} (m : M A) (k : A -> M B) : M B :=
  fun st =>
    match m st with
    | (Return a, st') => k a st'
    | (Throw e, st') => (Throw e, st')
    | (OutOfFuel, st') => (OutOfFuel, st')
    end.

(** [try { m } catch (e) { h e }] *)
Definition try_catch {A} (m : M A) (h : JsError -> M A) : M A :=
  fun st =>
    match m st with
    | (Throw e, st') => h e st'
    | r => r
    end.

Definition lift {A} (r : JsError + A) : M A :=
  match r with
  | inr a => ret a
  | inl e => throw e
  end.

Definition emit (e : Event) : M unit :=
  fun st => (Return tt, {| log := log st ++ [e]; polls := polls st |}).

Declare Scope js_scope.
Delimit Scope js_scope with js.
Notation "x <- m ;; k" := (bind m (fun x => k))
  (at level 100, m at next level, right associativity) : js_scope.
Notation "m ;;; k" := (bind m (fun _ => k))
  (at level 100, right associativity) : js_scope.
Open Scope js_scope.

Definition is_ok {A} (r : JsError + A) : bool :=
  match r with inr _ => true | inl _ => false end.

(** [await axios.post/get(...)]: the request is issued, then its promise
    settles with the answer of the world. *)
Definition await_http {A} (r : Request) (answer : JsError + A) : M A :=
  emit (Call r) ;;;
  emit (Settle r (is_ok answer)) ;;;
  lift answer.

(** [await new Promise(resolve => setTimeout(resolve, ms))] *)
Definition sleep (ms : Z) : M unit := emit (Sleep ms).

(* ================================================================== *)
(** ** processWithAssemblyAI (identical in the three files that define it) *)

Section Transcription.

Variable w : World.

Definition maxAttempts : nat := 30.

(** [result.status === 'completed' || result.status === 'error'] *)
Definition has_status (result : TranscriptData) (s : string) : bool :=
  match status result with
  | Some s' => jsstring_eqb s' (str s)
  | None => false
  end.

Definition terminal (result : TranscriptData) : bool :=
  has_status result "completed" || has_status result "error".

(** [await axios.get(`.../v2/transcript/${transcriptId}`)] *)
Definition get_status (transcriptId : option jsstring) : M TranscriptData :=
  fun st =>
    await_http (Status transcriptId)
      (get_transcript w transcriptId (polls st))
      {| log := log st; polls := S (polls st) |}.

(** The [while (attempts < maxAttempts)] loop; it leaves [attempts] and
    [result] as the code after the loop finds them.  [fuel] bounds the
    number of tests of the loop condition; [S maxAttempts] is enough. *)
Fixpoint pollLoop (fuel : nat) (transcriptId : option jsstring)
         (attempts : nat) (result : option TranscriptData)
  : M (nat * option TranscriptData) :=
  match fuel with
  | O => fun st => (OutOfFuel, st)
  | S fuel' =>
      if attempts <? maxAttempts then
        sleep 3000 ;;;
        checkResponse <- get_status transcriptId ;;
        let result := Some checkResponse in
        if terminal checkResponse then ret (attempts, result)   (* break *)
        else pollLoop fuel' transcriptId (S attempts) result
      else ret (attempts, result)
  end.

Definition timeoutMessage : jsstring :=
  str "Processing timeout - audio too long or server busy".

Definition processWithAssemblyAI (audioBuffer : Bytes) : M TranscriptData :=
  try_catch
    (audioUrl <- await_http (Upload audioBuffer)
                   (post_upload w audioBuffer) ;;
     transcriptId <- await_http (Transcribe audioUrl)
                       (post_transcript w audioUrl) ;;
     after <- pollLoop (S maxAttempts) transcriptId 0 None ;;
     let (attempts, result) := after in
     match result with
     | None => throw (TypeError "status")
     | Some result =>
         if has_status result "error" then
           throw (Error (str_or_lit (error result)
                           (str "Audio processing failed")))
         else if maxAttempts <=? attempts then
           throw (Error timeoutMessage)
         else ret result
     end)
    (fun error => throw error).

End Transcription.

(* ================================================================== *)
(** ** Responses *)

Module Res.

Record AudioMetrics : Type := {
  wordsPerMinute : Z;
  confidence : option Q;
  audioDuration : option Q;
  sentiment : option JSON       (* [None]: the variant has no such key *)
}.

Inductive Payload : Type :=
| Analysis (transcript : option jsstring) (audioMetrics : AudioMetrics)
           (emotions : JSON) (detailedAnalysis : JSON)
| Tones (transcript : option jsstring) (audioMetrics : AudioMetrics)
        (emotions : JSON) (tones : JSON) (sentiment : JSON)
| Sentiments (text : option jsstring) (sentiments : JSON)
| ErrorMessage (error : jsstring) (details : option JSON).

(** [res.status(code).json({ success, ...payload })] *)
Record Response : Type := {
  code : Z;
  success : bool;
  payload : Payload
}.

Definition transcript_of (r : Response) : option jsstring :=
  match payload r with
  | Analysis t _ _ _ | Tones t _ _ _ _ | Sentiments t _ => t
  | ErrorMessage _ _ => None
  end.

Definition audioMetrics_of (r : Response) : option AudioMetrics :=
  match payload r with
  | Analysis _ m _ _ | Tones _ m _ _ _ => Some m
  | _ => None
  end.

Definition emotions_of (r : Response) : option JSON :=
  match payload r with
  | Analysis _ _ e _ | Tones _ _ e _ _ => Some e
  | _ => None
  end.

Definition detailedAnalysis_of (r : Response) : option JSON :=
  match payload r with
  | Analysis _ _ _ d => Some d
  | _ => None
  end.

Definition is_error_object (r : Response) : bool :=
  match payload r with
  | ErrorMessage _ _ => negb (success r)
  | _ => false
  end.

End Res.
Import Res (Response, AudioMetrics, Analysis, Tones, Sentiments, ErrorMessage).

Definition badRequest (msg : string) : Response :=
  {| Res.code := 400; Res.success := false;
     Res.payload := ErrorMessage (str msg) None |}.

Definition serverError (msg : jsstring) (details : option JSON) : Response :=
  {| Res.code := 500; Res.success := false;
     Res.payload := ErrorMessage msg details |}.

Definition ok (p : Res.Payload) : Response :=
  {| Res.code := 200; Res.success := true; Res.payload := p |}.

(* ================================================================== *)
(** ** src/api/audio-analysis.js: the variant that falls back to
       simulated data *)

Module Fallback.
Section Handler.

Variable cfg : Config.
Variable w : World.

Definition processWithHuggingFace (audioBuffer : Bytes) : M JSON :=
  try_catch
    (await_http (EmotionAudio audioBuffer) (post_emotion_audio w audioBuffer))
    (fun error => throw error).

Definition processWithPerplexity (assemblyResult : TranscriptData)
           (huggingResult : JSON) : M JSON :=
  try_catch
    (let spoken := str_or (text assemblyResult) (transcript assemblyResult) in
     let duration := num_or (audio_duration assemblyResult) (30 # 1) in
     wpm <- lift (calculateWPM spoken duration) ;;
     let detailedAnalysisPrompt :=
       {| TRANSCRIPT := spoken;
          speech_wordsPerMinute := wpm;
          speech_confidence :=
            num_or (confidence assemblyResult) (85 # 100);
          speech_audioDuration := duration;
          sentiment_analysis :=
            json_or (sentiment_analysis_results assemblyResult) (JObj []);
          EMOTION_ANALYSIS := huggingResult |} in
     await_http (Perplexity detailedAnalysisPrompt)
       (post_perplexity w detailedAnalysisPrompt))
    (fun error => throw error).

Definition simulateAssemblyAIResults : TranscriptData :=
  {| status := None;
     text := Some (str "I'm telling you, I really didn't know about the meeting. It must have been a communication error somewhere in the system. I would never intentionally miss something that important.");
     transcript := None;
     confidence := Some (85 # 100);
     audio_duration := Some (30 # 1);
     sentiment_analysis_results :=
       JObj [("text"%string, JStr (str "neutral"))];
     error := None |}.

Definition emotion (label : string) (score : Q) : JSON :=
  JObj [("label"%string, JStr (str label)); ("score"%string, JNum score)].

Definition simulateHuggingFaceResults : JSON :=
  JArr [ emotion "neutral" (45 # 100);
         emotion "fear" (25 # 100);
         emotion "sadness" (15 # 100);
         emotion "anger" (8 # 100);
         emotion "surprise" (5 # 100);
         emotion "disgust" (2 # 100) ].

Definition section (title content : string) : JSON :=
  JObj [("title"%string, JStr (str title));
        ("content"%string, JStr (str content))].

Definition simulateTruthAnalysisReport (assemblyResult : TranscriptData)
           (huggingResult : JSON) : JSON :=
  JObj [ ("truthScore"%string, JNum (63 # 1));
         ("confidence"%string, JNum (78 # 1));
         ("summary"%string, JStr (str "The speaker shows moderate truthfulness with some indicators of potential deception. There are inconsistencies between vocal patterns and content."));
         ("detailedAnalysis"%string,
          JArr [ section "Emotional Analysis" "The speaker displays primarily neutral affect with underlying fear and sadness. This emotional profile may indicate anxiety about the topic or potential consequences.";
                 section "Communication Patterns" "Speech shows moderate pace with occasional hesitations. The tone is somewhat tentative, suggesting uncertainty or lack of confidence in the statements being made." ]) ].

Definition generateSimulatedResponse (audioFile : option File)
  : JsError + Response :=
  let assemblyResult := simulateAssemblyAIResults in
  let huggingResult := simulateHuggingFaceResults in
  let perplexityResult :=
    simulateTruthAnalysisReport assemblyResult huggingResult in
  match calculateWPM (text assemblyResult) (audio_duration assemblyResult) with
  | inl e => inl e
  | inr wpm =>
      inr (ok (Analysis (text assemblyResult)
                 {| Res.wordsPerMinute := wpm;
                    Res.confidence := confidence assemblyResult;
                    Res.audioDuration := audio_duration assemblyResult;
                    Res.sentiment :=
                      Some (sentiment_analysis_results assemblyResult) |}
                 huggingResult perplexityResult))
  end.

(** [app.post('/api/analyze-audio', ...)] *)
Definition handler (req_file : option File) : M Response :=
  try_catch
    (match req_file with
     | None => ret (badRequest "No audio file provided")
     | Some audioFile =>
         if negb (configured (ASSEMBLYAI_API_KEY cfg)) then
           lift (generateSimulatedResponse (Some audioFile))
         else
           assemblyResult <-
             try_catch (processWithAssemblyAI w (buffer audioFile))
               (fun assemblyError => ret simulateAssemblyAIResults) ;;
           huggingResult <-
             try_catch
               (if configured (HUGGING_FACE_TOKEN cfg) then
                  processWithHuggingFace (buffer audioFile)
                else throw (Error (str "Hugging Face not configured")))
               (fun huggingError => ret simulateHuggingFaceResults) ;;
           perplexityResult <-
             try_catch
               (if configured (PERPLEXITY_API_KEY cfg) then
                  processWithPerplexity assemblyResult huggingResult
                else throw (Error (str "Perplexity AI not configured")))
               (fun perplexityError =>
                  ret (simulateTruthAnalysisReport assemblyResult
                         huggingResult)) ;;
           let spoken :=
             str_or (text assemblyResult) (transcript assemblyResult) in
           let duration := num_or (audio_duration assemblyResult) (30 # 1) in
           wpm <- lift (calculateWPM spoken duration) ;;
           ret (ok (Analysis spoken
                      {| Res.wordsPerMinute := wpm;
                         Res.confidence :=
                           num_or (confidence assemblyResult) (85 # 100);
                         Res.audioDuration := duration;
                         Res.sentiment :=
                           Some (json_or
                                   (sentiment_analysis_results assemblyResult)
                                   JNull) |}
                      huggingResult perplexityResult))
     end)
    (fun error => lift (generateSimulatedResponse req_file)).

End Handler.
End Fallback.

(* ================================================================== *)
(** ** src/unnamed/part_000, first file: transcription only, with the
       upload, the job and the poll loop written in the route itself *)

Module Basic.
Section Handler.

Variable cfg : Config.
Variable w : World.

Definition handler (req_file : option File) : M Response :=
  try_catch
    (match req_file with
     | None => ret (badRequest "No audio file provided")
     | Some audioFile =>
         let assemblyAIKey := ASSEMBLYAI_API_KEY cfg in
         if negb (configured assemblyAIKey) then
           ret (serverError (str "Server configuration error") None)
         else
           audioUrl <- await_http (Upload (buffer audioFile))
                         (post_upload w (buffer audioFile)) ;;
           transcriptId <- await_http (Transcribe audioUrl)
                             (post_transcript w audioUrl) ;;
           after <- pollLoop w (S maxAttempts) transcriptId 0 None ;;
           let (attempts, result) := after in
           match result with
           | None => throw (TypeError "status")
           | Some result =>
               if has_status result "error" then
                 ret (serverError
                        (str "Audio processing failed: "
                           ++ str_or_lit (error result) (str "Unknown error"))
                        None)
               else if maxAttempts <=? attempts then
                 ret (serverError timeoutMessage None)
               else
                 ret (ok (Sentiments (text result)
                            (json_or (sentiment_analysis_results result)
                               (JArr []))))
           end
     end)
    (fun error =>
       ret (serverError
              (str_or_lit (Some (message error))
                 (str "Internal server error"))
              None)).

End Handler.
End Basic.

(* ================================================================== *)
(** ** src/unnamed/part_000, second file: transcription and emotion
       classification under [Promise.all], then Perplexity *)

Module Parallel.
Section Handler.

Variable cfg : Config.
Variable w : World.

Definition processWithHuggingFace (audioBuffer : Bytes) : M JSON :=
  if negb (configured (HUGGING_FACE_TOKEN cfg)) then
    throw (Error (str "Hugging Face not configured"))
  else
    try_catch
      (await_http (EmotionAudio audioBuffer)
         (post_emotion_audio w audioBuffer))
      (fun error => throw error).

Definition processWithPerplexity (assemblyResult : TranscriptData)
           (huggingResult : JSON) : M JSON :=
  if negb (configured (PERPLEXITY_API_KEY cfg)) then
    throw (Error (str "Perplexity AI not configured"))
  else
    try_catch
      (wpm <- lift (calculateWPM (text assemblyResult)
                      (audio_duration assemblyResult)) ;;
       let detailedAnalysisPrompt :=
         {| TRANSCRIPT := text assemblyResult;
            speech_wordsPerMinute := wpm;
            speech_confidence := confidence assemblyResult;
            speech_audioDuration := audio_duration assemblyResult;
            sentiment_analysis :=
              json_or (sentiment_analysis_results assemblyResult) (JObj []);
            EMOTION_ANALYSIS := huggingResult |} in
       await_http (Perplexity detailedAnalysisPrompt)
         (post_perplexity w detailedAnalysisPrompt))
      (fun error => throw error).

(** [await Promise.all([processWithAssemblyAI(buf),
                        processWithHuggingFace(buf).catch(...)])].

    Both async functions are started in turn, each running up to its
    first [await]: the upload is issued, then the emotion request (when
    a token is configured).  From there the two proceed independently;
    [sched] is the number of further transcription events that happen
    before the emotion request settles.  [Promise.all] is fulfilled when
    both are, and rejected as soon as transcription is: an emotion
    request still pending at that moment settles after the route has
    answered and leaves no trace in the log of the request. *)
Definition transcribe_and_classify (sched : nat) (audioBuffer : Bytes)
  : M (TranscriptData * JSON) :=
  fun st =>
    let (assembly, sa) :=
      processWithAssemblyAI w audioBuffer
        {| log := []; polls := polls st |} in
    let started := firstn 1 (log sa) in
    let rest := skipn 1 (log sa) in
    let (hugging, sh) :=
      try_catch (processWithHuggingFace audioBuffer)
        (fun error => ret (errorObject (message error)))
        {| log := []; polls := polls sa |} in
    let issued := firstn 1 (log sh) in
    let settled := skipn 1 (log sh) in
    let finish (events : list Event) : St :=
      {| log := log st ++ started ++ issued ++ events; polls := polls sh |} in
    match assembly, hugging with
    | Return assemblyResult, Return huggingResult =>
        (Return (assemblyResult, huggingResult),
         finish (firstn sched rest ++ settled ++ skipn sched rest))
    | Throw e, _ =>
        (Throw e,
         finish (if sched <? List.length rest
                 then firstn sched rest ++ settled ++ skipn sched rest
                 else rest))
    | Return _, Throw e => (Throw e, finish (rest ++ settled))
    | _, _ => (OutOfFuel, finish rest)
    end.

(** [app.post('/api/analyze-audio', ...)] *)
Definition handler (sched : nat) (req_file : option File) : M Response :=
  try_catch
    (match req_file with
     | None => ret (badRequest "No audio file provided")
     | Some audioFile =>
         if negb (configured (ASSEMBLYAI_API_KEY cfg)) then
           ret (serverError (str "AssemblyAI API key not configured") None)
         else
           both <- transcribe_and_classify sched (buffer audioFile) ;;
           let (assemblyResult, huggingResult) := both in
           perplexityResult <-
             (if configured (PERPLEXITY_API_KEY cfg) then
                try_catch
                  (processWithPerplexity assemblyResult huggingResult)
                  (fun pplxError =>
                     ret (errorObject (message pplxError)))
              else ret JNull) ;;
           wpm <- lift (calculateWPM (text assemblyResult)
                          (audio_duration assemblyResult)) ;;
           ret (ok (Analysis (text assemblyResult)
                      {| Res.wordsPerMinute := wpm;
                         Res.confidence := confidence assemblyResult;
                         Res.audioDuration := audio_duration assemblyResult;
                         Res.sentiment :=
                           Some (json_or
                                   (sentiment_analysis_results assemblyResult)
                                   JNull) |}
                      huggingResult perplexityResult))
     end)
    (fun error =>
       ret (serverError
              (str_or_lit (Some (message error))
                 (str "Internal server error"))
              (Some (match response_data error with
                     | Some data => json_or data JNull
                     | None => JNull
                     end)))).

End Handler.
End Parallel.

(* ================================================================== *)
(** ** src/unnamed/part_001: transcription, then Hugging Face on the
       transcript, then IBM Watson *)

Module Watson.
Section Handler.

Variable cfg : Config.
Variable w : World.

Definition processWithHuggingFace (txt : option jsstring) : M JSON :=
  if negb (configured (HUGGING_FACE_TOKEN cfg)) then
    ret (errorObject (str "Hugging Face not configured"))
  else
    try_catch
      (await_http (EmotionText txt) (post_emotion_text w txt))
      (fun error => throw error).

Definition processWithIBMWatson (txt : option jsstring) : M JSON :=
  if negb (configured (IBM_WATSON_API_KEY cfg))
     || negb (configured (IBM_WATSON_URL cfg)) then
    ret (errorObject (str "IBM Watson not configured"))
  else
    try_catch
      (await_http (Tone txt) (post_tone w txt))
      (fun error => throw error).

(** [app.post('/api/analyze-audio', ...)] *)
Definition handler (req_file : option File) : M Response :=
  try_catch
    (match req_file with
     | None => ret (badRequest "No audio file provided")
     | Some audioFile =>
         if negb (configured (ASSEMBLYAI_API_KEY cfg)) then
           ret (serverError (str "AssemblyAI API key not configured") None)
         else
           assemblyResult <- processWithAssemblyAI w (buffer audioFile) ;;
           huggingResult <-
             (if configured (HUGGING_FACE_TOKEN cfg) then
                try_catch (processWithHuggingFace (text assemblyResult))
                  (fun hfError => ret (errorObject (message hfError)))
              else ret JNull) ;;
           ibmResult <-
             (if configured (IBM_WATSON_API_KEY cfg)
                 && configured (IBM_WATSON_URL cfg) then
                try_catch (processWithIBMWatson (text assemblyResult))
                  (fun ibmError => ret (errorObject (message ibmError)))
              else ret JNull) ;;
           wpm <- lift (calculateWPM (text assemblyResult)
                          (audio_duration assemblyResult)) ;;
           ret (ok (Tones (text assemblyResult)
                      {| Res.wordsPerMinute := wpm;
                         Res.confidence := confidence assemblyResult;
                         Res.audioDuration := audio_duration assemblyResult;
                         Res.sentiment := None |}
                      huggingResult ibmResult
                      (json_or (sentiment_analysis_results assemblyResult)
                         JNull)))
     end)
    (fun error =>
       ret (serverError
              (str_or_lit (Some (message error))
                 (str "Internal server error"))
              (Some (match response_data error with
                     | Some data => json_or data JNull
                     | None => JNull
                     end)))).

End Handler.
End Watson.

(* ================================================================== *)
(** ** Vocabulary for the logs *)

(** The events of one turn of the poll loop on job [id]. *)
Definition turn (id : option jsstring) (ok : bool) : list Event :=
  [Sleep 3000; Call (Status id); Settle (Status id) ok].

Definition after_turn (id : option jsstring) (st : St) (ok : bool) : St :=
  {| log := log st ++ turn id ok; polls := S (polls st) |}.

Definition add_log (st : St) (events : list Event) : St :=
  {| log := log st ++ events; polls := polls st |}.

(** The four events of a successful upload and job submission. *)
Definition submitted (audio : Bytes) (url : option jsstring) : list Event :=
  [Call (Upload audio); Settle (Upload audio) true;
   Call (Transcribe url); Settle (Transcribe url) true].

Definition transcription_request (r : Request) : bool :=
  match r with
  | Upload _ | Transcribe _ | Status _ => true
  | _ => false
  end.

(** Events of the transcription client, the sleeps of its loop included. *)
Definition transcription_event (e : Event) : bool :=
  match e with
  | Call r | Settle r _ => transcription_request r
  | Sleep _ => true
  end.

Definition emotion_request (r : Request) : bool :=
  match r with
  | EmotionAudio _ | EmotionText _ => true
  | _ => false
  end.

Definition emotion_event (e : Event) : bool :=
  match e with
  | Call r | Settle r _ => emotion_request r
  | Sleep _ => false
  end.

(** Requests whose body is built from the transcript text. *)
Definition consumes_transcript (r : Request) : bool :=
  match r with
  | EmotionText _ | Perplexity _ | Tone _ => true
  | _ => false
  end.

Definition enrichment_request (r : Request) : bool :=
  negb (transcription_request r).

(** The requests issued in a log, in order. *)
Definition calls (l : list Event) : list Request :=
  flat_map (fun e => match e with Call r => [r] | _ => [] end) l.

(** The requests sent to the enrichment providers, in order. *)
Definition enrichment_calls (l : list Event) : list Request :=
  filter enrichment_request (calls l).

Definition is_perplexity (r : Request) : bool :=
  match r with Perplexity _ => true | _ => false end.

Definition status_calls (l : list Event) : nat :=
  List.length (filter (fun r => match r with Status _ => true | _ => false end)
                 (calls l)).

(** After the loop: [result.status === 'error'], then the timeout test. *)
Definition after_loop (r : Outcome (nat * option TranscriptData) * St)
  : Outcome TranscriptData * St :=
  match r with
  | (Return (attempts, Some result), st') =>
      if has_status result "error" then
        (Throw (Error (str_or_lit (error result)
                         (str "Audio processing failed"))), st')
      else if maxAttempts <=? attempts then (Throw (Error timeoutMessage), st')
      else (Return result, st')
  | (Return (_, None), st') => (Throw (TypeError "status"), st')
  | (Throw e, st') => (Throw e, st')
  | (OutOfFuel, st') => (OutOfFuel, st')
  end.

(* ================================================================== *)
(** ** The words-per-minute metric as the specification words it *)

Definition nonempty (tok : jsstring) : bool :=
  match tok with [] => false | _ => true end.

(** A text that is not empty and neither starts nor ends with whitespace. *)
Definition trimmed (t : jsstring) : bool :=
  match t with
  | [] => false
  | c :: _ => negb (isWhiteSpace c) && negb (isWhiteSpace (last t 0%N))
  end.

(** Word count: split on runs of whitespace, count the non-empty tokens. *)
Definition spec_wordCount (t : jsstring) : nat :=
  List.length
    (filter nonempty (split_whitespace t)).

(** [round(wordCount(text) / (duration/60))], 0 when the duration is zero
    or absent. *)
Definition spec_wordsPerMinute (t : jsstring) (duration : option Q) : Z :=
  match duration with
  | None => 0%Z
  | Some d =>
      if Qeq_bool d 0 then 0%Z
      else Math_round (inject_Z (Z.of_nat (spec_wordCount t)) / (d / 60))%Q
  end.

(* ================================================================== *)
(** ** The canned answer of the fallback variant, written out *)

Definition simulatedTranscript : jsstring :=
  str "I'm telling you, I really didn't know about the meeting. It must have been a communication error somewhere in the system. I would never intentionally miss something that important.".

Definition simulatedResponse : Response :=
  {| Res.code := 200;
     Res.success := true;
     Res.payload :=
       Analysis (Some simulatedTranscript)
         {| Res.wordsPerMinute := 58;
            Res.confidence := Some (85 # 100)%Q;
            Res.audioDuration := Some (30 # 1)%Q;
            Res.sentiment :=
              Some (JObj [("text"%string, JStr (str "neutral"))]) |}
         (JArr [ JObj [("label"%string, JStr (str "neutral"));
                       ("score"%string, JNum (45 # 100))];
                 JObj [("label"%string, JStr (str "fear"));
                       ("score"%string, JNum (25 # 100))];
                 JObj [("label"%string, JStr (str "sadness"));
                       ("score"%string, JNum (15 # 100))];
                 JObj [("label"%string, JStr (str "anger"));
                       ("score"%string, JNum (8 # 100))];
                 JObj [("label"%string, JStr (str "surprise"));
                       ("score"%string, JNum (5 # 100))];
                 JObj [("label"%string, JStr (str "disgust"));
                       ("score"%string, JNum (2 # 100))] ])
         (Fallback.simulateTruthAnalysisReport
            Fallback.simulateAssemblyAIResults
            Fallback.simulateHuggingFaceResults) |}.

(* ================================================================== *)
(** ** The enrichment steps of each route, slot by slot

    For each enrichment step: the value the route stores in the slot of the
    response, and the events the step adds to the log. *)

Definition settled {A} (r : Request) (answer : JsError + A) : list Event :=
  [Call r; Settle r (is_ok answer)].

Definition fallback_emotions (cfg : Config) (w : World) (audio : Bytes)
  : JSON * list Event :=
  if configured (HUGGING_FACE_TOKEN cfg) then
    (match post_emotion_audio w audio with
     | inr j => j
     | inl _ => Fallback.simulateHuggingFaceResults
     end,
     settled (EmotionAudio audio) (post_emotion_audio w audio))
  else (Fallback.simulateHuggingFaceResults, []).

Definition fallback_prompt (a : TranscriptData) (h : JSON) (wpm : Z) : Prompt :=
  {| TRANSCRIPT := str_or (text a) (transcript a);
     speech_wordsPerMinute := wpm;
     speech_confidence := num_or (confidence a) (85 # 100);
     speech_audioDuration := num_or (audio_duration a) (30 # 1);
     sentiment_analysis := json_or (sentiment_analysis_results a) (JObj []);
     EMOTION_ANALYSIS := h |}.

Definition fallback_report (cfg : Config) (w : World) (a : TranscriptData)
           (h : JSON) : JSON * list Event :=
  if configured (PERPLEXITY_API_KEY cfg) then
    match calculateWPM (str_or (text a) (transcript a))
            (num_or (audio_duration a) (30 # 1)) with
    | inl _ => (Fallback.simulateTruthAnalysisReport a h, [])
    | inr wpm =>
        (match post_perplexity w (fallback_prompt a h wpm) with
         | inr j => j
         | inl _ => Fallback.simulateTruthAnalysisReport a h
         end,
         settled (Perplexity (fallback_prompt a h wpm))
           (post_perplexity w (fallback_prompt a h wpm)))
    end
  else (Fallback.simulateTruthAnalysisReport a h, []).

Definition fallback_answer (a : TranscriptData) (h p : JSON) : Response :=
  match calculateWPM (str_or (text a) (transcript a))
          (num_or (audio_duration a) (30 # 1)) with
  | inl _ => simulatedResponse
  | inr wpm =>
      ok (Analysis (str_or (text a) (transcript a))
            {| Res.wordsPerMinute := wpm;
               Res.confidence := num_or (confidence a) (85 # 100);
               Res.audioDuration := num_or (audio_duration a) (30 # 1);
               Res.sentiment :=
                 Some (json_or (sentiment_analysis_results a) JNull) |}
            h p)
  end.

(** The answer of the routes that report a thrown error:
    [{success: false, error: error.message || 'Internal server error',
      details: error.response?.data || null}] with status 500. *)
Definition failure (e : JsError) : Response :=
  serverError
    (str_or_lit (Some (message e)) (str "Internal server error"))
    (Some (match response_data e with
           | Some data => json_or data JNull
           | None => JNull
           end)).

(** [Parallel]: the emotion slot, the event of the request being issued
    and the event of its promise settling. *)
Definition parallel_emotions (cfg : Config) (w : World) (audio : Bytes)
  : JSON * (list Event * list Event) :=
  if configured (HUGGING_FACE_TOKEN cfg) then
    (match post_emotion_audio w audio with
     | inr j => j
     | inl e => errorObject (message e)
     end,
     ([Call (EmotionAudio audio)],
      [Settle (EmotionAudio audio) (is_ok (post_emotion_audio w audio))]))
  else (errorObject (str "Hugging Face not configured"), ([], [])).

Definition parallel_prompt (a : TranscriptData) (h : JSON) (wpm : Z) : Prompt :=
  {| TRANSCRIPT := text a;
     speech_wordsPerMinute := wpm;
     speech_confidence := confidence a;
     speech_audioDuration := audio_duration a;
     sentiment_analysis := json_or (sentiment_analysis_results a) (JObj []);
     EMOTION_ANALYSIS := h |}.

Definition parallel_report (cfg : Config) (w : World) (a : TranscriptData)
           (h : JSON) : JSON * list Event :=
  if configured (PERPLEXITY_API_KEY cfg) then
    match calculateWPM (text a) (audio_duration a) with
    | inl e => (errorObject (message e), [])
    | inr wpm =>
        (match post_perplexity w (parallel_prompt a h wpm) with
         | inr j => j
         | inl e => errorObject (message e)
         end,
         settled (Perplexity (parallel_prompt a h wpm))
           (post_perplexity w (parallel_prompt a h wpm)))
    end
  else (JNull, []).

Definition parallel_answer (a : TranscriptData) (h p : JSON) : Response :=
  match calculateWPM (text a) (audio_duration a) with
  | inl e => failure e
  | inr wpm =>
      ok (Analysis (text a)
            {| Res.wordsPerMinute := wpm;
               Res.confidence := confidence a;
               Res.audioDuration := audio_duration a;
               Res.sentiment :=
                 Some (json_or (sentiment_analysis_results a) JNull) |}
            h p)
  end.

(** The log after [Promise.all]: [la] are the events of transcription run
    on its own, [issued] and [done] those of the emotion request. *)
Definition interleaved (sched : nat) (la issued done : list Event)
  : list Event :=
  firstn 1 la ++ issued
    ++ firstn sched (skipn 1 la) ++ done ++ skipn sched (skipn 1 la).

Definition abandoned (sched : nat) (la issued done : list Event)
  : list Event :=
  firstn 1 la ++ issued
    ++ (if sched <? List.length (skipn 1 la)
        then firstn sched (skipn 1 la) ++ done ++ skipn sched (skipn 1 la)
        else skipn 1 la).

(** [Watson]: the emotion and tone slots. *)
Definition watson_emotions (cfg : Config) (w : World) (t : option jsstring)
  : JSON * list Event :=
  if configured (HUGGING_FACE_TOKEN cfg) then
    (match post_emotion_text w t with
     | inr j => j
     | inl e => errorObject (message e)
     end,
     settled (EmotionText t) (post_emotion_text w t))
  else (JNull, []).

Definition watson_tones (cfg : Config) (w : World) (t : option jsstring)
  : JSON * list Event :=
  if configured (IBM_WATSON_API_KEY cfg) && configured (IBM_WATSON_URL cfg) then
    (match post_tone w t with
     | inr j => j
     | inl e => errorObject (message e)
     end,
     settled (Tone t) (post_tone w t))
  else (JNull, []).

Definition watson_answer (a : TranscriptData) (h i : JSON) : Response :=
  match calculateWPM (text a) (audio_duration a) with
  | inl e => failure e
  | inr wpm =>
      ok (Tones (text a)
            {| Res.wordsPerMinute := wpm;
               Res.confidence := confidence a;
               Res.audioDuration := audio_duration a;
               Res.sentiment := None |}
            h i (json_or (sentiment_analysis_results a) JNull))
  end.

(* ================================================================== *)
(** ** Two runs against the same transcription service *)

(** The world [w] with other enrichment providers. *)
Definition with_enrichment (w : World)
           (emotion_audio : Bytes -> JsError + JSON)
           (emotion_text : option jsstring -> JsError + JSON)
           (perplexity : Prompt -> JsError + JSON)
           (tone : option jsstring -> JsError + JSON) : World :=
  {| post_upload := post_upload w;
     post_transcript := post_transcript w;
     get_transcript := get_transcript w;
     post_emotion_audio := emotion_audio;
     post_emotion_text := emotion_text;
     post_perplexity := perplexity;
     post_tone := tone |}.

(** Both runs answer, with the same [success], [transcript] and
    [audioMetrics]. *)
Definition same_transcript_and_metrics (x y : Outcome Response * St) : Prop :=
  exists r1 s1 r2 s2,
    x = (Return r1, s1) /\ y = (Return r2, s2)
    /\ Res.success r1 = Res.success r2
    /\ Res.transcript_of r1 = Res.transcript_of r2
    /\ Res.audioMetrics_of r1 = Res.audioMetrics_of r2.

(* ================================================================== *)
(** ** The response invariant *)

(** The invariant as the specification states it, for a response [r]
    emitted by a run whose transcription ended as [transcription]: either
    [success: true] with a transcript that is not null and does not stand in
    for a failed transcription, or an explicit error object. *)
Definition response_invariant (transcription : Outcome TranscriptData)
           (r : Response) : Prop :=
  (Res.success r = true
   /\ Res.transcript_of r <> None
   /\ ~ (exists e, transcription = Throw e))
  \/ Res.is_error_object r = true.

(** What the routes without fallback guarantee: [success: true] comes with
    the text of the job that completed. *)
Definition strict_invariant (transcription : Outcome TranscriptData)
           (r : Response) : Prop :=
  (Res.success r = true
   /\ exists t, transcription = Return t
               /\ has_status t "completed" = true
               /\ Res.transcript_of r = text t)
  \/ Res.is_error_object r = true.

(** What the fallback route guarantees on a request with a file:
    [success: true] with the non-empty text of the completed job, or with
    the simulated transcript. *)
Definition fallback_invariant (transcription : Outcome TranscriptData)
           (r : Response) : Prop :=
  Res.success r = true
  /\ ((exists t s, transcription = Return t
                  /\ has_status t "completed" = true
                  /\ str_or (text t) (transcript t) = Some s
                  /\ Res.transcript_of r = Some s)
      \/ Res.transcript_of r = Some simulatedTranscript).

(* ================================================================== *)
(** ** A failed upload *)

(** What the specification says of a run whose upload failed: the response
    has [success: false] and no enrichment provider was called. *)
Definition aborts_without_enrichment (run : Outcome Response * St) : Prop :=
  exists r s,
    run = (Return r, s)
    /\ Res.success r = false
    /\ enrichment_calls (log s) = [].

(** A slot holding the tagged placeholder [{error: <message>}]. *)
Definition tagged_placeholder (slot : option JSON) : Prop :=
  exists msg, slot = Some (errorObject msg).

(* ================================================================== *)
(** ** Order of the calls *)

Definition consumer_call (e : Event) : bool :=
  match e with Call r => consumes_transcript r | _ => false end.

Definition perplexity_call (e : Event) : bool :=
  match e with Call r => is_perplexity r | _ => false end.

(** No event of the transcription client comes after the call of a request
    built from the transcript text. *)
Definition after_transcription (l : list Event) : Prop :=
  forall l1 r l2,
    l = l1 ++ Call r :: l2 ->
    consumes_transcript r = true ->
    forallb (fun e => negb (transcription_event e)) l2 = true.

(** When the generative-analysis request is issued, every emotion request
    issued so far has settled, and no event of an emotion request follows. *)
Definition after_emotion (l : list Event) : Prop :=
  forall l1 r l2,
    l = l1 ++ Call r :: l2 ->
    is_perplexity r = true ->
    forallb (fun e => negb (emotion_event e)) l2 = true
    /\ forall q, emotion_request q = true ->
                 In (Call q) l1 -> exists ok, In (Settle q ok) l1.

(** A run in which every enrichment call comes after what it depends on;
    the prompt sent to Perplexity carries the value of the emotion slot. *)
Definition ordered_run (run : Outcome Response * St) : Prop :=
  after_transcription (log (snd run))
  /\ after_emotion (log (snd run))
  /\ forall prompt,
       In (Call (Perplexity prompt)) (log (snd run)) ->
       exists r, fst run = Return r
                 /\ Res.emotions_of r = Some (EMOTION_ANALYSIS prompt).

(* ================================================================== *)
(** ** Sample configurations, services and requests *)

Module Sample.

Definition demoFile : File :=
  {| buffer := [Byte.x52; Byte.x49; Byte.x46; Byte.x46] |}.

Definition noKeys : Config :=
  {| ASSEMBLYAI_API_KEY := None; HUGGING_FACE_TOKEN := None;
     PERPLEXITY_API_KEY := None; IBM_WATSON_API_KEY := None;
     IBM_WATSON_URL := None |}.

Definition allKeys : Config :=
  {| ASSEMBLYAI_API_KEY := Some (str "aai-key");
     HUGGING_FACE_TOKEN := Some (str "hf-token");
     PERPLEXITY_API_KEY := Some (str "pplx-key");
     IBM_WATSON_API_KEY := Some (str "ibm-key");
     IBM_WATSON_URL := Some (str "https://watson.example") |}.

(** Transcription and emotion classification, no generative analysis. *)
Definition noPerplexity : Config :=
  {| ASSEMBLYAI_API_KEY := Some (str "aai-key");
     HUGGING_FACE_TOKEN := Some (str "hf-token");
     PERPLEXITY_API_KEY := None; IBM_WATSON_API_KEY := None;
     IBM_WATSON_URL := None |}.

Definition transcriptionOnly : Config :=
  {| ASSEMBLYAI_API_KEY := Some (str "aai-key");
     HUGGING_FACE_TOKEN := None;
     PERPLEXITY_API_KEY := None; IBM_WATSON_API_KEY := None;
     IBM_WATSON_URL := None |}.

Definition networkError : JsError :=
  mkError (str "connect ECONNREFUSED") None.

Definition job (state : string) (spoken : option jsstring) : TranscriptData :=
  {| status := Some (str state);
     text := spoken;
     transcript := None;
     confidence := Some (9 # 10);
     audio_duration := Some (30 # 1);
     sentiment_analysis_results := JNull;
     error := None |}.

Definition sixWords : jsstring := str "one two three four five six".

Definition joy : JSON :=
  JArr [JObj [("label"%string, JStr (str "joy"));
              ("score"%string, JNum (9 # 10))]].

Definition report : JSON :=
  JObj [("choices"%string, JArr [JStr (str "assessment")])].

(** Every service answers; the job is [processing] for the first [n]
    status requests and [completed], with text [spoken], from then on. *)
Definition completesAfter (n : nat) (spoken : option jsstring) : World :=
  {| post_upload := fun _ => inr (Some (str "https://cdn.example/upload/1"));
     post_transcript := fun _ => inr (Some (str "job-1"));
     get_transcript := fun _ k =>
       inr (if k <? n then job "processing" None else job "completed" spoken);
     post_emotion_audio := fun _ => inr joy;
     post_emotion_text := fun _ => inr joy;
     post_perplexity := fun _ => inr report;
     post_tone := fun _ => inr report |}.

(** The job stays [processing] for ever. *)
Definition neverCompletes : World :=
  {| post_upload := fun _ => inr (Some (str "https://cdn.example/upload/1"));
     post_transcript := fun _ => inr (Some (str "job-1"));
     get_transcript := fun _ _ => inr (job "processing" None);
     post_emotion_audio := fun _ => inr joy;
     post_emotion_text := fun _ => inr joy;
     post_perplexity := fun _ => inr report;
     post_tone := fun _ => inr report |}.

(** The upload is refused at the network level; the enrichment
    providers would answer. *)
Definition uploadDown : World :=
  {| post_upload := fun _ => inl networkError;
     post_transcript := fun _ => inr (Some (str "job-1"));
     get_transcript := fun _ _ => inr (job "completed" (Some sixWords));
     post_emotion_audio := fun _ => inr joy;
     post_emotion_text := fun _ => inr joy;
     post_perplexity := fun _ => inr report;
     post_tone := fun _ => inr report |}.

(** Transcription works, both enrichment providers are unreachable. *)
Definition enrichmentDown : World :=
  {| post_upload := fun _ => inr (Some (str "https://cdn.example/upload/1"));
     post_transcript := fun _ => inr (Some (str "job-1"));
     get_transcript := fun _ _ => inr (job "completed" (Some sixWords));
     post_emotion_audio := fun _ => inl networkError;
     post_emotion_text := fun _ => inl networkError;
     post_perplexity := fun _ => inl networkError;
     post_tone := fun _ => inl networkError |}.

End Sample.

(* ================================================================== *)
(** ** The health routes *)

Module Health.

(** The body of [GET /api/health]; [services] is missing in the variant
    that only transcribes. *)
Record Body : Type := {
  success : bool;
  message : jsstring;
  timestamp : jsstring;
  services : option (list (string * bool))
}.

(** [services.<name>] *)
Fixpoint flag (name : string) (l : list (string * bool)) : option bool :=
  match l with
  | [] => None
  | (k, b) :: l' => if String.eqb k name then Some b else flag name l'
  end.

Definition service (body : Body) (name : string) : option bool :=
  match services body with
  | Some l => flag name l
  | None => None
  end.

End Health.

(** [app.get('/api/health', ...)] of src/api/audio-analysis.js; [now] is
    [new Date().toISOString()]. *)
Definition Fallback_health (cfg : Config) (now : jsstring) : Health.Body :=
  {| Health.success := true;
     Health.message := str "EMORECO Backend is running";
     Health.timestamp := now;
     Health.services :=
       Some [("assemblyAI"%string, configured (ASSEMBLYAI_API_KEY cfg));
             ("huggingFace"%string, configured (HUGGING_FACE_TOKEN cfg));
             ("perplexityAI"%string, configured (PERPLEXITY_API_KEY cfg))] |}.

(** The same route in the second file of src/unnamed/part_000. *)
Definition Parallel_health (cfg : Config) (now : jsstring) : Health.Body :=
  {| Health.success := true;
     Health.message := str "EMORECO Backend is running";
     Health.timestamp := now;
     Health.services :=
       Some [("assemblyAI"%string, configured (ASSEMBLYAI_API_KEY cfg));
             ("huggingFace"%string, configured (HUGGING_FACE_TOKEN cfg));
             ("perplexityAI"%string, configured (PERPLEXITY_API_KEY cfg))] |}.

(** The same route in src/unnamed/part_001: [ibmWatson] only looks at the
    API key, not at the URL. *)
Definition Watson_health (cfg : Config) (now : jsstring) : Health.Body :=
  {| Health.success := true;
     Health.message := str "EMORECO Backend is running";
     Health.timestamp := now;
     Health.services :=
       Some [("assemblyAI"%string, configured (ASSEMBLYAI_API_KEY cfg));
             ("huggingFace"%string, configured (HUGGING_FACE_TOKEN cfg));
             ("ibmWatson"%string, configured (IBM_WATSON_API_KEY cfg))] |}.

(** The same route in the first file of src/unnamed/part_000. *)
Definition Basic_health (now : jsstring) : Health.Body :=
  {| Health.success := true;
     Health.message := str "EMORECO Backend is running";
     Health.timestamp := now;
     Health.services := None |}.

(* ================================================================== *)
(** ** Measures of a log *)

(** The time spent in [setTimeout], in milliseconds. *)
Fixpoint total_sleep (l : list Event) : Z :=
  match l with
  | [] => 0
  | Sleep ms :: l' => ms + total_sleep l'
  | _ :: l' => total_sleep l'
  end.

(** The number of HTTP requests issued. *)
Definition request_count (l : list Event) : nat := List.length (calls l).

(** A run that issued at most [n] HTTP requests and slept at most 90 s. *)
Definition bounded_cost (n : nat) (run : Outcome Response * St) : Prop :=
  (request_count (log (snd run)) <= n)%nat
  /\ (0 <= total_sleep (log (snd run)) <= 90000)%Z.

Definition is_tone (r : Request) : bool :=
  match r with Tone _ => true | _ => false end.

(** A run in which no request of the kind [P] was issued. *)
Definition never_requests (P : Request -> bool)
           (run : Outcome Response * St) : Prop :=
  forallb (fun r => negb (P r)) (calls (log (snd run))) = true.

(** An event that is not the call of a request of the kind [P]. *)
Definition not_calling (P : Request -> bool) (e : Event) : bool :=
  match e with
  | Call r => negb (P r)
  | _ => true
  end.

(** The run starts by uploading [audio]. *)
Definition starts_with_upload (audio : Bytes) (st : St)
           (run : Outcome Response * St) : Prop :=
  exists r T, fst run = Return r
              /\ log (snd run) = log st ++ Call (Upload audio) :: T.


(** The response reports what the prompt told Perplexity: transcript,
    speech metrics and emotion analysis. *)
Definition prompt_matches (prompt : Prompt) (r : Response) : Prop :=
  Res.transcript_of r = TRANSCRIPT prompt
  /\ Res.emotions_of r = Some (EMOTION_ANALYSIS prompt)
  /\ exists m,
       Res.audioMetrics_of r = Some m
       /\ Res.wordsPerMinute m = speech_wordsPerMinute prompt
       /\ Res.confidence m = speech_confidence prompt
       /\ Res.audioDuration m = speech_audioDuration prompt.

(* ================================================================== *)
(** ** More sample services *)

Module Scenario.

Definition failedJob (msg : option jsstring) : TranscriptData :=
  {| status := Some (str "error");
     text := None;
     transcript := None;
     confidence := None;
     audio_duration := None;
     sentiment_analysis_results := JNull;
     error := msg |}.

(** The job is [processing] for the first [n] status requests and then
    fails upstream with message [msg]. *)
Definition failsAfter (n : nat) (msg : option jsstring) : World :=
  {| post_upload := fun _ => inr (Some (str "https://cdn.example/upload/1"));
     post_transcript := fun _ => inr (Some (str "job-1"));
     get_transcript := fun _ k =>
       inr (if k <? n then Sample.job "processing" None else failedJob msg);
     post_emotion_audio := fun _ => inr Sample.joy;
     post_emotion_text := fun _ => inr Sample.joy;
     post_perplexity := fun _ => inr Sample.report;
     post_tone := fun _ => inr Sample.report |}.

(** The status endpoint becomes unreachable after [n] answers. *)
Definition statusDownAfter (n : nat) : World :=
  {| post_upload := fun _ => inr (Some (str "https://cdn.example/upload/1"));
     post_transcript := fun _ => inr (Some (str "job-1"));
     get_transcript := fun _ k =>
       if k <? n then inr (Sample.job "processing" None)
       else inl Sample.networkError;
     post_emotion_audio := fun _ => inr Sample.joy;
     post_emotion_text := fun _ => inr Sample.joy;
     post_perplexity := fun _ => inr Sample.report;
     post_tone := fun _ => inr Sample.report |}.

(** A completed job as the service could send it: any text, confidence and
    duration. *)
Definition completed (spoken : option jsstring) (conf duration : option Q)
  : TranscriptData :=
  {| status := Some (str "completed");
     text := spoken;
     transcript := None;
     confidence := conf;
     audio_duration := duration;
     sentiment_analysis_results := JNull;
     error := None |}.

(** Every service answers, the job being completed at the first status
    request with the given result. *)
Definition answers (job : TranscriptData) : World :=
  {| post_upload := fun _ => inr (Some (str "https://cdn.example/upload/1"));
     post_transcript := fun _ => inr (Some (str "job-1"));
     get_transcript := fun _ _ => inr job;
     post_emotion_audio := fun _ => inr Sample.joy;
     post_emotion_text := fun _ => inr Sample.joy;
     post_perplexity := fun _ => inr Sample.report;
     post_tone := fun _ => inr Sample.report |}.

(** Every key but the URL of IBM Watson. *)
Definition noWatsonUrl : Config :=
  {| ASSEMBLYAI_API_KEY := Some (str "aai-key");
     HUGGING_FACE_TOKEN := Some (str "hf-token");
     PERPLEXITY_API_KEY := Some (str "pplx-key");
     IBM_WATSON_API_KEY := Some (str "ibm-key");
     IBM_WATSON_URL := None |}.

End Scenario.

(* ================================================================== *)
(** * Properties *)

Open Scope nat_scope.

(** ** Running the monad *)

Ltac unfold_monad :=
  unfold bind, try_catch, await_http, sleep, emit, lift, ret, throw in *.

(** Simplify logs and counters, leaving the budget of the loop folded. *)
Ltac simpl_log := cbn -[maxAttempts Nat.sub].

Lemma await_http_run {A} (r : Request) (answer : JsError + A) st :
  await_http r answer st =
  (match answer with inr a => Return a | inl e => Throw e end,
   {| log := log st ++ [Call r; Settle r (is_ok answer)]; polls := polls st |}).
Proof.
  unfold_monad. destruct answer; cbn; rewrite <- app_assoc; reflexivity.
Qed.

(** ** The poll loop *)

Section PollLoop.

Variable w : World.
Variable id : option jsstring.

Lemma pollLoop_step fuel attempts result st :
  pollLoop w (S fuel) id attempts result st =
  if attempts <? maxAttempts then
    match get_transcript w id (polls st) with
    | inl e => (Throw e, after_turn id st false)
    | inr r =>
        if terminal r then (Return (attempts, Some r), after_turn id st true)
        else pollLoop w fuel id (S attempts) (Some r) (after_turn id st true)
    end
  else (Return (attempts, result), st).
Proof.
  cbn [pollLoop]. destruct (attempts <? maxAttempts); [|reflexivity].
  unfold bind at 1. unfold sleep, emit. unfold bind at 1.
  unfold get_status. rewrite await_http_run. cbn [log polls].
  unfold after_turn, turn.
  destruct (get_transcript w id (polls st)) as [e|r]; cbn [is_ok];
    rewrite <- app_assoc; cbn [app]; [reflexivity|].
  destruct (terminal r); reflexivity.
Qed.

(** Whatever the service answers, the loop ends, after at most
    [maxAttempts - attempts] turns, each a 3 s sleep and one request. *)
Lemma pollLoop_total fuel : forall attempts result st,
  maxAttempts - attempts < fuel ->
  exists out st' oks,
    pollLoop w fuel id attempts result st = (out, st')
    /\ log st' = log st ++ flat_map (turn id) oks
    /\ polls st' = polls st + List.length oks
    /\ List.length oks <= maxAttempts - attempts
    /\ out <> OutOfFuel.
Proof.
  induction fuel as [|fuel IH]; intros attempts result st Hfuel; [lia|].
  rewrite pollLoop_step.
  destruct (attempts <? maxAttempts) eqn:Hlt.
  - apply Nat.ltb_lt in Hlt.
    destruct (get_transcript w id (polls st)) as [e|r].
    + exists (Throw e), (after_turn id st false), [false]. simpl_log.
      repeat split; try lia; try discriminate.
    + destruct (terminal r).
      * exists (Return (attempts, Some r)), (after_turn id st true), [true].
        simpl_log. repeat split; try lia; try discriminate.
      * destruct (IH (S attempts) (Some r) (after_turn id st true))
          as (out & st' & oks & Hrun & Hlog & Hpolls & Hlen & Hout); [lia|].
        exists out, st', (true :: oks). rewrite Hrun, Hlog, Hpolls.
        simpl_log. rewrite <- app_assoc. simpl_log.
        repeat split; try lia; assumption.
  - exists (Return (attempts, result)), st, []. simpl_log.
    rewrite app_nil_r. repeat split; try lia; discriminate.
Qed.

(** [n] pending answers in a row exhaust the budget that is left. *)
Lemma pollLoop_pending n : forall fuel attempts result st rs,
  attempts + n = maxAttempts ->
  n < fuel ->
  (forall k, k < n ->
     get_transcript w id (polls st + k) = inr (rs k)
     /\ terminal (rs k) = false) ->
  exists st',
    pollLoop w fuel id attempts result st =
      (Return (maxAttempts,
               match n with O => result | S m => Some (rs m) end), st')
    /\ log st' = log st ++ flat_map (turn id) (repeat true n)
    /\ polls st' = polls st + n.
Proof.
  induction n as [|n IH]; intros fuel attempts result st rs Ha Hfuel Hrs;
    (destruct fuel as [|fuel]; [lia|]); rewrite pollLoop_step.
  - replace (attempts <? maxAttempts) with false
      by (symmetry; apply Nat.ltb_ge; lia).
    exists st. simpl_log. rewrite app_nil_r, Nat.add_0_r.
    replace attempts with maxAttempts by lia. auto.
  - replace (attempts <? maxAttempts) with true
      by (symmetry; apply Nat.ltb_lt; lia).
    destruct (Hrs 0) as [Hget Hterm]; [lia|].
    rewrite Nat.add_0_r in Hget. rewrite Hget, Hterm.
    destruct (IH fuel (S attempts) (Some (rs 0)) (after_turn id st true)
                (fun k => rs (S k))) as (st' & Hrun & Hlog & Hpolls).
    + lia.
    + lia.
    + intros k Hk. cbn [after_turn polls].
      replace (S (polls st) + k) with (polls st + S k) by lia.
      apply Hrs. lia.
    + exists st'. rewrite Hrun, Hlog, Hpolls. cbn [after_turn log polls].
      split; [destruct n; reflexivity|].
      split; [|lia].
      cbn [repeat flat_map]. rewrite <- app_assoc. reflexivity.
Qed.

(** [k] pending answers followed by a terminal one, within the budget:
    the loop breaks with the terminal answer and [attempts] unchanged
    by the last turn. *)
Lemma pollLoop_terminal k : forall fuel attempts result st rs r,
  attempts + k < maxAttempts ->
  k < fuel ->
  (forall j, j < k ->
     get_transcript w id (polls st + j) = inr (rs j)
     /\ terminal (rs j) = false) ->
  get_transcript w id (polls st + k) = inr r ->
  terminal r = true ->
  exists st',
    pollLoop w fuel id attempts result st
      = (Return (attempts + k, Some r), st')
    /\ log st' = log st ++ flat_map (turn id) (repeat true (S k))
    /\ polls st' = polls st + S k.
Proof.
  induction k as [|k IH]; intros fuel attempts result st rs r Ha Hfuel Hrs Hr Ht;
    (destruct fuel as [|fuel]; [lia|]); rewrite pollLoop_step;
    (replace (attempts <? maxAttempts) with true
      by (symmetry; apply Nat.ltb_lt; lia)).
  - rewrite Nat.add_0_r in Hr. rewrite Hr, Ht.
    exists (after_turn id st true). simpl_log.
    rewrite Nat.add_0_r. repeat split. lia.
  - destruct (Hrs 0) as [Hget Hterm]; [lia|].
    rewrite Nat.add_0_r in Hget. rewrite Hget, Hterm.
    destruct (IH fuel (S attempts) (Some (rs 0)) (after_turn id st true)
                (fun j => rs (S j)) r) as (st' & Hrun & Hlog & Hpolls).
    + lia.
    + lia.
    + intros j Hj. cbn [after_turn polls].
      replace (S (polls st) + j) with (polls st + S j) by lia.
      apply Hrs. lia.
    + cbn [after_turn polls].
      replace (S (polls st) + k) with (polls st + S k) by lia. exact Hr.
    + exact Ht.
    + exists st'. rewrite Hrun, Hlog, Hpolls. cbn [after_turn log polls].
      split; [replace (attempts + S k) with (S attempts + k) by lia;
              reflexivity|].
      split; [|lia].
      cbn [repeat flat_map]. rewrite <- app_assoc. reflexivity.
Qed.

End PollLoop.

Arguments pollLoop : simpl never.

(** ** processWithAssemblyAI *)

Ltac log_compute :=
  cbv [status_calls calls flat_map filter app List.length forallb
       transcription_event transcription_request andb add_log log polls].

Section TranscriptionFacts.

Variable w : World.

Lemma processWithAssemblyAI_run audio st :
  processWithAssemblyAI w audio st =
  match post_upload w audio with
  | inl e =>
      (Throw e, add_log st [Call (Upload audio); Settle (Upload audio) false])
  | inr url =>
      match post_transcript w url with
      | inl e =>
          (Throw e,
           add_log st [Call (Upload audio); Settle (Upload audio) true;
                       Call (Transcribe url); Settle (Transcribe url) false])
      | inr id =>
          after_loop
            (pollLoop w (S maxAttempts) id 0 None
               (add_log st [Call (Upload audio); Settle (Upload audio) true;
                            Call (Transcribe url);
                            Settle (Transcribe url) true]))
      end
  end.
Proof.
  unfold processWithAssemblyAI, try_catch.
  unfold bind at 1. rewrite await_http_run.
  destruct (post_upload w audio) as [e|url]; [reflexivity|].
  unfold bind at 1. rewrite await_http_run.
  destruct (post_transcript w url) as [e|id]; cbn [is_ok log polls];
    unfold add_log; rewrite <- app_assoc; cbn [app]; [reflexivity|].
  unfold bind, after_loop.
  destruct (pollLoop _ _ _ _ _ _) as [[[attempts [result|]]|e|] st'];
    try reflexivity.
  unfold throw, ret.
  destruct (has_status result "error"); [reflexivity|].
  destruct (maxAttempts <=? attempts); reflexivity.
Qed.

Lemma turns_transcription id oks :
  forallb transcription_event (flat_map (turn id) oks) = true.
Proof. induction oks; cbn; auto. Qed.

Lemma turns_status_calls id oks :
  status_calls (flat_map (turn id) oks) = List.length oks.
Proof.
  unfold status_calls. induction oks as [|ok oks IH]; cbn in *; auto.
Qed.

Lemma status_calls_app l1 l2 :
  status_calls (l1 ++ l2) = status_calls l1 + status_calls l2.
Proof.
  unfold status_calls, calls.
  rewrite flat_map_app, filter_app, length_app. reflexivity.
Qed.

(** A completed job is not a failed one. *)
Lemma has_status_completed_not_error r :
  has_status r "completed" = true -> has_status r "error" = false.
Proof.
  unfold has_status. destruct (status r) as [s|]; [|discriminate].
  unfold jsstring_eqb.
  destruct (list_eq_dec N.eq_dec s (str "completed")) as [->|]; [|discriminate].
  intros _. destruct (list_eq_dec N.eq_dec (str "completed") (str "error"));
    [discriminate|reflexivity].
Qed.

(** The transcription client always ends.  Its events are the upload,
    possibly the job submission, and then at most [maxAttempts] turns of
    the loop, each made of a 3 s sleep and one status request. *)
Lemma processWithAssemblyAI_shape audio st :
  exists out st' pre oks id,
    processWithAssemblyAI w audio st = (out, st')
    /\ log st' = log st ++ Call (Upload audio) :: pre ++ flat_map (turn id) oks
    /\ forallb transcription_event pre = true
    /\ status_calls pre = 0
    /\ List.length oks <= maxAttempts
    /\ polls st' = polls st + List.length oks
    /\ out <> OutOfFuel.
Proof.
  rewrite processWithAssemblyAI_run.
  destruct (post_upload w audio) as [e|url].
  { exists (Throw e), (add_log st [Call (Upload audio);
                                  Settle (Upload audio) false]),
      [Settle (Upload audio) false], [], None.
    repeat split; log_compute; try lia; try reflexivity; discriminate. }
  destruct (post_transcript w url) as [e|id].
  { eexists (Throw e), _, [Settle (Upload audio) true; Call (Transcribe url);
                          Settle (Transcribe url) false], [], None.
    repeat split; log_compute; try lia; try reflexivity; discriminate. }
  destruct (pollLoop_total w id (fuel := S maxAttempts) 0 None
              (add_log st [Call (Upload audio); Settle (Upload audio) true;
                           Call (Transcribe url);
                           Settle (Transcribe url) true]))
    as (out & st' & oks & Hrun & Hlog & Hpolls & Hlen & Hout); [lia|].
  rewrite Hrun.
  assert (Hshape :
    log st' = log st ++ Call (Upload audio)
                :: [Settle (Upload audio) true; Call (Transcribe url);
                    Settle (Transcribe url) true] ++ flat_map (turn id) oks).
  { rewrite Hlog. cbn [add_log log]. rewrite <- app_assoc. reflexivity. }
  assert (Hp : polls st' = polls st + List.length oks).
  { rewrite Hpolls. reflexivity. }
  assert (Hlen' : List.length oks <= maxAttempts) by lia.
  unfold after_loop.
  destruct out as [[attempts [result|]]|e|]; [| | |congruence].
  - destruct (has_status result "error");
      [|destruct (maxAttempts <=? attempts)];
      eexists _, st', _, oks, id; (split; [reflexivity|]);
      repeat split; try eassumption; try reflexivity; discriminate.
  - eexists _, st', _, oks, id; (split; [reflexivity|]);
      repeat split; try eassumption; try reflexivity; discriminate.
  - eexists _, st', _, oks, id; (split; [reflexivity|]);
      repeat split; try eassumption; try reflexivity; discriminate.
Qed.

Lemma processWithAssemblyAI_total audio st :
  exists out st' T,
    processWithAssemblyAI w audio st = (out, st')
    /\ log st' = log st ++ Call (Upload audio) :: T
    /\ forallb transcription_event T = true
    /\ status_calls T <= maxAttempts
    /\ polls st' = polls st + status_calls T
    /\ out <> OutOfFuel.
Proof.
  destruct (processWithAssemblyAI_shape audio st)
    as (out & st' & pre & oks & id & Hrun & Hlog & Hpre & Hcnt & Hlen & Hp & Hout).
  exists out, st', (pre ++ flat_map (turn id) oks).
  rewrite status_calls_app, Hcnt, turns_status_calls, forallb_app, Hpre,
    turns_transcription.
  repeat split; assumption.
Qed.

End TranscriptionFacts.

(** ** calculateWPM *)


Lemma calculateWPM_formula t d :
  Qeq_bool d 0 = false ->
  calculateWPM (Some t) (Some d) =
  inr (Math_round
         (inject_Z (Z.of_nat (List.length (split_whitespace t))) / (d / 60))%Q).
Proof. unfold calculateWPM. intros ->. reflexivity. Qed.

Example calculateWPM_six_words :
  calculateWPM (Some (str "one two three four five six")) (Some (30 # 1)%Q)
  = inr 12%Z.
Proof. reflexivity. Qed.

Example calculateWPM_zero_duration :
  calculateWPM (Some (str "hello")) (Some 0%Q) = inr 0%Z.
Proof. reflexivity. Qed.

Lemma spec_wordCount_le t :
  spec_wordCount t <= List.length (split_whitespace t).
Proof. unfold spec_wordCount. apply filter_length_le. Qed.

(** On a text that does not end with whitespace, and whose first token is
    not empty, every token of the split is a word. *)
Lemma splitWs_words (s : jsstring) : forall (tok : jsstring) inSep,
  (tok <> [] \/ inSep = true
   \/ exists c s', s = c :: s' /\ isWhiteSpace c = false) ->
  match s with
  | [] => tok <> []
  | _ :: _ => isWhiteSpace (last s 0%N) = false
  end ->
  forallb nonempty (splitWs tok inSep s) = true.
Proof.
  induction s as [|c s IH]; intros tok inSep Hstart Hend.
  - cbn. destruct tok; [contradiction|reflexivity].
  - assert (Hrest : forall tok' : jsstring, (s = [] -> tok' <> []) ->
                      match s with
                      | [] => tok' <> []
                      | _ :: _ => isWhiteSpace (last s 0%N) = false
                      end).
    { intros tok' Hnil. destruct s as [|c' s']; [auto|exact Hend]. }
    cbn [splitWs]. destruct (isWhiteSpace c) eqn:Hc.
    + assert (Hs : s <> []).
      { intros ->. cbn in Hend. congruence. }
      assert (Hgo : forallb nonempty (splitWs [] true s) = true).
      { apply IH; [right; left; reflexivity|].
        apply Hrest. intros Hnil. contradiction. }
      destruct inSep; [exact Hgo|].
      cbn [forallb]. rewrite Hgo.
      destruct Hstart as [Htok|[Hsep|(c' & s' & Heq & Hc')]].
      * destruct tok; [contradiction|reflexivity].
      * discriminate Hsep.
      * inversion Heq; subst. congruence.
    + apply IH.
      * left. destruct tok; discriminate.
      * apply Hrest. intros _. destruct tok; discriminate.
Qed.

Lemma filter_all {A} (f : A -> bool) l :
  forallb f l = true -> filter f l = l.
Proof.
  induction l as [|x l IH]; cbn; [reflexivity|].
  intros H. apply andb_true_iff in H. destruct H as [-> H].
  rewrite IH by exact H. reflexivity.
Qed.

(** On trimmed texts the code and the formula of the specification agree:
    they only differ on texts that are empty or have whitespace at an end. *)
Lemma calculateWPM_trimmed t duration :
  trimmed t = true ->
  calculateWPM (Some t) duration = inr (spec_wordsPerMinute t duration).
Proof.
  intros Ht. unfold calculateWPM, spec_wordsPerMinute, spec_wordCount.
  destruct duration as [d|]; [|reflexivity].
  destruct (Qeq_bool d 0); [reflexivity|].
  rewrite filter_all; [reflexivity|].
  unfold split_whitespace. destruct t as [|c t']; [discriminate|].
  unfold trimmed in Ht. apply andb_true_iff in Ht. destruct Ht as [Hc Hlast].
  apply negb_true_iff in Hc, Hlast.
  apply splitWs_words; [|exact Hlast].
  right. right. exists c, t'. auto.
Qed.

(** C4 (defect of the code).  The metric is meant to be
    round(wordCount / (duration/60)) with wordCount the number of non-empty
    tokens between runs of whitespace.  The code takes the length of
    [text.split(/\s+/)], which also counts the empty token before a leading
    run, the one after a trailing run, and the single empty token of the
    empty text: an empty transcript of 60 s scores 1 word per minute instead
    of 0, and [" hello world"] scores 3 instead of 2.  The two values the
    specification quotes (12 and 0) and the zero-duration rule do hold. *)
Theorem calculateWPM_counts_empty_tokens :
  calculateWPM (Some (str "")) (Some (60 # 1)%Q) = inr 1%Z
  /\ spec_wordsPerMinute (str "") (Some (60 # 1)%Q) = 0%Z
  /\ calculateWPM (Some (str " hello world")) (Some (60 # 1)%Q) = inr 3%Z
  /\ spec_wordsPerMinute (str " hello world") (Some (60 # 1)%Q) = 2%Z
  /\ calculateWPM (Some (str "one two three four five six")) (Some (30 # 1)%Q)
     = inr (spec_wordsPerMinute (str "one two three four five six")
              (Some (30 # 1)%Q))
  /\ calculateWPM (Some (str "hello")) (Some 0%Q)
     = inr (spec_wordsPerMinute (str "hello") (Some 0%Q)).
Proof. repeat split; reflexivity. Qed.

(** ** Requests without a file *)

(** C7.  A request that carries no audio file is answered at once with
    status 400 and the error object [{success: false, error: 'No audio file
    provided'}], in each of the four variants, and the log of the request is
    left as it was: no external service has been contacted. *)
Theorem missing_audio_rejected (cfg : Config) (w : World) (sched : nat) (st : St) :
  let rejected :=
    {| Res.code := 400; Res.success := false;
       Res.payload := ErrorMessage (str "No audio file provided") None |} in
  Fallback.handler cfg w None st = (Return rejected, st)
  /\ Basic.handler cfg w None st = (Return rejected, st)
  /\ Parallel.handler cfg w sched None st = (Return rejected, st)
  /\ Watson.handler cfg w None st = (Return rejected, st).
Proof. repeat split; reflexivity. Qed.

(** ** The simulated response *)

Lemma generateSimulatedResponse_constant audioFile :
  Fallback.generateSimulatedResponse audioFile = inr simulatedResponse.
Proof. reflexivity. Qed.

(** ** The fallback route, step by step *)

Section FallbackFacts.

Variable cfg : Config.
Variable w : World.

Lemma add_log_nil st : add_log st [] = st.
Proof. destruct st. unfold add_log. cbn. rewrite app_nil_r. reflexivity. Qed.

Lemma add_log_app st l1 l2 : add_log (add_log st l1) l2 = add_log st (l1 ++ l2).
Proof. unfold add_log. cbn. rewrite app_assoc. reflexivity. Qed.

Lemma await_http_add_log {A} (r : Request) (answer : JsError + A) st :
  await_http r answer st =
  (match answer with inr a => Return a | inl e => Throw e end,
   add_log st (settled r answer)).
Proof. apply await_http_run. Qed.

Lemma fallback_emotions_run audio st :
  try_catch
    (if configured (HUGGING_FACE_TOKEN cfg) then
       Fallback.processWithHuggingFace w audio
     else throw (Error (str "Hugging Face not configured")))
    (fun _ => ret Fallback.simulateHuggingFaceResults) st
  = (Return (fst (fallback_emotions cfg w audio)),
     add_log st (snd (fallback_emotions cfg w audio))).
Proof.
  unfold fallback_emotions, Fallback.processWithHuggingFace.
  destruct (configured (HUGGING_FACE_TOKEN cfg)).
  - unfold try_catch. rewrite await_http_add_log.
    destruct (post_emotion_audio w audio); reflexivity.
  - cbn. rewrite add_log_nil. reflexivity.
Qed.

Lemma fallback_report_run a h st :
  try_catch
    (if configured (PERPLEXITY_API_KEY cfg) then
       Fallback.processWithPerplexity w a h
     else throw (Error (str "Perplexity AI not configured")))
    (fun _ => ret (Fallback.simulateTruthAnalysisReport a h)) st
  = (Return (fst (fallback_report cfg w a h)),
     add_log st (snd (fallback_report cfg w a h))).
Proof.
  unfold fallback_report, Fallback.processWithPerplexity.
  destruct (configured (PERPLEXITY_API_KEY cfg)).
  - unfold try_catch, bind.
    destruct (calculateWPM _ _) as [e|wpm]; cbn [lift throw ret].
    + cbn. rewrite add_log_nil. reflexivity.
    + fold (fallback_prompt a h wpm). rewrite await_http_add_log.
      destruct (post_perplexity w _); reflexivity.
  - cbn. rewrite add_log_nil. reflexivity.
Qed.

(** The route on a request with a file, once the transcription key is
    there: whatever transcription does, the answer is assembled from its
    result or from the simulated one. *)
Lemma fallback_handler_run file st :
  configured (ASSEMBLYAI_API_KEY cfg) = true ->
  Fallback.handler cfg w (Some file) st =
  match processWithAssemblyAI w (buffer file) st with
  | (OutOfFuel, s1) => (OutOfFuel, s1)
  | (out, s1) =>
      let a := match out with
               | Return t => t
               | _ => Fallback.simulateAssemblyAIResults
               end in
      let h := fallback_emotions cfg w (buffer file) in
      let p := fallback_report cfg w a (fst h) in
      (Return (fallback_answer a (fst h) (fst p)),
       add_log s1 (snd h ++ snd p))
  end.
Proof.
  intros Hkey. unfold Fallback.handler. rewrite Hkey. cbn [negb].
  unfold try_catch at 1. unfold bind at 1. unfold try_catch at 1.
  destruct (processWithAssemblyAI w (buffer file) st) as [[t|e|] s1];
    [| |reflexivity].
  - unfold bind at 1. rewrite fallback_emotions_run.
    unfold bind at 1. rewrite fallback_report_run.
    rewrite add_log_app. unfold fallback_answer, bind.
    destruct (calculateWPM _ _); reflexivity.
  - unfold ret at 1.
    unfold bind at 1. rewrite fallback_emotions_run.
    unfold bind at 1. rewrite fallback_report_run.
    rewrite add_log_app. reflexivity.
Qed.

Lemma fallback_handler_without_key file st :
  configured (ASSEMBLYAI_API_KEY cfg) = false ->
  Fallback.handler cfg w (Some file) st = (Return simulatedResponse, st).
Proof.
  intros Hkey. unfold Fallback.handler. rewrite Hkey. reflexivity.
Qed.

End FallbackFacts.

Lemma calculateWPM_missing_text (d : option Q) (q : Q) :
  Qeq_bool q 0 = false ->
  calculateWPM None (num_or d q) = inl (TypeError "split").
Proof.
  intros Hq. unfold num_or, falsyNum.
  destruct d as [x|]; [destruct (Qeq_bool x 0) eqn:Hx|];
    unfold calculateWPM; rewrite ?Hx, ?Hq; reflexivity.
Qed.

(** C9.  [generateSimulatedResponse] does not look at its argument: for
    every uploaded file it returns the same response, with [success: true],
    the fixed transcript, 58 words per minute, confidence 0.85, a duration
    of 30 s, the canned emotion list and the canned report (which does not
    depend on the results it is given either).  The fallback
    route sends exactly this response when the transcription key is
    missing, and when the route throws (a completed job without text makes
    [calculateWPM] throw). *)
Theorem simulated_response_is_constant
        (cfg : Config) (w : World) (audioFile other : option File)
        (file : File) (st : St) :
  (Fallback.generateSimulatedResponse audioFile = inr simulatedResponse
   /\ Fallback.generateSimulatedResponse audioFile
      = Fallback.generateSimulatedResponse other
   /\ forall a h a' h',
        Fallback.simulateTruthAnalysisReport a h
        = Fallback.simulateTruthAnalysisReport a' h')
  /\ (configured (ASSEMBLYAI_API_KEY cfg) = false ->
      Fallback.handler cfg w (Some file) st = (Return simulatedResponse, st))
  /\ (forall t s1,
        configured (ASSEMBLYAI_API_KEY cfg) = true ->
        processWithAssemblyAI w (buffer file) st = (Return t, s1) ->
        str_or (text t) (transcript t) = None ->
        exists st',
          Fallback.handler cfg w (Some file) st
          = (Return simulatedResponse, st')).
Proof.
  split; [repeat split; reflexivity|]. split.
  - apply fallback_handler_without_key.
  - intros t s1 Hkey Hrun Htext.
    rewrite fallback_handler_run by assumption. rewrite Hrun.
    eexists. cbv zeta. unfold fallback_answer. rewrite Htext.
    rewrite calculateWPM_missing_text by reflexivity. reflexivity.
Qed.

Lemma simulated_response_is_constant_witness :
  Fallback.handler Sample.noKeys Sample.uploadDown (Some Sample.demoFile) st0
  = (Return simulatedResponse, st0)
  /\ exists st',
       Fallback.handler Sample.transcriptionOnly (Sample.completesAfter 0 None)
         (Some Sample.demoFile) st0
       = (Return simulatedResponse, st').
Proof.
  split.
  - apply (proj1 (proj2 (simulated_response_is_constant
                           Sample.noKeys Sample.uploadDown None None
                           Sample.demoFile st0))).
    reflexivity.
  - eapply (proj2 (proj2 (simulated_response_is_constant
                            Sample.transcriptionOnly
                            (Sample.completesAfter 0 None) None None
                            Sample.demoFile st0))).
    + reflexivity.
    + vm_compute. reflexivity.
    + reflexivity.
Defined.

(** ** The budget of the poll loop *)

Section PollBudget.

Variable w : World.

(** After [n] pending answers within the budget, one more status request
    is made. *)
Lemma pollLoop_continues id n : forall fuel attempts result st rs,
  attempts + n < maxAttempts ->
  maxAttempts - attempts < fuel ->
  (forall k, k < n ->
     get_transcript w id (polls st + k) = inr (rs k)
     /\ terminal (rs k) = false) ->
  exists out st' oks,
    pollLoop w fuel id attempts result st = (out, st')
    /\ log st' = log st ++ flat_map (turn id) (repeat true n ++ oks)
    /\ oks <> [].
Proof.
  induction n as [|n IH]; intros fuel attempts result st rs Ha Hfuel Hrs;
    (destruct fuel as [|fuel]; [lia|]); rewrite pollLoop_step;
    (replace (attempts <? maxAttempts) with true
      by (symmetry; apply Nat.ltb_lt; lia)).
  - destruct (get_transcript w id (polls st)) as [e|r].
    + exists (Throw e), (after_turn id st false), [false].
      repeat split; discriminate.
    + destruct (terminal r).
      * exists (Return (attempts, Some r)), (after_turn id st true), [true].
        repeat split; discriminate.
      * destruct (pollLoop_total w id (fuel := fuel) (S attempts) (Some r)
                    (after_turn id st true))
          as (out & st' & oks & Hrun & Hlog & _); [lia|].
        exists out, st', (true :: oks). rewrite Hrun, Hlog.
        cbn [after_turn log repeat app flat_map]. rewrite <- app_assoc.
        repeat split; discriminate.
  - destruct (Hrs 0) as [Hget Hterm]; [lia|].
    rewrite Nat.add_0_r in Hget. rewrite Hget, Hterm.
    destruct (IH fuel (S attempts) (Some (rs 0)) (after_turn id st true)
                (fun k => rs (S k))) as (out & st' & oks & Hrun & Hlog & Hne).
    + lia.
    + lia.
    + intros k Hk. cbn [after_turn polls].
      replace (S (polls st) + k) with (polls st + S k) by lia.
      apply Hrs. lia.
    + exists out, st', oks. rewrite Hrun, Hlog.
      cbn [after_turn log repeat app flat_map]. rewrite <- app_assoc.
      repeat split; assumption.
Qed.

Lemma basic_handler_run cfg file st :
  configured (ASSEMBLYAI_API_KEY cfg) = true ->
  Basic.handler cfg w (Some file) st =
  match post_upload w (buffer file) with
  | inl e =>
      (Return (serverError
                 (str_or_lit (Some (message e)) (str "Internal server error"))
                 None),
       add_log st (settled (Upload (buffer file)) (post_upload w (buffer file))))
  | inr url =>
      match post_transcript w url with
      | inl e =>
          (Return (serverError
                     (str_or_lit (Some (message e))
                        (str "Internal server error")) None),
           add_log st [Call (Upload (buffer file));
                       Settle (Upload (buffer file)) true;
                       Call (Transcribe url); Settle (Transcribe url) false])
      | inr id =>
          match pollLoop w (S maxAttempts) id 0 None
                  (add_log st (submitted (buffer file) url)) with
          | (Return (attempts, Some result), st') =>
              (Return
                 (if has_status result "error" then
                    serverError
                      (str "Audio processing failed: "
                         ++ str_or_lit (error result) (str "Unknown error"))
                      None
                  else if maxAttempts <=? attempts then
                    serverError timeoutMessage None
                  else
                    ok (Sentiments (text result)
                          (json_or (sentiment_analysis_results result)
                             (JArr [])))), st')
          | (Return (_, None), st') =>
              (Return (serverError (message (TypeError "status")) None), st')
          | (Throw e, st') =>
              (Return (serverError
                         (str_or_lit (Some (message e))
                            (str "Internal server error")) None), st')
          | (OutOfFuel, st') => (OutOfFuel, st')
          end
      end
  end.
Proof.
  intros Hkey. unfold Basic.handler. rewrite Hkey. cbn [negb].
  unfold try_catch. unfold bind at 1. rewrite await_http_add_log.
  destruct (post_upload w (buffer file)) as [e|url]; [reflexivity|].
  unfold bind at 1. rewrite await_http_add_log, add_log_app.
  destruct (post_transcript w url) as [e|id]; [reflexivity|].
  unfold bind. cbn [settled is_ok app]. fold (submitted (buffer file) url).
  destruct (pollLoop _ _ _ _ _ _) as [[[attempts [result|]]|e|] st'];
    try reflexivity.
  unfold ret.
  destruct (has_status result "error"); [reflexivity|].
  destruct (maxAttempts <=? attempts); reflexivity.
Qed.

End PollBudget.

(** C10.  If the job is pending on the first [i - 1] status requests and
    [completed] on the [i]-th, for any [1 <= i <= 30] (the last permitted
    request included), the transcription client returns the completed
    result: the loop leaves [attempts = i - 1], below [maxAttempts], since
    the counter is only incremented after a pending answer, and the
    timeout test after the loop does not fire. *)
Theorem completed_on_permitted_poll
        (w : World) (audio : Bytes) (st : St)
        (url id : option jsstring) (rs : nat -> TranscriptData)
        (r : TranscriptData) (i : nat) :
  post_upload w audio = inr url ->
  post_transcript w url = inr id ->
  1 <= i <= maxAttempts ->
  (forall k, k < i - 1 ->
     get_transcript w id (polls st + k) = inr (rs k)
     /\ terminal (rs k) = false) ->
  get_transcript w id (polls st + (i - 1)) = inr r ->
  has_status r "completed" = true ->
  exists st',
    pollLoop w (S maxAttempts) id 0 None (add_log st (submitted audio url))
    = (Return (i - 1, Some r), st')
    /\ processWithAssemblyAI w audio st = (Return r, st')
    /\ log st' = log st ++ submitted audio url
                   ++ flat_map (turn id) (repeat true i).
Proof.
  intros Hup Hsub Hi Hrs Hr Hdone.
  destruct (pollLoop_terminal w id (k := i - 1) (fuel := S maxAttempts)
              0 None (add_log st (submitted audio url)) rs (r := r))
    as (st' & Hrun & Hlog & Hpolls);
    [lia | lia | exact Hrs | exact Hr
     | unfold terminal; rewrite Hdone; reflexivity |].
  exists st'. cbn [Nat.add] in Hrun. split; [exact Hrun|].
  split.
  - rewrite processWithAssemblyAI_run, Hup, Hsub.
    fold (submitted audio url). rewrite Hrun. unfold after_loop.
    rewrite (has_status_completed_not_error r Hdone).
    replace (maxAttempts <=? i - 1) with false
      by (symmetry; apply Nat.leb_gt; lia).
    reflexivity.
  - rewrite Hlog. cbn [add_log log]. rewrite <- app_assoc.
    replace (S (i - 1)) with i by lia. reflexivity.
Qed.

Lemma completed_on_permitted_poll_witness :
  exists st',
    pollLoop (Sample.completesAfter 29 (Some Sample.sixWords)) (S maxAttempts)
      (Some (str "job-1")) 0 None
      (add_log st0 (submitted (buffer Sample.demoFile)
                      (Some (str "https://cdn.example/upload/1"))))
    = (Return (29, Some (Sample.job "completed" (Some Sample.sixWords))), st')
    /\ processWithAssemblyAI (Sample.completesAfter 29 (Some Sample.sixWords))
         (buffer Sample.demoFile) st0
       = (Return (Sample.job "completed" (Some Sample.sixWords)), st')
    /\ log st' = log st0
                   ++ submitted (buffer Sample.demoFile)
                        (Some (str "https://cdn.example/upload/1"))
                   ++ flat_map (turn (Some (str "job-1"))) (repeat true 30).
Proof.
  apply (@completed_on_permitted_poll
           (Sample.completesAfter 29 (Some Sample.sixWords))
           (buffer Sample.demoFile) st0
           (Some (str "https://cdn.example/upload/1")) (Some (str "job-1"))
           (fun _ => Sample.job "processing" None)
           (Sample.job "completed" (Some Sample.sixWords)) 30).
  - reflexivity.
  - reflexivity.
  - unfold maxAttempts. lia.
  - intros k Hk. cbn in Hk.
    do 29 (destruct k as [|k]; [split; reflexivity|]). lia.
  - reflexivity.
  - reflexivity.
Defined.

Lemma after_loop_state x : snd (after_loop x) = snd x.
Proof.
  destruct x as [[[attempts [result|]]|e|] st']; try reflexivity.
  unfold after_loop. destruct (has_status result "error"); [reflexivity|].
  destruct (maxAttempts <=? attempts); reflexivity.
Qed.

Lemma pending_not_error r : terminal r = false -> has_status r "error" = false.
Proof. unfold terminal. intros H. apply orb_false_iff in H. apply H. Qed.

(** C3.  The loop asks for the status of the job at most [maxAttempts = 30]
    times, each request coming right after a sleep of 3000 ms: (1) whatever
    the services answer, the transcription client ends and its log is the
    upload, possibly the submission, and at most 30 turns [Sleep 3000; Call
    (Status id); Settle (Status id) ok]; (2) as long as the answers are
    neither [completed] nor [error] and the budget is not used up, one more
    request is made; (3) after 30 such answers the client throws the
    timeout error, and the route that has the loop inline answers with the
    same message and [success: false]. *)
Theorem poll_loop_budget
        (w : World) (cfg : Config) (file : File) (st : St)
        (url id : option jsstring) (rs : nat -> TranscriptData) (n : nat) :
  (maxAttempts = 30
   /\ (forall ok, turn id ok = [Sleep 3000; Call (Status id); Settle (Status id) ok])
   /\ exists out st' pre oks id',
        processWithAssemblyAI w (buffer file) st = (out, st')
        /\ out <> OutOfFuel
        /\ log st' = log st ++ Call (Upload (buffer file))
                       :: pre ++ flat_map (turn id') oks
        /\ status_calls pre = 0
        /\ List.length oks <= maxAttempts)
  /\ (post_upload w (buffer file) = inr url ->
      post_transcript w url = inr id ->
      (forall k, k < n ->
         get_transcript w id (polls st + k) = inr (rs k)
         /\ terminal (rs k) = false) ->
      (n < maxAttempts ->
       exists out st' oks,
         processWithAssemblyAI w (buffer file) st = (out, st')
         /\ log st' = log st ++ submitted (buffer file) url
                        ++ flat_map (turn id) (repeat true n ++ oks)
         /\ oks <> [])
      /\ (n = maxAttempts ->
          exists st',
            processWithAssemblyAI w (buffer file) st
            = (Throw (Error timeoutMessage), st')
            /\ log st' = log st ++ submitted (buffer file) url
                           ++ flat_map (turn id) (repeat true maxAttempts)
            /\ (configured (ASSEMBLYAI_API_KEY cfg) = true ->
                Basic.handler cfg w (Some file) st
                = (Return {| Res.code := 500; Res.success := false;
                             Res.payload := ErrorMessage timeoutMessage None |},
                   st')))).
Proof.
  split.
  - split; [reflexivity|]. split; [reflexivity|].
    destruct (processWithAssemblyAI_shape w (buffer file) st)
      as (out & st' & pre & oks & id' & Hrun & Hlog & _ & Hcnt & Hlen & _ & Hout).
    exists out, st', pre, oks, id'. repeat split; assumption.
  - intros Hup Hsub Hrs. split.
    + intros Hn.
      destruct (pollLoop_continues w id (n := n) (fuel := S maxAttempts)
                  0 None (add_log st (submitted (buffer file) url)) rs)
        as (out & st' & oks & Hrun & Hlog & Hne); [lia | lia | exact Hrs |].
      rewrite processWithAssemblyAI_run, Hup, Hsub.
      fold (submitted (buffer file) url). rewrite Hrun.
      pose proof (after_loop_state (out, st')) as Hst. cbn [snd] in Hst.
      destruct (after_loop (out, st')) as [out' st''] eqn:Hafter.
      cbn [snd] in Hst. subst st''.
      exists out', st', oks. split; [reflexivity|]. split; [|exact Hne].
      rewrite Hlog. cbn [add_log log]. rewrite <- app_assoc. reflexivity.
    + intros ->.
      destruct (pollLoop_pending w id (n := maxAttempts) (fuel := S maxAttempts)
                  0 None (add_log st (submitted (buffer file) url)) rs)
        as (st' & Hrun & Hlog & _); [reflexivity | lia | exact Hrs |].
      assert (Hlast : has_status (rs 29) "error" = false).
      { apply pending_not_error. apply Hrs. unfold maxAttempts. lia. }
      change (match maxAttempts with O => None | S m => Some (rs m) end)
        with (Some (rs 29)) in Hrun.
      exists st'. split; [|split].
      * rewrite processWithAssemblyAI_run, Hup, Hsub.
        fold (submitted (buffer file) url). rewrite Hrun.
        unfold after_loop. rewrite Hlast. reflexivity.
      * rewrite Hlog. cbn [add_log log]. rewrite <- app_assoc. reflexivity.
      * intros Hkey. rewrite basic_handler_run, Hup, Hsub by assumption.
        rewrite Hrun, Hlast. reflexivity.
Qed.

Lemma poll_loop_budget_witness :
  exists st',
    processWithAssemblyAI Sample.neverCompletes (buffer Sample.demoFile) st0
    = (Throw (Error timeoutMessage), st')
    /\ log st' = log st0
                   ++ submitted (buffer Sample.demoFile)
                        (Some (str "https://cdn.example/upload/1"))
                   ++ flat_map (turn (Some (str "job-1")))
                        (repeat true maxAttempts)
    /\ Basic.handler Sample.allKeys Sample.neverCompletes
         (Some Sample.demoFile) st0
       = (Return {| Res.code := 500; Res.success := false;
                    Res.payload := ErrorMessage timeoutMessage None |}, st').
Proof.
  destruct (proj2 (proj2 (@poll_loop_budget Sample.neverCompletes
                            Sample.allKeys Sample.demoFile st0
                            (Some (str "https://cdn.example/upload/1"))
                            (Some (str "job-1"))
                            (fun _ => Sample.job "processing" None)
                            maxAttempts)
                     eq_refl eq_refl
                     (fun k _ => conj eq_refl eq_refl)) eq_refl)
    as (st' & Hrun & Hlog & Hbasic).
  exists st'. split; [exact Hrun|]. split; [exact Hlog|].
  apply Hbasic. reflexivity.
Defined.

(** ** The routes without fallback, step by step *)

Section StrictFacts.

Variable cfg : Config.
Variable w : World.

Lemma parallel_classify_run sched audio st :
  Parallel.transcribe_and_classify cfg w sched audio st =
  let (out, sa) :=
    processWithAssemblyAI w audio {| log := []; polls := polls st |} in
  let h := parallel_emotions cfg w audio in
  match out with
  | Return a =>
      (Return (a, fst h),
       {| log := log st ++ interleaved sched (log sa) (fst (snd h)) (snd (snd h));
          polls := polls sa |})
  | Throw e =>
      (Throw e,
       {| log := log st ++ abandoned sched (log sa) (fst (snd h)) (snd (snd h));
          polls := polls sa |})
  | OutOfFuel =>
      (OutOfFuel,
       {| log := log st ++ firstn 1 (log sa) ++ fst (snd h) ++ skipn 1 (log sa);
          polls := polls sa |})
  end.
Proof.
  unfold Parallel.transcribe_and_classify, parallel_emotions,
    Parallel.processWithHuggingFace, interleaved, abandoned.
  destruct (processWithAssemblyAI w audio _) as [out sa].
  destruct (configured (HUGGING_FACE_TOKEN cfg)); cbn [negb].
  - unfold try_catch. rewrite await_http_run.
    destruct (post_emotion_audio w audio) as [e|j]; cbn;
      destruct out; reflexivity.
  - cbn. destruct out; reflexivity.
Qed.

Lemma parallel_report_run a h st :
  (if configured (PERPLEXITY_API_KEY cfg) then
     try_catch (Parallel.processWithPerplexity cfg w a h)
       (fun pplxError => ret (errorObject (message pplxError)))
   else ret JNull) st
  = (Return (fst (parallel_report cfg w a h)),
     add_log st (snd (parallel_report cfg w a h))).
Proof.
  unfold parallel_report, Parallel.processWithPerplexity.
  destruct (configured (PERPLEXITY_API_KEY cfg)); cbn [negb].
  - unfold try_catch, bind.
    destruct (calculateWPM _ _) as [e|wpm]; cbn [lift throw ret].
    + cbn. rewrite add_log_nil. reflexivity.
    + fold (parallel_prompt a h wpm). rewrite await_http_add_log.
      destruct (post_perplexity w _); reflexivity.
  - cbn. rewrite add_log_nil. reflexivity.
Qed.

Lemma parallel_handler_run sched file st :
  configured (ASSEMBLYAI_API_KEY cfg) = true ->
  Parallel.handler cfg w sched (Some file) st =
  match Parallel.transcribe_and_classify cfg w sched (buffer file) st with
  | (Return (a, h), s1) =>
      let p := parallel_report cfg w a h in
      (Return (parallel_answer a h (fst p)), add_log s1 (snd p))
  | (Throw e, s1) => (Return (failure e), s1)
  | (OutOfFuel, s1) => (OutOfFuel, s1)
  end.
Proof.
  intros Hkey. unfold Parallel.handler. rewrite Hkey. cbn [negb].
  unfold try_catch at 1. unfold bind at 1.
  destruct (Parallel.transcribe_and_classify cfg w sched (buffer file) st)
    as [[[a h]|e|] s1]; try reflexivity.
  unfold bind at 1. rewrite parallel_report_run.
  unfold parallel_answer, bind.
  destruct (calculateWPM _ _); reflexivity.
Qed.

Lemma watson_emotions_run t st :
  (if configured (HUGGING_FACE_TOKEN cfg) then
     try_catch (Watson.processWithHuggingFace cfg w t)
       (fun hfError => ret (errorObject (message hfError)))
   else ret JNull) st
  = (Return (fst (watson_emotions cfg w t)),
     add_log st (snd (watson_emotions cfg w t))).
Proof.
  unfold watson_emotions, Watson.processWithHuggingFace.
  destruct (configured (HUGGING_FACE_TOKEN cfg)); cbn [negb].
  - unfold try_catch. rewrite await_http_add_log.
    destruct (post_emotion_text w t); reflexivity.
  - cbn. rewrite add_log_nil. reflexivity.
Qed.

Lemma watson_tones_run t st :
  (if configured (IBM_WATSON_API_KEY cfg) && configured (IBM_WATSON_URL cfg) then
     try_catch (Watson.processWithIBMWatson cfg w t)
       (fun ibmError => ret (errorObject (message ibmError)))
   else ret JNull) st
  = (Return (fst (watson_tones cfg w t)),
     add_log st (snd (watson_tones cfg w t))).
Proof.
  unfold watson_tones, Watson.processWithIBMWatson.
  destruct (configured (IBM_WATSON_API_KEY cfg));
    destruct (configured (IBM_WATSON_URL cfg)); cbn [negb andb orb];
    try (cbn; rewrite add_log_nil; reflexivity).
  unfold try_catch. rewrite await_http_add_log.
  destruct (post_tone w t); reflexivity.
Qed.

Lemma watson_handler_run file st :
  configured (ASSEMBLYAI_API_KEY cfg) = true ->
  Watson.handler cfg w (Some file) st =
  match processWithAssemblyAI w (buffer file) st with
  | (Return a, s1) =>
      let h := watson_emotions cfg w (text a) in
      let i := watson_tones cfg w (text a) in
      (Return (watson_answer a (fst h) (fst i)), add_log s1 (snd h ++ snd i))
  | (Throw e, s1) => (Return (failure e), s1)
  | (OutOfFuel, s1) => (OutOfFuel, s1)
  end.
Proof.
  intros Hkey. unfold Watson.handler. rewrite Hkey. cbn [negb].
  unfold try_catch at 1. unfold bind at 1.
  destruct (processWithAssemblyAI w (buffer file) st) as [[a|e|] s1];
    try reflexivity.
  unfold bind at 1. rewrite watson_emotions_run.
  unfold bind at 1. rewrite watson_tones_run.
  rewrite add_log_app. unfold watson_answer, bind.
  destruct (calculateWPM _ _); reflexivity.
Qed.

End StrictFacts.

(** ** Transcription only depends on the transcription service *)

Lemma pollLoop_ext w1 w2 id fuel : forall attempts result st,
  (forall i n, get_transcript w1 i n = get_transcript w2 i n) ->
  pollLoop w1 fuel id attempts result st = pollLoop w2 fuel id attempts result st.
Proof.
  induction fuel as [|fuel IH]; intros attempts result st Hget; [reflexivity|].
  rewrite !pollLoop_step, Hget.
  destruct (attempts <? maxAttempts); [|reflexivity].
  destruct (get_transcript w2 id (polls st)) as [e|r]; [reflexivity|].
  destruct (terminal r); [reflexivity|]. apply IH, Hget.
Qed.

Lemma processWithAssemblyAI_ext w1 w2 audio st :
  (forall a, post_upload w1 a = post_upload w2 a) ->
  (forall u, post_transcript w1 u = post_transcript w2 u) ->
  (forall i n, get_transcript w1 i n = get_transcript w2 i n) ->
  processWithAssemblyAI w1 audio st = processWithAssemblyAI w2 audio st.
Proof.
  intros Hup Hsub Hget. rewrite !processWithAssemblyAI_run, Hup.
  destruct (post_upload w2 audio) as [e|url]; [reflexivity|].
  rewrite Hsub. destruct (post_transcript w2 url) as [e|id]; [reflexivity|].
  rewrite (pollLoop_ext w1 w2) by exact Hget. reflexivity.
Qed.

Lemma processWithAssemblyAI_with_enrichment w ea et px tn audio st :
  processWithAssemblyAI (with_enrichment w ea et px tn) audio st
  = processWithAssemblyAI w audio st.
Proof. apply processWithAssemblyAI_ext; reflexivity. Qed.

Lemma processWithAssemblyAI_ends w audio st :
  fst (processWithAssemblyAI w audio st) <> OutOfFuel.
Proof.
  destruct (processWithAssemblyAI_total w audio st)
    as (out & st' & T & Hrun & _ & _ & _ & _ & Hout).
  rewrite Hrun. exact Hout.
Qed.

Lemma same_answer (r1 r2 : Response) s1 s2 :
  Res.success r1 = Res.success r2 ->
  Res.transcript_of r1 = Res.transcript_of r2 ->
  Res.audioMetrics_of r1 = Res.audioMetrics_of r2 ->
  same_transcript_and_metrics (Return r1, s1) (Return r2, s2).
Proof. intros. exists r1, s1, r2, s2. auto. Qed.

(** C8.  Take two runs of a route on the same request and the same
    configuration, against the same (deterministic) transcription service
    but arbitrary, possibly different, enrichment providers and, for the
    variant with [Promise.all], arbitrary interleavings.  Both runs answer,
    and the two responses have the same [success], the same [transcript]
    and the same [audioMetrics].  This holds for the fallback variant, the
    [Promise.all] variant and the sequential variant. *)
Theorem transcript_and_metrics_reproducible
        (cfg : Config) (w : World) (req_file : option File) (st : St)
        (ea1 ea2 : Bytes -> JsError + JSON)
        (et1 et2 : option jsstring -> JsError + JSON)
        (px1 px2 : Prompt -> JsError + JSON)
        (tn1 tn2 : option jsstring -> JsError + JSON)
        (sched1 sched2 : nat) :
  let w1 := with_enrichment w ea1 et1 px1 tn1 in
  let w2 := with_enrichment w ea2 et2 px2 tn2 in
  same_transcript_and_metrics
    (Fallback.handler cfg w1 req_file st) (Fallback.handler cfg w2 req_file st)
  /\ same_transcript_and_metrics
       (Parallel.handler cfg w1 sched1 req_file st)
       (Parallel.handler cfg w2 sched2 req_file st)
  /\ same_transcript_and_metrics
       (Watson.handler cfg w1 req_file st) (Watson.handler cfg w2 req_file st).
Proof.
  intros w1 w2. destruct req_file as [file|];
    [|repeat split; apply same_answer; reflexivity].
  destruct (configured (ASSEMBLYAI_API_KEY cfg)) eqn:Hkey.
  2:{ repeat split.
      - rewrite !fallback_handler_without_key by assumption.
        apply same_answer; reflexivity.
      - unfold Parallel.handler. rewrite Hkey. apply same_answer; reflexivity.
      - unfold Watson.handler. rewrite Hkey. apply same_answer; reflexivity. }
  repeat split.
  - rewrite !fallback_handler_run by assumption. subst w1 w2.
    rewrite !processWithAssemblyAI_with_enrichment.
    pose proof (processWithAssemblyAI_ends w (buffer file) st) as Hends.
    destruct (processWithAssemblyAI w (buffer file) st) as [[t|e|] s1];
      [| |exfalso; apply Hends; reflexivity];
      cbv zeta; apply same_answer; unfold fallback_answer;
      destruct (calculateWPM _ _); reflexivity.
  - rewrite !parallel_handler_run, !parallel_classify_run by assumption.
    subst w1 w2. rewrite !processWithAssemblyAI_with_enrichment.
    pose proof (processWithAssemblyAI_ends w (buffer file)
                  {| log := []; polls := polls st |}) as Hends.
    destruct (processWithAssemblyAI w (buffer file) _) as [[t|e|] s1];
      [| |exfalso; apply Hends; reflexivity];
      cbv zeta; apply same_answer; unfold parallel_answer;
      try destruct (calculateWPM _ _); reflexivity.
  - rewrite !watson_handler_run by assumption. subst w1 w2.
    rewrite !processWithAssemblyAI_with_enrichment.
    pose proof (processWithAssemblyAI_ends w (buffer file) st) as Hends.
    destruct (processWithAssemblyAI w (buffer file) st) as [[t|e|] s1];
      [| |exfalso; apply Hends; reflexivity];
      cbv zeta; apply same_answer; unfold watson_answer;
      try destruct (calculateWPM _ _); reflexivity.
Qed.

(** ** The response invariant *)

Lemma pollLoop_break w id fuel : forall attempts result st attempts' result' st',
  pollLoop w fuel id attempts result st = (Return (attempts', result'), st') ->
  attempts' < maxAttempts ->
  exists r, result' = Some r /\ terminal r = true.
Proof.
  induction fuel as [|fuel IH]; intros attempts result st attempts' result' st';
    [discriminate|].
  rewrite pollLoop_step. destruct (attempts <? maxAttempts) eqn:Hlt.
  - destruct (get_transcript w id (polls st)) as [e|r]; [discriminate|].
    destruct (terminal r) eqn:Hterm.
    + intros H _. inversion H; subst. exists r. auto.
    + apply IH.
  - intros H Hlt'. inversion H; subst. apply Nat.ltb_ge in Hlt. lia.
Qed.

Lemma after_loop_completed x t st' :
  (forall attempts result s,
     x = (Return (attempts, result), s) -> attempts < maxAttempts ->
     exists r, result = Some r /\ terminal r = true) ->
  after_loop x = (Return t, st') ->
  has_status t "completed" = true
  /\ exists attempts, x = (Return (attempts, Some t), st')
                      /\ attempts < maxAttempts.
Proof.
  intros Hbreak. destruct x as [[[attempts [result|]]|e|] s]; try discriminate.
  unfold after_loop. destruct (has_status result "error") eqn:Herr;
    [discriminate|].
  destruct (maxAttempts <=? attempts) eqn:Hmax; [discriminate|].
  intros H. inversion H; subst. apply Nat.leb_gt in Hmax.
  destruct (Hbreak attempts (Some t) st' eq_refl Hmax) as (r & Hr & Hterm).
  inversion Hr; subst r. unfold terminal in Hterm. rewrite Herr in Hterm.
  rewrite orb_false_r in Hterm. split; [exact Hterm|].
  exists attempts. auto.
Qed.

(** The transcription client only returns a job whose status is
    [completed]. *)
Lemma processWithAssemblyAI_completed w audio st t st' :
  processWithAssemblyAI w audio st = (Return t, st') ->
  has_status t "completed" = true.
Proof.
  rewrite processWithAssemblyAI_run.
  destruct (post_upload w audio) as [e|url]; [discriminate|].
  destruct (post_transcript w url) as [e|id]; [discriminate|].
  intros H. eapply after_loop_completed in H; [apply H|].
  intros attempts result s Hrun Hlt. eapply pollLoop_break; eassumption.
Qed.

Lemma fallback_answer_invariant transcription a h p :
  (transcription = Return a /\ has_status a "completed" = true
   \/ a = Fallback.simulateAssemblyAIResults) ->
  fallback_invariant transcription (fallback_answer a h p).
Proof.
  intros Ha. unfold fallback_invariant, fallback_answer.
  destruct (calculateWPM (str_or (text a) (transcript a))
              (num_or (audio_duration a) (30 # 1))) as [e|wpm] eqn:Hwpm.
  - split; [reflexivity|]. right. reflexivity.
  - split; [reflexivity|].
    destruct Ha as [[Ht Hdone]| ->]; [|right; reflexivity].
    destruct (str_or (text a) (transcript a)) as [s|] eqn:Hs.
    + left. exists a, s. auto.
    + rewrite calculateWPM_missing_text in Hwpm by reflexivity. discriminate.
Qed.

Lemma parallel_answer_invariant transcription a h p :
  transcription = Return a -> has_status a "completed" = true ->
  strict_invariant transcription (parallel_answer a h p).
Proof.
  intros Ht Hdone. unfold parallel_answer.
  destruct (calculateWPM _ _); [right; reflexivity|].
  left. split; [reflexivity|]. exists a. auto.
Qed.

Lemma watson_answer_invariant transcription a h i :
  transcription = Return a -> has_status a "completed" = true ->
  strict_invariant transcription (watson_answer a h i).
Proof.
  intros Ht Hdone. unfold watson_answer.
  destruct (calculateWPM _ _); [right; reflexivity|].
  left. split; [reflexivity|]. exists a. auto.
Qed.

Lemma basic_handler_invariant cfg w file :
  exists r s,
    Basic.handler cfg w (Some file) st0 = (Return r, s)
    /\ strict_invariant (fst (processWithAssemblyAI w (buffer file) st0)) r.
Proof.
  destruct (configured (ASSEMBLYAI_API_KEY cfg)) eqn:Hkey.
  2:{ unfold Basic.handler. rewrite Hkey. eexists _, _.
      split; [reflexivity|]. right. reflexivity. }
  rewrite basic_handler_run, processWithAssemblyAI_run by assumption.
  destruct (post_upload w (buffer file)) as [e|url].
  { eexists _, _. split; [reflexivity|]. right. reflexivity. }
  destruct (post_transcript w url) as [e|id].
  { eexists _, _. split; [reflexivity|]. right. reflexivity. }
  change (add_log st0 [Call (Upload (buffer file));
                       Settle (Upload (buffer file)) true;
                       Call (Transcribe url); Settle (Transcribe url) true])
    with (add_log st0 (submitted (buffer file) url)).
  destruct (pollLoop_total w id (fuel := S maxAttempts) 0 None
              (add_log st0 (submitted (buffer file) url)))
    as (out & st' & oks & Hrun & _ & _ & _ & Hout); [lia|].
  rewrite Hrun.
  destruct out as [[attempts [result|]]|e|]; [| | |congruence];
    try (eexists _, _; split; [reflexivity|]; right; reflexivity).
  unfold after_loop.
  destruct (has_status result "error") eqn:Herr;
    [eexists _, _; split; [reflexivity|]; right; reflexivity|].
  destruct (maxAttempts <=? attempts) eqn:Hmax;
    [eexists _, _; split; [reflexivity|]; right; reflexivity|].
  eexists _, _. split; [reflexivity|]. left. split; [reflexivity|].
  exists result. split; [reflexivity|]. split; [|reflexivity].
  apply Nat.leb_gt in Hmax.
  destruct (pollLoop_break _ _ _ _ _ _ Hrun Hmax) as (r & Hr & Hterm).
  inversion Hr; subst r. unfold terminal in Hterm. rewrite Herr in Hterm.
  rewrite orb_false_r in Hterm. exact Hterm.
Qed.

(** C1, as amended.  In the three variants without fallback every request
    with a file is answered either by an explicit error object
    [{success: false, error}] or by [success: true] together with, as
    transcript, the text of the transcription job that completed; so
    [success: true] never goes with a failed transcription.  The fallback
    variant answers every request with a file by [success: true] and a
    transcript that is not null: the non-empty text of the completed job,
    or else the simulated transcript (key missing, transcription failed, or
    the route threw).  A request without a file gets the error object in
    all four. *)
Theorem responses_are_honest_without_fallback
        (cfg : Config) (w : World) (sched : nat) (file : File) :
  let transcription := fst (processWithAssemblyAI w (buffer file) st0) in
  (exists r s,
     Parallel.handler cfg w sched (Some file) st0 = (Return r, s)
     /\ strict_invariant transcription r)
  /\ (exists r s,
        Watson.handler cfg w (Some file) st0 = (Return r, s)
        /\ strict_invariant transcription r)
  /\ (exists r s,
        Basic.handler cfg w (Some file) st0 = (Return r, s)
        /\ strict_invariant transcription r)
  /\ (exists r s,
        Fallback.handler cfg w (Some file) st0 = (Return r, s)
        /\ fallback_invariant transcription r)
  /\ (exists r,
        Res.is_error_object r = true
        /\ Parallel.handler cfg w sched None st0 = (Return r, st0)
        /\ Watson.handler cfg w None st0 = (Return r, st0)
        /\ Basic.handler cfg w None st0 = (Return r, st0)
        /\ Fallback.handler cfg w None st0 = (Return r, st0)).
Proof.
  intros transcription.
  pose proof (processWithAssemblyAI_ends w (buffer file) st0) as Hends.
  pose proof (processWithAssemblyAI_completed w (buffer file) st0) as Hdone.
  split; [|split; [|split; [|split]]].
  - destruct (configured (ASSEMBLYAI_API_KEY cfg)) eqn:Hkey.
    2:{ unfold Parallel.handler. rewrite Hkey. eexists _, _.
        split; [reflexivity|]. right. reflexivity. }
    rewrite parallel_handler_run, parallel_classify_run by assumption.
    change {| log := []; polls := polls st0 |} with st0.
    subst transcription.
    destruct (processWithAssemblyAI w (buffer file) st0) as [[t|e|] s1];
      [| |exfalso; apply Hends; reflexivity];
      eexists _, _; (split; [reflexivity|]).
    + apply parallel_answer_invariant; [reflexivity|].
      eapply Hdone. reflexivity.
    + right. reflexivity.
  - destruct (configured (ASSEMBLYAI_API_KEY cfg)) eqn:Hkey.
    2:{ unfold Watson.handler. rewrite Hkey. eexists _, _.
        split; [reflexivity|]. right. reflexivity. }
    rewrite watson_handler_run by assumption. subst transcription.
    destruct (processWithAssemblyAI w (buffer file) st0) as [[t|e|] s1];
      [| |exfalso; apply Hends; reflexivity];
      eexists _, _; (split; [reflexivity|]).
    + apply watson_answer_invariant; [reflexivity|].
      eapply Hdone. reflexivity.
    + right. reflexivity.
  - apply basic_handler_invariant.
  - destruct (configured (ASSEMBLYAI_API_KEY cfg)) eqn:Hkey.
    2:{ rewrite fallback_handler_without_key by assumption. eexists _, _.
        split; [reflexivity|]. split; [reflexivity|]. right. reflexivity. }
    rewrite fallback_handler_run by assumption. subst transcription.
    destruct (processWithAssemblyAI w (buffer file) st0) as [[t|e|] s1];
      [| |exfalso; apply Hends; reflexivity];
      eexists _, _; (split; [reflexivity|]);
      apply fallback_answer_invariant.
    + left. split; [reflexivity|]. eapply Hdone. reflexivity.
    + right. reflexivity.
  - exists (badRequest "No audio file provided"). repeat split.
Qed.

(** C1, counterexample.  With every key configured and the upload refused
    at the network level, the fallback variant answers [success: true] with
    the simulated transcript although transcription threw: the invariant as
    stated does not hold of that response. *)
Lemma fallback_masks_failed_upload :
  exists r s,
    Fallback.handler Sample.allKeys Sample.uploadDown
      (Some Sample.demoFile) st0 = (Return r, s)
    /\ Res.success r = true
    /\ Res.transcript_of r = Some simulatedTranscript
    /\ fst (processWithAssemblyAI Sample.uploadDown
              (buffer Sample.demoFile) st0) = Throw Sample.networkError
    /\ ~ response_invariant
           (fst (processWithAssemblyAI Sample.uploadDown
                   (buffer Sample.demoFile) st0)) r.
Proof.
  eexists _, _. split; [vm_compute; reflexivity|].
  split; [reflexivity|]. split; [reflexivity|]. split; [reflexivity|].
  intros [(_ & _ & Hno) | Herr].
  - apply Hno. exists Sample.networkError. reflexivity.
  - discriminate Herr.
Qed.

(** ** Calls to the enrichment providers *)

Lemma calls_app l1 l2 : calls (l1 ++ l2) = calls l1 ++ calls l2.
Proof. unfold calls. apply flat_map_app. Qed.

Lemma enrichment_calls_app l1 l2 :
  enrichment_calls (l1 ++ l2) = enrichment_calls l1 ++ enrichment_calls l2.
Proof. unfold enrichment_calls. rewrite calls_app. apply filter_app. Qed.

Lemma enrichment_calls_transcription T :
  forallb transcription_event T = true -> enrichment_calls T = [].
Proof.
  unfold enrichment_calls, enrichment_request.
  induction T as [|e T IH]; [reflexivity|]. cbn [forallb].
  intros H. apply andb_true_iff in H. destruct H as [He HT].
  destruct e as [r|r ok|ms]; cbn in *; auto.
  rewrite He. cbn. auto.
Qed.

Lemma forallb_firstn {A} (f : A -> bool) k : forall l,
  forallb f l = true -> forallb f (firstn k l) = true.
Proof.
  induction k as [|k IH]; intros [|x l]; cbn; auto.
  intros H. apply andb_true_iff in H. destruct H as [-> H]. cbn. auto.
Qed.

Lemma forallb_skipn {A} (f : A -> bool) k : forall l,
  forallb f l = true -> forallb f (skipn k l) = true.
Proof.
  induction k as [|k IH]; intros [|x l]; cbn; auto.
  intros H. apply andb_true_iff in H. destruct H as [_ H]. auto.
Qed.

(** The log of a run of the transcription client from a fresh state. *)
Lemma processWithAssemblyAI_fresh w audio :
  exists out s1 T,
    processWithAssemblyAI w audio st0 = (out, s1)
    /\ log s1 = Call (Upload audio) :: T
    /\ forallb transcription_event T = true
    /\ out <> OutOfFuel.
Proof.
  destruct (processWithAssemblyAI_total w audio st0)
    as (out & s1 & T & Hrun & Hlog & HT & _ & _ & Hout).
  exists out, s1, T. auto.
Qed.

Lemma enrichment_calls_interleaved sched audio T issued done :
  forallb transcription_event T = true ->
  enrichment_calls (interleaved sched (Call (Upload audio) :: T) issued done)
  = enrichment_calls issued ++ enrichment_calls done.
Proof.
  intros HT. unfold interleaved. cbn [firstn skipn].
  rewrite !enrichment_calls_app.
  rewrite (enrichment_calls_transcription (firstn sched T))
    by (apply forallb_firstn; exact HT).
  rewrite (enrichment_calls_transcription (skipn sched T))
    by (apply forallb_skipn; exact HT).
  cbn. rewrite app_nil_r. reflexivity.
Qed.

Lemma enrichment_calls_abandoned sched audio T issued done :
  forallb transcription_event T = true ->
  enrichment_calls done = [] ->
  enrichment_calls (abandoned sched (Call (Upload audio) :: T) issued done)
  = enrichment_calls issued.
Proof.
  intros HT Hdone. unfold abandoned. cbn [firstn skipn].
  rewrite !enrichment_calls_app.
  destruct (sched <? List.length T).
  - rewrite !enrichment_calls_app, Hdone.
    rewrite (enrichment_calls_transcription (firstn sched T))
      by (apply forallb_firstn; exact HT).
    rewrite (enrichment_calls_transcription (skipn sched T))
      by (apply forallb_skipn; exact HT).
    cbn. rewrite app_nil_r. reflexivity.
  - rewrite (enrichment_calls_transcription T) by exact HT.
    cbn. rewrite app_nil_r. reflexivity.
Qed.

(** ** A failed upload *)

Lemma simulated_wpm :
  calculateWPM
    (str_or (text Fallback.simulateAssemblyAIResults)
       (transcript Fallback.simulateAssemblyAIResults))
    (num_or (audio_duration Fallback.simulateAssemblyAIResults) (30 # 1))
  = inr 58%Z.
Proof. reflexivity. Qed.

Lemma processWithAssemblyAI_upload_fails w audio st e :
  post_upload w audio = inl e ->
  processWithAssemblyAI w audio st
  = (Throw e, add_log st [Call (Upload audio); Settle (Upload audio) false]).
Proof. intros H. rewrite processWithAssemblyAI_run, H. reflexivity. Qed.

(** C2, as amended.  When the upload to the transcription service fails
    with a network error: the sequential variant answers [success: false]
    with the message of the error, its log holding the upload and nothing
    else, so that no enrichment provider is contacted; the same holds of
    the transcription-only variant; the [Promise.all] variant answers
    [success: false] as well and never calls the generative-analysis
    provider, but its emotion request was issued together with the upload
    when a token is configured; the fallback variant carries on with the
    simulated transcription, calls every configured enrichment provider and
    answers [success: true] with the simulated transcript. *)
Theorem failed_upload_aborts_without_fallback
        (cfg : Config) (w : World) (sched : nat) (file : File) (e : JsError) :
  configured (ASSEMBLYAI_API_KEY cfg) = true ->
  post_upload w (buffer file) = inl e ->
  let audio := buffer file in
  (Watson.handler cfg w (Some file) st0
   = (Return (failure e),
      add_log st0 [Call (Upload audio); Settle (Upload audio) false])
   /\ aborts_without_enrichment (Watson.handler cfg w (Some file) st0))
  /\ aborts_without_enrichment (Basic.handler cfg w (Some file) st0)
  /\ (exists s,
        Parallel.handler cfg w sched (Some file) st0 = (Return (failure e), s)
        /\ Res.success (failure e) = false
        /\ enrichment_calls (log s)
           = if configured (HUGGING_FACE_TOKEN cfg)
             then [EmotionAudio audio] else [])
  /\ (exists r s,
        Fallback.handler cfg w (Some file) st0 = (Return r, s)
        /\ Res.success r = true
        /\ Res.transcript_of r = Some simulatedTranscript
        /\ enrichment_calls (log s)
           = (if configured (HUGGING_FACE_TOKEN cfg)
              then [EmotionAudio audio] else [])
             ++ (if configured (PERPLEXITY_API_KEY cfg)
                 then [Perplexity
                         (fallback_prompt Fallback.simulateAssemblyAIResults
                            (fst (fallback_emotions cfg w audio)) 58)]
                 else [])).
Proof.
  intros Hkey Hup audio.
  assert (HW : Watson.handler cfg w (Some file) st0
               = (Return (failure e),
                  add_log st0 [Call (Upload audio);
                               Settle (Upload audio) false])).
  { rewrite watson_handler_run by assumption.
    rewrite (processWithAssemblyAI_upload_fails w _ _ Hup). reflexivity. }
  split; [|split; [|split]].
  - split; [exact HW|]. rewrite HW. eexists _, _.
    split; [reflexivity|]. split; reflexivity.
  - rewrite basic_handler_run, Hup by assumption. eexists _, _.
    split; [reflexivity|]. split; reflexivity.
  - rewrite parallel_handler_run, parallel_classify_run by assumption.
    change {| log := []; polls := polls st0 |} with st0.
    rewrite (processWithAssemblyAI_upload_fails w _ _ Hup).
    eexists. split; [reflexivity|]. split; [reflexivity|].
    cbn [log add_log st0 app].
    rewrite enrichment_calls_abandoned; unfold parallel_emotions;
      destruct (configured (HUGGING_FACE_TOKEN cfg)); reflexivity.
  - rewrite fallback_handler_run by assumption.
    rewrite (processWithAssemblyAI_upload_fails w _ _ Hup).
    eexists _, _. split; [reflexivity|]. split; [reflexivity|].
    split; [reflexivity|].
    cbn [log add_log st0 app]. fold audio.
    change (Call (Upload audio) :: Settle (Upload audio) false
              :: snd (fallback_emotions cfg w audio)
              ++ snd (fallback_report cfg w Fallback.simulateAssemblyAIResults
                        (fst (fallback_emotions cfg w audio))))
      with ([Call (Upload audio); Settle (Upload audio) false]
              ++ snd (fallback_emotions cfg w audio)
              ++ snd (fallback_report cfg w Fallback.simulateAssemblyAIResults
                        (fst (fallback_emotions cfg w audio)))).
    rewrite !enrichment_calls_app.
    change (enrichment_calls [Call (Upload audio); Settle (Upload audio) false])
      with (@nil Request).
    cbn [app]. f_equal.
    + unfold fallback_emotions.
      destruct (configured (HUGGING_FACE_TOKEN cfg)); reflexivity.
    + unfold fallback_report. rewrite simulated_wpm.
      destruct (configured (PERPLEXITY_API_KEY cfg)); reflexivity.
Qed.

Lemma failed_upload_aborts_without_fallback_witness :
  Watson.handler Sample.allKeys Sample.uploadDown (Some Sample.demoFile) st0
  = (Return (failure Sample.networkError),
     add_log st0 [Call (Upload (buffer Sample.demoFile));
                  Settle (Upload (buffer Sample.demoFile)) false])
  /\ aborts_without_enrichment
       (Watson.handler Sample.allKeys Sample.uploadDown
          (Some Sample.demoFile) st0).
Proof.
  apply (@failed_upload_aborts_without_fallback Sample.allKeys
           Sample.uploadDown 0 Sample.demoFile Sample.networkError).
  - reflexivity.
  - reflexivity.
Defined.

(** C2, counterexample.  With every key configured and the upload refused
    at the network level, the fallback variant answers [success: true] and
    has called both enrichment providers. *)
Lemma fallback_continues_after_failed_upload :
  post_upload Sample.uploadDown (buffer Sample.demoFile)
  = inl Sample.networkError
  /\ ~ aborts_without_enrichment
         (Fallback.handler Sample.allKeys Sample.uploadDown
            (Some Sample.demoFile) st0).
Proof.
  split; [reflexivity|].
  intros (r & s & Hrun & Hfail & Hcalls).
  vm_compute in Hrun. inversion Hrun; subst r. discriminate Hfail.
Qed.

(** ** Failures of the enrichment providers *)

(** C5, as amended.  Once transcription has returned a job from which the
    words-per-minute metric can be computed, the response has
    [success: true] whatever the enrichment providers do, and a provider
    without credentials is never called.  What fills the slot of a provider
    that is not configured or fails depends on the variant:
    - [Promise.all] variant: emotions is [{error: <message>}] in both cases;
      detailedAnalysis is [{error: <message>}] on a remote error and [null]
      when Perplexity is not configured;
    - sequential variant: emotions and tones are [{error: <message>}] on a
      remote error and [null] when the provider is not configured;
    - fallback variant: the slot holds the simulated result in both cases. *)
Theorem enrichment_failures_are_absorbed
        (cfg : Config) (w : World) (sched : nat) (file : File)
        (t : TranscriptData) (s1 : St) :
  configured (ASSEMBLYAI_API_KEY cfg) = true ->
  processWithAssemblyAI w (buffer file) st0 = (Return t, s1) ->
  let audio := buffer file in
  (forall wpm, calculateWPM (text t) (audio_duration t) = inr wpm ->
     let metrics :=
       {| Res.wordsPerMinute := wpm;
          Res.confidence := confidence t;
          Res.audioDuration := audio_duration t;
          Res.sentiment := Some (json_or (sentiment_analysis_results t) JNull) |} in
     (let h :=
        if configured (HUGGING_FACE_TOKEN cfg) then
          match post_emotion_audio w audio with
          | inr j => j
          | inl e => errorObject (message e)
          end
        else errorObject (str "Hugging Face not configured") in
      let p :=
        if configured (PERPLEXITY_API_KEY cfg) then
          match post_perplexity w (parallel_prompt t h wpm) with
          | inr j => j
          | inl e => errorObject (message e)
          end
        else JNull in
      exists s,
        Parallel.handler cfg w sched (Some file) st0
        = (Return (ok (Analysis (text t) metrics h p)), s)
        /\ enrichment_calls (log s)
           = (if configured (HUGGING_FACE_TOKEN cfg)
              then [EmotionAudio audio] else [])
             ++ (if configured (PERPLEXITY_API_KEY cfg)
                 then [Perplexity (parallel_prompt t h wpm)] else []))
     /\ (let h :=
           if configured (HUGGING_FACE_TOKEN cfg) then
             match post_emotion_text w (text t) with
             | inr j => j
             | inl e => errorObject (message e)
             end
           else JNull in
         let i :=
           if configured (IBM_WATSON_API_KEY cfg)
              && configured (IBM_WATSON_URL cfg) then
             match post_tone w (text t) with
             | inr j => j
             | inl e => errorObject (message e)
             end
           else JNull in
         exists s,
           Watson.handler cfg w (Some file) st0
           = (Return (ok (Tones (text t)
                            {| Res.wordsPerMinute := wpm;
                               Res.confidence := confidence t;
                               Res.audioDuration := audio_duration t;
                               Res.sentiment := None |}
                            h i (json_or (sentiment_analysis_results t) JNull))),
              s)
           /\ enrichment_calls (log s)
              = (if configured (HUGGING_FACE_TOKEN cfg)
                 then [EmotionText (text t)] else [])
                ++ (if configured (IBM_WATSON_API_KEY cfg)
                       && configured (IBM_WATSON_URL cfg)
                    then [Tone (text t)] else [])))
  /\ (forall wpm,
        calculateWPM (str_or (text t) (transcript t))
          (num_or (audio_duration t) (30 # 1)) = inr wpm ->
        let h :=
          if configured (HUGGING_FACE_TOKEN cfg) then
            match post_emotion_audio w audio with
            | inr j => j
            | inl _ => Fallback.simulateHuggingFaceResults
            end
          else Fallback.simulateHuggingFaceResults in
        let p :=
          if configured (PERPLEXITY_API_KEY cfg) then
            match post_perplexity w (fallback_prompt t h wpm) with
            | inr j => j
            | inl _ => Fallback.simulateTruthAnalysisReport t h
            end
          else Fallback.simulateTruthAnalysisReport t h in
        exists s,
          Fallback.handler cfg w (Some file) st0
          = (Return (ok (Analysis (str_or (text t) (transcript t))
                           {| Res.wordsPerMinute := wpm;
                              Res.confidence :=
                                num_or (confidence t) (85 # 100);
                              Res.audioDuration :=
                                num_or (audio_duration t) (30 # 1);
                              Res.sentiment :=
                                Some (json_or (sentiment_analysis_results t)
                                        JNull) |}
                           h p)), s)
          /\ enrichment_calls (log s)
             = (if configured (HUGGING_FACE_TOKEN cfg)
                then [EmotionAudio audio] else [])
               ++ (if configured (PERPLEXITY_API_KEY cfg)
                   then [Perplexity (fallback_prompt t h wpm)] else [])).
Proof.
  intros Hkey Hrun audio.
  destruct (processWithAssemblyAI_fresh w (buffer file))
    as (out & s1' & T & Hrun' & Hlog & HT & _).
  rewrite Hrun in Hrun'. inversion Hrun'; subst out s1'. clear Hrun'.
  assert (Htrans : enrichment_calls (log s1) = []).
  { rewrite Hlog.
    apply (enrichment_calls_transcription (Call (Upload (buffer file)) :: T)).
    cbn. exact HT. }
  split.
  - intros wpm Hwpm metrics. split.
    + intros h p.
      rewrite parallel_handler_run, parallel_classify_run by assumption.
      change {| log := []; polls := polls st0 |} with st0. rewrite Hrun.
      cbv zeta. unfold parallel_answer. rewrite Hwpm.
      assert (Hh : fst (parallel_emotions cfg w (buffer file)) = h).
      { subst h audio. unfold parallel_emotions.
        destruct (configured (HUGGING_FACE_TOKEN cfg)); reflexivity. }
      assert (Hp : fst (parallel_report cfg w t h) = p).
      { subst p. unfold parallel_report. rewrite Hwpm.
        destruct (configured (PERPLEXITY_API_KEY cfg)); reflexivity. }
      rewrite Hh, Hp. eexists. split; [reflexivity|].
      cbn [log add_log st0 app]. rewrite enrichment_calls_app, Hlog.
      rewrite enrichment_calls_interleaved by exact HT.
      assert (Hdone : enrichment_calls
                        (snd (snd (parallel_emotions cfg w (buffer file))))
                      = []).
      { unfold parallel_emotions.
        destruct (configured (HUGGING_FACE_TOKEN cfg)); reflexivity. }
      rewrite Hdone, app_nil_r. f_equal.
      * unfold parallel_emotions.
        destruct (configured (HUGGING_FACE_TOKEN cfg)); reflexivity.
      * unfold parallel_report. rewrite Hwpm.
        destruct (configured (PERPLEXITY_API_KEY cfg)); reflexivity.
    + intros h i.
      rewrite watson_handler_run by assumption. rewrite Hrun.
      cbv zeta. unfold watson_answer. rewrite Hwpm.
      assert (Hh : fst (watson_emotions cfg w (text t)) = h).
      { subst h. unfold watson_emotions.
        destruct (configured (HUGGING_FACE_TOKEN cfg)); reflexivity. }
      assert (Hi : fst (watson_tones cfg w (text t)) = i).
      { subst i. unfold watson_tones.
        destruct (configured (IBM_WATSON_API_KEY cfg)
                  && configured (IBM_WATSON_URL cfg)); reflexivity. }
      rewrite Hh, Hi. eexists. split; [reflexivity|].
      cbn [log add_log]. rewrite !enrichment_calls_app, Htrans. cbn [app].
      f_equal.
      * unfold watson_emotions.
        destruct (configured (HUGGING_FACE_TOKEN cfg)); reflexivity.
      * unfold watson_tones.
        destruct (configured (IBM_WATSON_API_KEY cfg)
                  && configured (IBM_WATSON_URL cfg)); reflexivity.
  - intros wpm Hwpm h p.
    rewrite fallback_handler_run by assumption. rewrite Hrun.
    cbv zeta. unfold fallback_answer. rewrite Hwpm.
    assert (Hh : fst (fallback_emotions cfg w (buffer file)) = h).
    { subst h audio. unfold fallback_emotions.
      destruct (configured (HUGGING_FACE_TOKEN cfg)); reflexivity. }
    assert (Hp : fst (fallback_report cfg w t h) = p).
    { subst p. unfold fallback_report. rewrite Hwpm.
      destruct (configured (PERPLEXITY_API_KEY cfg)); reflexivity. }
    rewrite Hh, Hp. eexists. split; [reflexivity|].
    cbn [log add_log]. rewrite !enrichment_calls_app, Htrans. cbn [app].
    f_equal.
    + unfold fallback_emotions.
      destruct (configured (HUGGING_FACE_TOKEN cfg)); reflexivity.
    + unfold fallback_report. rewrite Hwpm.
      destruct (configured (PERPLEXITY_API_KEY cfg)); reflexivity.
Qed.

Lemma enrichment_failures_are_absorbed_witness :
  exists s,
    Parallel.handler Sample.allKeys Sample.enrichmentDown 0
      (Some Sample.demoFile) st0
    = (Return
         (ok (Analysis (Some Sample.sixWords)
                {| Res.wordsPerMinute := 12;
                   Res.confidence := Some (9 # 10)%Q;
                   Res.audioDuration := Some (30 # 1)%Q;
                   Res.sentiment := Some JNull |}
                (errorObject (str "connect ECONNREFUSED"))
                (errorObject (str "connect ECONNREFUSED")))), s)
    /\ enrichment_calls (log s)
       = [EmotionAudio (buffer Sample.demoFile);
          Perplexity
            (parallel_prompt (Sample.job "completed" (Some Sample.sixWords))
               (errorObject (str "connect ECONNREFUSED")) 12)].
Proof.
  assert (Hrun :
    processWithAssemblyAI Sample.enrichmentDown (buffer Sample.demoFile) st0
    = (Return (Sample.job "completed" (Some Sample.sixWords)),
       snd (processWithAssemblyAI Sample.enrichmentDown
              (buffer Sample.demoFile) st0))).
  { vm_compute. reflexivity. }
  exact (proj1 (proj1 (@enrichment_failures_are_absorbed
                         Sample.allKeys Sample.enrichmentDown 0
                         Sample.demoFile
                         (Sample.job "completed" (Some Sample.sixWords))
                         _ eq_refl Hrun)
                  12%Z eq_refl)).
Defined.

(** C5, counterexample.  The slot of a provider without credentials, or of
    a failing provider, is not always the tagged placeholder: without a
    Perplexity key the [Promise.all] variant answers with
    [detailedAnalysis: null], and when Hugging Face is unreachable the
    fallback variant answers with the simulated emotion list. *)
Lemma unconfigured_slot_is_not_tagged :
  (exists r s,
     Parallel.handler Sample.noPerplexity
       (Sample.completesAfter 0 (Some Sample.sixWords)) 0
       (Some Sample.demoFile) st0 = (Return r, s)
     /\ Res.success r = true
     /\ configured (PERPLEXITY_API_KEY Sample.noPerplexity) = false
     /\ Res.detailedAnalysis_of r = Some JNull
     /\ ~ tagged_placeholder (Res.detailedAnalysis_of r))
  /\ (exists r s,
        Fallback.handler Sample.allKeys Sample.enrichmentDown
          (Some Sample.demoFile) st0 = (Return r, s)
        /\ Res.success r = true
        /\ post_emotion_audio Sample.enrichmentDown (buffer Sample.demoFile)
           = inl Sample.networkError
        /\ Res.emotions_of r = Some Fallback.simulateHuggingFaceResults
        /\ ~ tagged_placeholder (Res.emotions_of r)).
Proof.
  split.
  - eexists _, _. split; [vm_compute; reflexivity|].
    repeat split. intros [msg Hmsg]. discriminate Hmsg.
  - eexists _, _. split; [vm_compute; reflexivity|].
    repeat split. intros [msg Hmsg]. discriminate Hmsg.
Qed.

(** ** Order of the calls *)

Lemma split_in_suffix (A B : list Event) x : forall l1 l2,
  A ++ B = l1 ++ x :: l2 -> ~ In x A ->
  exists l1', l1 = A ++ l1' /\ B = l1' ++ x :: l2.
Proof.
  induction A as [|a A IH]; intros l1 l2 H Hn.
  - exists l1. auto.
  - destruct l1 as [|y l1]; cbn in H; inversion H; subst.
    + exfalso. apply Hn. left. reflexivity.
    + destruct (IH l1 l2 H2) as (l1' & -> & ->).
      * intros Hin. apply Hn. right. exact Hin.
      * exists l1'. auto.
Qed.

Lemma not_in_by_forallb (f : Event -> bool) (A : list Event) x :
  forallb (fun e => negb (f e)) A = true -> f x = true -> ~ In x A.
Proof.
  intros HA Hx Hin. rewrite forallb_forall in HA.
  specialize (HA x Hin). rewrite Hx in HA. discriminate.
Qed.

Lemma after_transcription_shape A B :
  forallb (fun e => negb (consumer_call e)) A = true ->
  forallb (fun e => negb (transcription_event e)) B = true ->
  after_transcription (A ++ B).
Proof.
  intros HA HB l1 r l2 Heq Hr.
  destruct (split_in_suffix A B (Call r) l1 l2 Heq) as (l1' & _ & ->).
  - apply (not_in_by_forallb consumer_call); assumption.
  - rewrite forallb_app in HB. apply andb_true_iff in HB.
    destruct HB as [_ HB]. cbn in HB. apply andb_true_iff in HB. apply HB.
Qed.

Lemma after_emotion_shape A G :
  G = []
  \/ ((exists p ok, G = settled (Perplexity p) (ok : JsError + JSON))
      /\ forall q, emotion_request q = true ->
                   In (Call q) A -> exists ok, In (Settle q ok) A) ->
  forallb (fun e => negb (perplexity_call e)) A = true ->
  after_emotion (A ++ G).
Proof.
  intros HG HA l1 r l2 Heq Hr.
  destruct (split_in_suffix A G (Call r) l1 l2 Heq) as (l1' & -> & HG').
  - apply (not_in_by_forallb perplexity_call); assumption.
  - destruct HG as [->|[(p & ok & ->) Hsettled]].
    + destruct l1'; discriminate HG'.
    + destruct l1' as [|y l1']; cbn in HG'; inversion HG'; subst.
      * rewrite app_nil_r. split; [reflexivity|exact Hsettled].
      * destruct l1' as [|z l1']; cbn in H1; inversion H1; subst.
        destruct l1'; discriminate.
Qed.

Lemma perplexity_prompt_in A G prompt :
  forallb (fun e => negb (perplexity_call e)) A = true ->
  In (Call (Perplexity prompt)) (A ++ G) ->
  In (Call (Perplexity prompt)) G.
Proof.
  intros HA Hin. apply in_app_or in Hin. destruct Hin as [Hin|Hin]; [|exact Hin].
  exfalso. revert Hin. apply (not_in_by_forallb perplexity_call); auto.
Qed.

Lemma transcription_not_consumer T :
  forallb transcription_event T = true ->
  forallb (fun e => negb (consumer_call e)) T = true.
Proof.
  intros H. rewrite forallb_forall in *. intros e He. specialize (H e He).
  destruct e as [[]|[]|]; cbn in *; auto; discriminate.
Qed.

Lemma transcription_not_perplexity T :
  forallb transcription_event T = true ->
  forallb (fun e => negb (perplexity_call e)) T = true.
Proof.
  intros H. rewrite forallb_forall in *. intros e He. specialize (H e He).
  destruct e as [[]|[]|]; cbn in *; auto; discriminate.
Qed.

Lemma transcription_no_emotion_call T q :
  forallb transcription_event T = true ->
  emotion_request q = true -> ~ In (Call q) T.
Proof.
  intros H Hq Hin. rewrite forallb_forall in H. specialize (H _ Hin).
  destruct q; cbn in *; discriminate.
Qed.

(** A run that only talked to the transcription service. *)
Lemma ordered_run_transcription_only out s :
  forallb transcription_event (log s) = true -> ordered_run (out, s).
Proof.
  intros HT. cbn [ordered_run fst snd]. unfold ordered_run. cbn [fst snd].
  split; [|split].
  - rewrite <- (app_nil_r (log s)).
    apply after_transcription_shape;
      [apply transcription_not_consumer; exact HT | reflexivity].
  - rewrite <- (app_nil_r (log s)).
    apply after_emotion_shape;
      [left; reflexivity | apply transcription_not_perplexity; exact HT].
  - intros prompt Hin. exfalso. revert Hin.
    apply (not_in_by_forallb perplexity_call);
      [apply transcription_not_perplexity; exact HT | reflexivity].
Qed.

Lemma watson_ordered cfg w req_file :
  ordered_run (Watson.handler cfg w req_file st0).
Proof.
  destruct req_file as [file|];
    [|apply ordered_run_transcription_only; reflexivity].
  destruct (configured (ASSEMBLYAI_API_KEY cfg)) eqn:Hkey.
  2:{ unfold Watson.handler. rewrite Hkey.
      apply ordered_run_transcription_only. reflexivity. }
  rewrite watson_handler_run by assumption.
  destruct (processWithAssemblyAI_fresh w (buffer file))
    as (out & s1 & T & Hrun & Hlog & HT & Hout).
  rewrite Hrun.
  assert (HA : forallb transcription_event (log s1) = true).
  { rewrite Hlog. cbn. exact HT. }
  destruct out as [a|e|]; [| |congruence];
    [|apply ordered_run_transcription_only; exact HA].
  cbv zeta. unfold ordered_run. cbn [fst snd add_log log].
  set (B := snd (watson_emotions cfg w (text a))
              ++ snd (watson_tones cfg w (text a))).
  assert (HB : forallb (fun e => negb (transcription_event e)) B = true
               /\ forallb (fun e => negb (perplexity_call e)) B = true).
  { subst B. unfold watson_emotions, watson_tones.
    destruct (configured (HUGGING_FACE_TOKEN cfg));
      destruct (configured (IBM_WATSON_API_KEY cfg)
                && configured (IBM_WATSON_URL cfg)); split; reflexivity. }
  destruct HB as [HB1 HB2].
  assert (Hno : forallb (fun e => negb (perplexity_call e)) (log s1 ++ B) = true).
  { rewrite forallb_app, HB2, transcription_not_perplexity by exact HA.
    reflexivity. }
  split; [|split].
  - apply after_transcription_shape;
      [apply transcription_not_consumer; exact HA | exact HB1].
  - rewrite <- (app_nil_r (log s1 ++ B)).
    apply after_emotion_shape; [left; reflexivity | exact Hno].
  - intros prompt Hin. exfalso. revert Hin.
    apply (not_in_by_forallb perplexity_call); [exact Hno | reflexivity].
Qed.

Lemma in_settled {A} r (answer : JsError + A) prompt :
  In (Call (Perplexity prompt)) (settled r answer) -> r = Perplexity prompt.
Proof.
  intros [H|[H|[]]]; [|discriminate H]. inversion H. reflexivity.
Qed.

Lemma fallback_emotions_events cfg w audio :
  let E := snd (fallback_emotions cfg w audio) in
  forallb (fun e => negb (transcription_event e)) E = true
  /\ forallb (fun e => negb (perplexity_call e)) E = true
  /\ forall q, In (Call q) E -> exists ok, In (Settle q ok) E.
Proof.
  unfold fallback_emotions.
  destruct (configured (HUGGING_FACE_TOKEN cfg)); cbn [snd];
    (split; [reflexivity|split; [reflexivity|]]).
  - intros q [H|[H|[]]]; [|discriminate H]. inversion H; subst.
    eexists. right. left. reflexivity.
  - intros q [].
Qed.

Lemma fallback_report_events cfg w a h :
  let G := snd (fallback_report cfg w a h) in
  forallb (fun e => negb (transcription_event e)) G = true
  /\ (G = []
      \/ exists wpm,
           calculateWPM (str_or (text a) (transcript a))
             (num_or (audio_duration a) (30 # 1)) = inr wpm
           /\ G = settled (Perplexity (fallback_prompt a h wpm))
                    (post_perplexity w (fallback_prompt a h wpm))).
Proof.
  unfold fallback_report.
  destruct (configured (PERPLEXITY_API_KEY cfg));
    [|split; [reflexivity|left; reflexivity]].
  destruct (calculateWPM _ _) as [e|wpm];
    [split; [reflexivity|left; reflexivity]|].
  split; [reflexivity|]. right. exists wpm. auto.
Qed.

Lemma fallback_ordered cfg w req_file :
  ordered_run (Fallback.handler cfg w req_file st0).
Proof.
  destruct req_file as [file|];
    [|apply ordered_run_transcription_only; reflexivity].
  destruct (configured (ASSEMBLYAI_API_KEY cfg)) eqn:Hkey.
  2:{ rewrite fallback_handler_without_key by assumption.
      apply ordered_run_transcription_only. reflexivity. }
  rewrite fallback_handler_run by assumption.
  destruct (processWithAssemblyAI_fresh w (buffer file))
    as (out & s1 & T & Hrun & Hlog & HT & Hout).
  rewrite Hrun.
  assert (HA : forallb transcription_event (log s1) = true).
  { rewrite Hlog. cbn. exact HT. }
  assert (Hgen : forall a,
    ordered_run
      (Return (fallback_answer a (fst (fallback_emotions cfg w (buffer file)))
                 (fst (fallback_report cfg w a
                         (fst (fallback_emotions cfg w (buffer file)))))),
       add_log s1
         (snd (fallback_emotions cfg w (buffer file))
            ++ snd (fallback_report cfg w a
                      (fst (fallback_emotions cfg w (buffer file))))))).
  { intros a.
    destruct (fallback_emotions_events cfg w (buffer file))
      as (HE1 & HE2 & HE3).
    destruct (fallback_report_events cfg w a
                (fst (fallback_emotions cfg w (buffer file))))
      as (HG1 & HG2).
    set (h := fst (fallback_emotions cfg w (buffer file))) in *.
    set (E := snd (fallback_emotions cfg w (buffer file))) in *.
    set (G := snd (fallback_report cfg w a h)) in *.
    assert (Hno : forallb (fun e => negb (perplexity_call e)) (log s1 ++ E)
                  = true).
    { rewrite forallb_app, HE2, transcription_not_perplexity by exact HA.
      reflexivity. }
    unfold ordered_run. cbn [fst snd add_log log]. split; [|split].
    - apply after_transcription_shape;
        [apply transcription_not_consumer; exact HA|].
      rewrite forallb_app, HE1, HG1. reflexivity.
    - rewrite app_assoc. apply after_emotion_shape; [|exact Hno].
      destruct HG2 as [HG2|(wpm & _ & HG2)]; [left; exact HG2|].
      right. split; [eexists _, _; exact HG2|].
      intros q Hq Hin. apply in_app_or in Hin. destruct Hin as [Hin|Hin].
      + exfalso. revert Hin. apply transcription_no_emotion_call; assumption.
      + destruct (HE3 q Hin) as [ok Hok]. exists ok.
        apply in_or_app. right. exact Hok.
    - intros prompt Hin. rewrite app_assoc in Hin.
      apply perplexity_prompt_in in Hin; [|exact Hno].
      destruct HG2 as [HG2|(wpm & Hwpm & HG2)]; rewrite HG2 in Hin;
        [destruct Hin|].
      apply in_settled in Hin. inversion Hin; subst prompt.
      eexists. split; [reflexivity|].
      unfold fallback_answer. rewrite Hwpm. reflexivity. }
  destruct out as [a|e|]; [| |congruence]; apply Hgen.
Qed.

Lemma no_consumer_no_perplexity l :
  forallb (fun e => negb (consumer_call e)) l = true ->
  forallb (fun e => negb (perplexity_call e)) l = true.
Proof.
  intros H. rewrite forallb_forall in *. intros e He. specialize (H e He).
  destruct e as [[]|[]|]; cbn in *; auto; discriminate.
Qed.

(** A run in which no request built from the transcript was issued. *)
Lemma ordered_run_quiet out s :
  forallb (fun e => negb (consumer_call e)) (log s) = true ->
  ordered_run (out, s).
Proof.
  intros HA. pose proof (no_consumer_no_perplexity _ HA) as HP.
  unfold ordered_run. cbn [fst snd]. split; [|split].
  - rewrite <- (app_nil_r (log s)).
    apply after_transcription_shape; [exact HA | reflexivity].
  - rewrite <- (app_nil_r (log s)).
    apply after_emotion_shape; [left; reflexivity | exact HP].
  - intros prompt Hin. exfalso. revert Hin.
    apply (not_in_by_forallb perplexity_call); [exact HP | reflexivity].
Qed.

Lemma forallb_interleaved (f : Event -> bool) sched la issued done :
  forallb f la = true -> forallb f issued = true -> forallb f done = true ->
  forallb f (interleaved sched la issued done) = true.
Proof.
  intros Hla Hi Hd. unfold interleaved. rewrite !forallb_app, Hi, Hd.
  rewrite (forallb_firstn f 1 la Hla).
  rewrite (forallb_firstn f sched _ (forallb_skipn f 1 la Hla)).
  rewrite (forallb_skipn f sched _ (forallb_skipn f 1 la Hla)).
  reflexivity.
Qed.

Lemma forallb_abandoned (f : Event -> bool) sched la issued done :
  forallb f la = true -> forallb f issued = true -> forallb f done = true ->
  forallb f (abandoned sched la issued done) = true.
Proof.
  intros Hla Hi Hd. unfold abandoned. rewrite !forallb_app, Hi.
  rewrite (forallb_firstn f 1 la Hla). cbn [andb].
  destruct (sched <? List.length (skipn 1 la)).
  - rewrite !forallb_app, Hd.
    rewrite (forallb_firstn f sched _ (forallb_skipn f 1 la Hla)).
    rewrite (forallb_skipn f sched _ (forallb_skipn f 1 la Hla)).
    reflexivity.
  - apply forallb_skipn. exact Hla.
Qed.

Lemma in_interleaved x sched la issued done :
  In x (interleaved sched la issued done) <->
  In x la \/ In x issued \/ In x done.
Proof.
  unfold interleaved. rewrite !in_app_iff.
  rewrite <- (firstn_skipn 1 la) at 4.
  rewrite <- (firstn_skipn sched (skipn 1 la)) at 3.
  rewrite !in_app_iff. tauto.
Qed.

Lemma parallel_emotions_events cfg w audio :
  let issued := fst (snd (parallel_emotions cfg w audio)) in
  let done := snd (snd (parallel_emotions cfg w audio)) in
  forallb (fun e => negb (consumer_call e)) issued = true
  /\ forallb (fun e => negb (consumer_call e)) done = true
  /\ (forall q, In (Call q) issued -> exists ok, In (Settle q ok) done)
  /\ (forall q, ~ In (Call q) done).
Proof.
  unfold parallel_emotions.
  destruct (configured (HUGGING_FACE_TOKEN cfg)); cbn [fst snd];
    (split; [reflexivity|split; [reflexivity|split]]).
  - intros q [H|[]]. inversion H; subst. eexists. left. reflexivity.
  - intros q [H|[]]. discriminate H.
  - intros q [].
  - intros q [].
Qed.

Lemma parallel_report_events cfg w a h :
  let G := snd (parallel_report cfg w a h) in
  forallb (fun e => negb (transcription_event e)) G = true
  /\ (G = []
      \/ exists wpm,
           calculateWPM (text a) (audio_duration a) = inr wpm
           /\ G = settled (Perplexity (parallel_prompt a h wpm))
                    (post_perplexity w (parallel_prompt a h wpm))).
Proof.
  unfold parallel_report.
  destruct (configured (PERPLEXITY_API_KEY cfg));
    [|split; [reflexivity|left; reflexivity]].
  destruct (calculateWPM _ _) as [e|wpm];
    [split; [reflexivity|left; reflexivity]|].
  split; [reflexivity|]. right. exists wpm. auto.
Qed.

Lemma parallel_ordered cfg w sched req_file :
  ordered_run (Parallel.handler cfg w sched req_file st0).
Proof.
  destruct req_file as [file|]; [|apply ordered_run_quiet; reflexivity].
  destruct (configured (ASSEMBLYAI_API_KEY cfg)) eqn:Hkey.
  2:{ unfold Parallel.handler. rewrite Hkey.
      apply ordered_run_quiet. reflexivity. }
  rewrite parallel_handler_run, parallel_classify_run by assumption.
  change {| log := []; polls := polls st0 |} with st0.
  destruct (processWithAssemblyAI_fresh w (buffer file))
    as (out & s1 & T & Hrun & Hlog & HT & Hout).
  rewrite Hrun.
  assert (HA : forallb transcription_event (log s1) = true).
  { rewrite Hlog. cbn. exact HT. }
  destruct (parallel_emotions_events cfg w (buffer file))
    as (HI & HD & Hsettle & Hnocall).
  set (h := fst (parallel_emotions cfg w (buffer file))) in *.
  set (issued := fst (snd (parallel_emotions cfg w (buffer file)))) in *.
  set (done := snd (snd (parallel_emotions cfg w (buffer file)))) in *.
  destruct out as [a|e|]; [| |congruence].
  2:{ apply ordered_run_quiet. cbn [log st0 app].
      apply forallb_abandoned;
        [apply transcription_not_consumer; exact HA | exact HI | exact HD]. }
  cbv zeta. cbn [fst]. fold h.
  destruct (parallel_report_events cfg w a h) as (HG1 & HG2).
  set (G := snd (parallel_report cfg w a h)) in *.
  set (A := interleaved sched (log s1) issued done).
  assert (HAc : forallb (fun e => negb (consumer_call e)) A = true).
  { apply forallb_interleaved;
      [apply transcription_not_consumer; exact HA | exact HI | exact HD]. }
  pose proof (no_consumer_no_perplexity _ HAc) as HAp.
  unfold ordered_run. cbn [fst snd add_log log st0 app]. fold A.
  split; [|split].
  - apply after_transcription_shape; [exact HAc | exact HG1].
  - apply after_emotion_shape; [|exact HAp].
    destruct HG2 as [HG2|(wpm & _ & HG2)]; [left; exact HG2|].
    right. split; [eexists _, _; exact HG2|].
    intros q Hq Hin. apply in_interleaved in Hin.
    destruct Hin as [Hin|[Hin|Hin]].
    + exfalso. revert Hin. apply transcription_no_emotion_call; assumption.
    + destruct (Hsettle q Hin) as [ok Hok]. exists ok.
      apply in_interleaved. right. right. exact Hok.
    + exfalso. exact (Hnocall q Hin).
  - intros prompt Hin. apply perplexity_prompt_in in Hin; [|exact HAp].
    destruct HG2 as [HG2|(wpm & Hwpm & HG2)]; rewrite HG2 in Hin;
      [destruct Hin|].
    apply in_settled in Hin. inversion Hin; subst prompt.
    eexists. split; [reflexivity|].
    unfold parallel_answer. rewrite Hwpm. reflexivity.
Qed.

Lemma basic_ordered cfg w req_file :
  ordered_run (Basic.handler cfg w req_file st0).
Proof.
  destruct req_file as [file|];
    [|apply ordered_run_transcription_only; reflexivity].
  destruct (configured (ASSEMBLYAI_API_KEY cfg)) eqn:Hkey.
  2:{ unfold Basic.handler. rewrite Hkey.
      apply ordered_run_transcription_only. reflexivity. }
  rewrite basic_handler_run by assumption.
  destruct (post_upload w (buffer file)) as [e|url];
    [apply ordered_run_transcription_only; reflexivity|].
  destruct (post_transcript w url) as [e|id];
    [apply ordered_run_transcription_only; reflexivity|].
  destruct (pollLoop_total w id (fuel := S maxAttempts) 0 None
              (add_log st0 (submitted (buffer file) url)))
    as (out & st' & oks & Hrun & Hlog & _); [lia|].
  rewrite Hrun.
  assert (HT : forallb transcription_event (log st') = true).
  { rewrite Hlog, forallb_app, turns_transcription. reflexivity. }
  destruct out as [[attempts [result|]]|e|];
    apply ordered_run_transcription_only; exact HT.
Qed.

(** C6.  In every run of every variant, from a fresh request: (1) once a
    request whose body is built from the transcript text (emotion
    classification on text, tone analysis, generative analysis) has been
    issued, no event of the transcription client follows, so transcription
    has completed or failed before; (2) when the generative-analysis
    request is issued, every emotion request issued before has settled and
    none follows; (3) the prompt of that request carries, as emotion
    analysis, the very value of the emotion slot of the response, result or
    placeholder.  In the [Promise.all] variant this holds for every
    interleaving [sched] of the emotion request with transcription. *)
Theorem enrichment_follows_its_inputs
        (cfg : Config) (w : World) (sched : nat) (req_file : option File) :
  ordered_run (Fallback.handler cfg w req_file st0)
  /\ ordered_run (Parallel.handler cfg w sched req_file st0)
  /\ ordered_run (Watson.handler cfg w req_file st0)
  /\ ordered_run (Basic.handler cfg w req_file st0).
Proof.
  split; [apply fallback_ordered|].
  split; [apply parallel_ordered|].
  split; [apply watson_ordered | apply basic_ordered].
Qed.

Lemma enrichment_follows_its_inputs_witness :
  let run :=
    Parallel.handler Sample.allKeys
      (Sample.completesAfter 1 (Some Sample.sixWords)) 2
      (Some Sample.demoFile) st0 in
  let prompt :=
    parallel_prompt (Sample.job "completed" (Some Sample.sixWords))
      Sample.joy 12 in
  log (snd run)
  = firstn 12 (log (snd run)) ++ Call (Perplexity prompt)
      :: skipn 13 (log (snd run))
  /\ forallb (fun e => negb (transcription_event e)) (skipn 13 (log (snd run)))
     = true
  /\ forallb (fun e => negb (emotion_event e)) (skipn 13 (log (snd run)))
     = true
  /\ (exists ok,
        In (Settle (EmotionAudio (buffer Sample.demoFile)) ok)
          (firstn 12 (log (snd run))))
  /\ exists r, fst run = Return r
               /\ Res.emotions_of r = Some (EMOTION_ANALYSIS prompt).
Proof.
  intros run prompt.
  destruct (enrichment_follows_its_inputs Sample.allKeys
              (Sample.completesAfter 1 (Some Sample.sixWords)) 2
              (Some Sample.demoFile))
    as (_ & (Htrans & Hemo & Hprompt) & _).
  fold run in Htrans, Hemo, Hprompt.
  assert (Hsplit : log (snd run)
                   = firstn 12 (log (snd run)) ++ Call (Perplexity prompt)
                       :: skipn 13 (log (snd run))).
  { vm_compute. reflexivity. }
  split; [exact Hsplit|].
  split; [exact (Htrans _ _ _ Hsplit eq_refl)|].
  split; [exact (proj1 (Hemo _ _ _ Hsplit eq_refl))|].
  split.
  - apply (proj2 (Hemo _ _ _ Hsplit eq_refl)
             (EmotionAudio (buffer Sample.demoFile)) eq_refl).
    vm_compute. right. left. reflexivity.
  - apply Hprompt. rewrite Hsplit. apply in_or_app. right. left. reflexivity.
Defined.

(* ================================================================== *)
(** * Further properties of the transcription client *)

Section TranscriptionRequests.

Variable w : World.

Lemma calls_turns id oks :
  calls (flat_map (turn id) oks) = repeat (Status id) (List.length oks).
Proof.
  induction oks as [|ok oks IH]; [reflexivity|].
  cbn [flat_map]. rewrite calls_app, IH. reflexivity.
Qed.

Lemma calls_add_log st events :
  calls (log (add_log st events)) = calls (log st) ++ calls events.
Proof. cbn [add_log log]. apply calls_app. Qed.

Lemma length_turns id oks :
  List.length (flat_map (turn id) oks) = 3 * List.length oks.
Proof.
  induction oks as [|ok oks IH]; [reflexivity|].
  cbn [flat_map]. rewrite length_app, IH. cbn [turn List.length]. lia.
Qed.

(** [k] pending answers followed by a request that fails at the network
    level: the error leaves the loop as it is. *)
Lemma pollLoop_fails id k : forall fuel attempts result st rs e,
  attempts + k < maxAttempts ->
  k < fuel ->
  (forall j, j < k ->
     get_transcript w id (polls st + j) = inr (rs j)
     /\ terminal (rs j) = false) ->
  get_transcript w id (polls st + k) = inl e ->
  exists st',
    pollLoop w fuel id attempts result st = (Throw e, st')
    /\ log st' = log st ++ flat_map (turn id) (repeat true k ++ [false])
    /\ polls st' = polls st + S k.
Proof.
  induction k as [|k IH]; intros fuel attempts result st rs e Ha Hfuel Hrs He;
    (destruct fuel as [|fuel]; [lia|]); rewrite pollLoop_step;
    (replace (attempts <? maxAttempts) with true
      by (symmetry; apply Nat.ltb_lt; lia)).
  - rewrite Nat.add_0_r in He. rewrite He.
    exists (after_turn id st false). simpl_log.
    repeat split. lia.
  - destruct (Hrs 0) as [Hget Hterm]; [lia|].
    rewrite Nat.add_0_r in Hget. rewrite Hget, Hterm.
    destruct (IH fuel (S attempts) (Some (rs 0)) (after_turn id st true)
                (fun j => rs (S j)) e) as (st' & Hrun & Hlog & Hpolls).
    + lia.
    + lia.
    + intros j Hj. cbn [after_turn polls].
      replace (S (polls st) + j) with (polls st + S j) by lia.
      apply Hrs. lia.
    + cbn [after_turn polls].
      replace (S (polls st) + k) with (polls st + S k) by lia. exact He.
    + exists st'. rewrite Hrun, Hlog, Hpolls. cbn [after_turn log polls].
      split; [reflexivity|]. split; [|lia].
      cbn [repeat app flat_map]. rewrite <- app_assoc. reflexivity.
Qed.

(** From a fresh counter the loop makes at least one request. *)
Lemma pollLoop_turns id result st :
  exists out st' oks,
    pollLoop w (S maxAttempts) id 0 result st = (out, st')
    /\ log st' = log st ++ flat_map (turn id) oks
    /\ polls st' = polls st + List.length oks
    /\ 1 <= List.length oks <= maxAttempts
    /\ out <> OutOfFuel.
Proof.
  destruct (pollLoop_total w id (fuel := S maxAttempts) 0 result st)
    as (out & st' & oks & Hrun & Hlog & Hpolls & Hlen & Hout); [lia|].
  destruct (pollLoop_continues w id (n := 0) (fuel := S maxAttempts)
              0 result st (fun _ => Sample.job "processing" None))
    as (out' & st'' & oks' & Hrun' & Hlog' & Hne);
    [unfold maxAttempts; lia | lia | intros k Hk; lia |].
  rewrite Hrun in Hrun'. inversion Hrun'; subst out' st''.
  rewrite Hlog in Hlog'. apply app_inv_head in Hlog'.
  apply (f_equal (@List.length Event)) in Hlog'.
  cbn [repeat app] in Hlog'. rewrite !length_turns in Hlog'.
  exists out, st', oks. repeat split; try assumption; try lia.
  destruct oks' as [|ok oks']; [contradiction|]. cbn in Hlog'. lia.
Qed.

End TranscriptionRequests.

Lemma pollLoop_last w id fuel : forall attempts result st attempts' r st',
  pollLoop w fuel id attempts result st = (Return (attempts', Some r), st') ->
  attempts' < maxAttempts ->
  polls st < polls st' /\ get_transcript w id (polls st' - 1) = inr r.
Proof.
  induction fuel as [|fuel IH]; intros attempts result st attempts' r st';
    [discriminate|].
  rewrite pollLoop_step. destruct (attempts <? maxAttempts) eqn:Hlt.
  - destruct (get_transcript w id (polls st)) as [e|r0] eqn:Hget;
      [discriminate|].
    destruct (terminal r0).
    + intros H _. inversion H; subst. cbn [after_turn polls].
      replace (S (polls st) - 1) with (polls st) by lia.
      split; [lia|exact Hget].
    + intros H Hlt'. destruct (IH _ _ _ _ _ _ H Hlt') as [Hp Hr].
      cbn [after_turn polls] in Hp. split; [lia|exact Hr].
  - intros H Hlt'. inversion H; subst. apply Nat.ltb_ge in Hlt. lia.
Qed.

(** X1.  When the job reaches the status [error] on the [i]-th status
    request, [1 <= i <= 30], after [i - 1] pending answers, the
    transcription client throws an error carrying the message of the
    service (or 'Audio processing failed' when there is none) after exactly
    [i] status requests: on the 30th request too the failure of the job is
    reported, not a timeout.  The route with the loop inline answers 500
    with 'Audio processing failed: ' followed by the message (or 'Unknown
    error'). *)
Theorem job_error_is_reported
        (w : World) (cfg : Config) (file : File) (st : St)
        (url id : option jsstring) (rs : nat -> TranscriptData)
        (r : TranscriptData) (i : nat) :
  post_upload w (buffer file) = inr url ->
  post_transcript w url = inr id ->
  1 <= i <= maxAttempts ->
  (forall k, k < i - 1 ->
     get_transcript w id (polls st + k) = inr (rs k)
     /\ terminal (rs k) = false) ->
  get_transcript w id (polls st + (i - 1)) = inr r ->
  has_status r "error" = true ->
  exists st',
    processWithAssemblyAI w (buffer file) st
    = (Throw (Error (str_or_lit (error r) (str "Audio processing failed"))),
       st')
    /\ log st' = log st ++ submitted (buffer file) url
                   ++ flat_map (turn id) (repeat true i)
    /\ (configured (ASSEMBLYAI_API_KEY cfg) = true ->
        Basic.handler cfg w (Some file) st
        = (Return {| Res.code := 500; Res.success := false;
                     Res.payload :=
                       ErrorMessage
                         (str "Audio processing failed: "
                            ++ str_or_lit (error r) (str "Unknown error"))
                         None |}, st')).
Proof.
  intros Hup Hsub Hi Hrs Hr Herr.
  destruct (pollLoop_terminal w id (k := i - 1) (fuel := S maxAttempts)
              0 None (add_log st (submitted (buffer file) url)) rs (r := r))
    as (st' & Hrun & Hlog & Hpolls);
    [lia | lia | exact Hrs | exact Hr
     | unfold terminal; rewrite Herr; apply orb_true_r |].
  exists st'. split; [|split].
  - rewrite processWithAssemblyAI_run, Hup, Hsub.
    fold (submitted (buffer file) url). rewrite Hrun.
    unfold after_loop. rewrite Herr. reflexivity.
  - rewrite Hlog. cbn [add_log log]. rewrite <- app_assoc.
    replace (S (i - 1)) with i by lia. reflexivity.
  - intros Hkey. rewrite basic_handler_run, Hup, Hsub by assumption.
    rewrite Hrun, Herr. reflexivity.
Qed.

Lemma job_error_is_reported_witness :
  exists st',
    processWithAssemblyAI
      (Scenario.failsAfter 29 (Some (str "Audio file is corrupt")))
      (buffer Sample.demoFile) st0
    = (Throw (Error (str "Audio file is corrupt")), st')
    /\ log st' = log st0
                   ++ submitted (buffer Sample.demoFile)
                        (Some (str "https://cdn.example/upload/1"))
                   ++ flat_map (turn (Some (str "job-1"))) (repeat true 30)
    /\ Basic.handler Sample.allKeys
         (Scenario.failsAfter 29 (Some (str "Audio file is corrupt")))
         (Some Sample.demoFile) st0
       = (Return {| Res.code := 500; Res.success := false;
                    Res.payload :=
                      ErrorMessage
                        (str "Audio processing failed: Audio file is corrupt")
                        None |}, st').
Proof.
  destruct (@job_error_is_reported
              (Scenario.failsAfter 29 (Some (str "Audio file is corrupt")))
              Sample.allKeys Sample.demoFile st0
              (Some (str "https://cdn.example/upload/1"))
              (Some (str "job-1"))
              (fun _ => Sample.job "processing" None)
              (Scenario.failedJob (Some (str "Audio file is corrupt"))) 30)
    as (st' & Hrun & Hlog & Hbasic).
  - reflexivity.
  - reflexivity.
  - unfold maxAttempts. lia.
  - intros k Hk. cbn in Hk.
    do 29 (destruct k as [|k]; [split; reflexivity|]). lia.
  - reflexivity.
  - reflexivity.
  - exists st'. split; [exact Hrun|]. split; [exact Hlog|].
    apply Hbasic. reflexivity.
Defined.

(** X2.  Nothing is retried.  A network failure of the upload is thrown as
    it is after that single request; a failure of the job submission is
    thrown after the upload and the submission; a failure of the [k+1]-th
    status request, after [k] pending answers, is thrown after exactly
    [k + 1] status requests. *)
Theorem transcription_failures_are_not_retried
        (w : World) (audio : Bytes) (st : St) (e : JsError) :
  (post_upload w audio = inl e ->
   exists st',
     processWithAssemblyAI w audio st = (Throw e, st')
     /\ calls (log st') = calls (log st) ++ [Upload audio])
  /\ (forall url,
        post_upload w audio = inr url ->
        post_transcript w url = inl e ->
        exists st',
          processWithAssemblyAI w audio st = (Throw e, st')
          /\ calls (log st')
             = calls (log st) ++ [Upload audio; Transcribe url])
  /\ (forall url id rs k,
        post_upload w audio = inr url ->
        post_transcript w url = inr id ->
        k < maxAttempts ->
        (forall j, j < k ->
           get_transcript w id (polls st + j) = inr (rs j)
           /\ terminal (rs j) = false) ->
        get_transcript w id (polls st + k) = inl e ->
        exists st',
          processWithAssemblyAI w audio st = (Throw e, st')
          /\ calls (log st')
             = calls (log st)
                 ++ Upload audio :: Transcribe url
                      :: repeat (Status id) (S k)).
Proof.
  split; [|split].
  - intros Hup. rewrite processWithAssemblyAI_run, Hup.
    eexists. split; [reflexivity|]. rewrite calls_add_log. reflexivity.
  - intros url Hup Hsub. rewrite processWithAssemblyAI_run, Hup, Hsub.
    eexists. split; [reflexivity|]. rewrite calls_add_log. reflexivity.
  - intros url id rs k Hup Hsub Hk Hrs He.
    destruct (pollLoop_fails w id (k := k) (fuel := S maxAttempts)
                0 None (add_log st (submitted audio url)) rs (e := e))
      as (st' & Hrun & Hlog & _); [lia | lia | exact Hrs | exact He |].
    rewrite processWithAssemblyAI_run, Hup, Hsub.
    fold (submitted audio url). rewrite Hrun.
    exists st'. split; [reflexivity|].
    rewrite Hlog, calls_app, calls_add_log, calls_turns, <- app_assoc.
    rewrite length_app, repeat_length. cbn [List.length].
    replace (k + 1) with (S k) by lia. reflexivity.
Qed.

Lemma transcription_failures_are_not_retried_witness :
  exists st',
    processWithAssemblyAI (Scenario.statusDownAfter 2)
      (buffer Sample.demoFile) st0 = (Throw Sample.networkError, st')
    /\ calls (log st')
       = calls (log st0)
           ++ Upload (buffer Sample.demoFile)
                :: Transcribe (Some (str "https://cdn.example/upload/1"))
                :: repeat (Status (Some (str "job-1"))) 3.
Proof.
  apply (proj2 (proj2 (transcription_failures_are_not_retried
                         (Scenario.statusDownAfter 2)
                         (buffer Sample.demoFile) st0 Sample.networkError))
           (Some (str "https://cdn.example/upload/1")) (Some (str "job-1"))
           (fun _ => Sample.job "processing" None) 2).
  - reflexivity.
  - reflexivity.
  - unfold maxAttempts. lia.
  - intros j Hj. do 2 (destruct j as [|j]; [split; reflexivity|]). lia.
  - reflexivity.
Defined.

(** X3.  The requests of the transcription client, whatever the services
    answer: one upload of the audio; if it succeeds, one job submission
    carrying the [upload_url] that the upload returned; if that succeeds,
    between 1 and 30 status requests, all for the job id that the
    submission returned.  Nothing else is requested, and the client always
    ends. *)
Theorem transcription_requests (w : World) (audio : Bytes) (st : St) :
  exists out st' trail,
    processWithAssemblyAI w audio st = (out, st')
    /\ out <> OutOfFuel
    /\ calls (log st') = calls (log st) ++ Upload audio :: trail
    /\ match post_upload w audio with
       | inl _ => trail = []
       | inr url =>
           match post_transcript w url with
           | inl _ => trail = [Transcribe url]
           | inr id =>
               exists n, 1 <= n <= maxAttempts
                         /\ polls st' = polls st + n
                         /\ trail = Transcribe url :: repeat (Status id) n
           end
       end.
Proof.
  rewrite processWithAssemblyAI_run.
  destruct (post_upload w audio) as [e|url].
  { eexists _, _, []. split; [reflexivity|]. split; [discriminate|].
    split; [|reflexivity]. rewrite calls_add_log. reflexivity. }
  destruct (post_transcript w url) as [e|id].
  { eexists _, _, [Transcribe url]. split; [reflexivity|].
    split; [discriminate|]. split; [|reflexivity].
    rewrite calls_add_log. reflexivity. }
  destruct (pollLoop_turns w id None
              (add_log st [Call (Upload audio); Settle (Upload audio) true;
                           Call (Transcribe url);
                           Settle (Transcribe url) true]))
    as (out & st' & oks & Hrun & Hlog & Hpolls & Hlen & Hout).
  rewrite Hrun.
  pose proof (after_loop_state (out, st')) as Hst. cbn [snd] in Hst.
  destruct (after_loop (out, st')) as [out' st''] eqn:Hafter.
  cbn [snd] in Hst. subst st''.
  exists out', st', (Transcribe url :: repeat (Status id) (List.length oks)).
  split; [reflexivity|]. split; [|split].
  - intros ->. destruct out as [[attempts [result|]]|e|];
      [| | |congruence]; unfold after_loop in Hafter.
    + destruct (has_status result "error"); [discriminate|].
      destruct (maxAttempts <=? attempts); discriminate.
    + discriminate.
    + discriminate.
  - rewrite Hlog, calls_app, calls_add_log, calls_turns, <- app_assoc.
    reflexivity.
  - exists (List.length oks). repeat split; try lia. exact Hpolls.
Qed.

(** X4.  What the transcription client returns is always the answer to the
    last status request it made, the status of that answer is [completed],
    and it was obtained within the budget of 30 requests. *)
Theorem returned_job_is_the_last_answer
        (w : World) (audio : Bytes) (st st' : St) (r : TranscriptData) :
  processWithAssemblyAI w audio st = (Return r, st') ->
  has_status r "completed" = true
  /\ exists url id,
       post_upload w audio = inr url
       /\ post_transcript w url = inr id
       /\ polls st < polls st' <= polls st + maxAttempts
       /\ get_transcript w id (polls st' - 1) = inr r.
Proof.
  intros Hrun.
  split; [exact (processWithAssemblyAI_completed w audio st Hrun)|].
  rewrite processWithAssemblyAI_run in Hrun.
  destruct (post_upload w audio) as [e|url] eqn:Hup; [discriminate|].
  destruct (post_transcript w url) as [e|id] eqn:Hsub; [discriminate|].
  exists url, id. split; [reflexivity|]. split; [exact Hsub|].
  destruct (pollLoop_turns w id None
              (add_log st [Call (Upload audio); Settle (Upload audio) true;
                           Call (Transcribe url);
                           Settle (Transcribe url) true]))
    as (out & s & oks & Hloop & _ & Hpolls & Hlen & _).
  rewrite Hloop in Hrun.
  assert (Hbreak : forall attempts result s',
             (out, s) = (Return (attempts, result), s') ->
             attempts < maxAttempts ->
             exists r', result = Some r' /\ terminal r' = true).
  { intros attempts result s' Heq Hlt. inversion Heq; subst.
    eapply pollLoop_break; eassumption. }
  destruct (after_loop_completed Hbreak Hrun) as (_ & attempts & Hout & Hlt).
  inversion Hout; subst out s. clear Hout.
  destruct (pollLoop_last _ _ _ _ _ _ Hloop Hlt) as [Hp Hr].
  cbn [add_log polls] in Hp, Hpolls. split; [lia|exact Hr].
Qed.

Lemma returned_job_is_the_last_answer_witness :
  has_status (Sample.job "completed" (Some Sample.sixWords)) "completed" = true
  /\ exists url id,
       post_upload (Sample.completesAfter 2 (Some Sample.sixWords))
         (buffer Sample.demoFile) = inr url
       /\ post_transcript (Sample.completesAfter 2 (Some Sample.sixWords)) url
          = inr id
       /\ polls st0
          < polls (snd (processWithAssemblyAI
                          (Sample.completesAfter 2 (Some Sample.sixWords))
                          (buffer Sample.demoFile) st0))
          <= polls st0 + maxAttempts
       /\ get_transcript (Sample.completesAfter 2 (Some Sample.sixWords)) id
            (polls (snd (processWithAssemblyAI
                           (Sample.completesAfter 2 (Some Sample.sixWords))
                           (buffer Sample.demoFile) st0)) - 1)
          = inr (Sample.job "completed" (Some Sample.sixWords)).
Proof.
  apply (@returned_job_is_the_last_answer
           (Sample.completesAfter 2 (Some Sample.sixWords))
           (buffer Sample.demoFile) st0).
  vm_compute. reflexivity.
Defined.

(* ================================================================== *)
(** * The cost of a request *)

Lemma request_count_app l1 l2 :
  request_count (l1 ++ l2) = request_count l1 + request_count l2.
Proof. unfold request_count. rewrite calls_app. apply length_app. Qed.

Lemma total_sleep_app l1 l2 :
  total_sleep (l1 ++ l2) = (total_sleep l1 + total_sleep l2)%Z.
Proof.
  induction l1 as [|e l1 IH]; [reflexivity|].
  destruct e; cbn [app total_sleep]; rewrite IH; lia.
Qed.

Lemma request_count_turns id oks :
  request_count (flat_map (turn id) oks) = List.length oks.
Proof. unfold request_count. rewrite calls_turns. apply repeat_length. Qed.

Lemma total_sleep_turns id oks :
  total_sleep (flat_map (turn id) oks) = (3000 * Z.of_nat (List.length oks))%Z.
Proof.
  induction oks as [|ok oks IH]; [reflexivity|].
  cbn [flat_map]. rewrite total_sleep_app, IH.
  cbn [turn total_sleep List.length]. lia.
Qed.

Lemma request_count_interleaved sched la issued done :
  request_count (interleaved sched la issued done)
  = request_count la + request_count issued + request_count done.
Proof.
  unfold interleaved. rewrite !request_count_app.
  rewrite <- (firstn_skipn 1 la) at 4.
  rewrite <- (firstn_skipn sched (skipn 1 la)) at 3.
  rewrite !request_count_app. lia.
Qed.

Lemma total_sleep_interleaved sched la issued done :
  total_sleep (interleaved sched la issued done)
  = (total_sleep la + total_sleep issued + total_sleep done)%Z.
Proof.
  unfold interleaved. rewrite !total_sleep_app.
  rewrite <- (firstn_skipn 1 la) at 4.
  rewrite <- (firstn_skipn sched (skipn 1 la)) at 3.
  rewrite !total_sleep_app. lia.
Qed.

Lemma request_count_abandoned sched la issued done :
  request_count (abandoned sched la issued done)
  <= request_count la + request_count issued + request_count done.
Proof.
  unfold abandoned. destruct (sched <? List.length (skipn 1 la)).
  - fold (interleaved sched la issued done).
    rewrite request_count_interleaved. lia.
  - rewrite !request_count_app.
    rewrite <- (firstn_skipn 1 la) at 3. rewrite request_count_app. lia.
Qed.

Lemma total_sleep_abandoned sched la issued done :
  total_sleep done = 0%Z ->
  total_sleep (abandoned sched la issued done)
  = (total_sleep la + total_sleep issued)%Z.
Proof.
  intros Hdone. unfold abandoned. destruct (sched <? List.length (skipn 1 la)).
  - fold (interleaved sched la issued done).
    rewrite total_sleep_interleaved. lia.
  - rewrite !total_sleep_app.
    rewrite <- (firstn_skipn 1 la) at 3. rewrite total_sleep_app. lia.
Qed.

(** One run of the transcription client: at most 32 requests (the upload,
    the submission and 30 status requests) and 90 s of sleep. *)
Lemma transcription_cost w audio st :
  exists out st' L,
    processWithAssemblyAI w audio st = (out, st')
    /\ log st' = log st ++ L
    /\ request_count L <= 32
    /\ (0 <= total_sleep L <= 90000)%Z
    /\ out <> OutOfFuel.
Proof.
  rewrite processWithAssemblyAI_run.
  destruct (post_upload w audio) as [e|url].
  { eexists _, _, _. split; [reflexivity|]. split; [reflexivity|].
    cbn. repeat split; try lia; discriminate. }
  destruct (post_transcript w url) as [e|id].
  { eexists _, _, _. split; [reflexivity|]. split; [reflexivity|].
    cbn. repeat split; try lia; discriminate. }
  fold (submitted audio url).
  destruct (pollLoop_turns w id None (add_log st (submitted audio url)))
    as (out & st' & oks & Hrun & Hlog & _ & Hlen & Hout).
  rewrite Hrun.
  pose proof (after_loop_state (out, st')) as Hst. cbn [snd] in Hst.
  destruct (after_loop (out, st')) as [out' st''] eqn:Hafter.
  cbn [snd] in Hst. subst st''.
  exists out', st', (submitted audio url ++ flat_map (turn id) oks).
  split; [reflexivity|]. split.
  { rewrite Hlog. cbn [add_log log]. rewrite <- app_assoc. reflexivity. }
  rewrite request_count_app, total_sleep_app, request_count_turns,
    total_sleep_turns.
  change (request_count (submitted audio url)) with 2.
  change (total_sleep (submitted audio url)) with 0%Z.
  unfold maxAttempts in Hlen.
  repeat split; try lia.
  intros ->. destruct out as [[attempts [result|]]|e|];
    [| | |congruence]; unfold after_loop in Hafter.
  - destruct (has_status result "error"); [discriminate|].
    destruct (maxAttempts <=? attempts); discriminate.
  - discriminate.
  - discriminate.
Qed.

Lemma bounded_cost_quiet n out :
  bounded_cost n (out, st0).
Proof. unfold bounded_cost. cbn. repeat split; lia. Qed.

Lemma enrichment_step_cost (step : JSON * list Event) :
  snd step = [] \/ (exists r (answer : JsError + JSON),
                      snd step = settled r answer) ->
  request_count (snd step) <= 1 /\ total_sleep (snd step) = 0%Z.
Proof.
  intros [->|(r & answer & ->)]; cbn; split; lia.
Qed.

Lemma fallback_emotions_cost cfg w audio :
  request_count (snd (fallback_emotions cfg w audio)) <= 1
  /\ total_sleep (snd (fallback_emotions cfg w audio)) = 0%Z.
Proof.
  apply enrichment_step_cost. unfold fallback_emotions.
  destruct (configured (HUGGING_FACE_TOKEN cfg));
    [right; eexists _, _; reflexivity | left; reflexivity].
Qed.

Lemma fallback_report_cost cfg w a h :
  request_count (snd (fallback_report cfg w a h)) <= 1
  /\ total_sleep (snd (fallback_report cfg w a h)) = 0%Z.
Proof.
  apply enrichment_step_cost. unfold fallback_report.
  destruct (configured (PERPLEXITY_API_KEY cfg)); [|left; reflexivity].
  destruct (calculateWPM _ _);
    [left; reflexivity | right; eexists _, _; reflexivity].
Qed.

Lemma parallel_report_cost cfg w a h :
  request_count (snd (parallel_report cfg w a h)) <= 1
  /\ total_sleep (snd (parallel_report cfg w a h)) = 0%Z.
Proof.
  apply enrichment_step_cost. unfold parallel_report.
  destruct (configured (PERPLEXITY_API_KEY cfg)); [|left; reflexivity].
  destruct (calculateWPM _ _);
    [left; reflexivity | right; eexists _, _; reflexivity].
Qed.

Lemma parallel_emotions_cost cfg w audio :
  request_count (fst (snd (parallel_emotions cfg w audio)))
  + request_count (snd (snd (parallel_emotions cfg w audio))) <= 1
  /\ total_sleep (fst (snd (parallel_emotions cfg w audio))) = 0%Z
  /\ total_sleep (snd (snd (parallel_emotions cfg w audio))) = 0%Z.
Proof.
  unfold parallel_emotions.
  destruct (configured (HUGGING_FACE_TOKEN cfg)); cbn; repeat split; lia.
Qed.

Lemma watson_emotions_cost cfg w t :
  request_count (snd (watson_emotions cfg w t)) <= 1
  /\ total_sleep (snd (watson_emotions cfg w t)) = 0%Z.
Proof.
  apply enrichment_step_cost. unfold watson_emotions.
  destruct (configured (HUGGING_FACE_TOKEN cfg));
    [right; eexists _, _; reflexivity | left; reflexivity].
Qed.

Lemma watson_tones_cost cfg w t :
  request_count (snd (watson_tones cfg w t)) <= 1
  /\ total_sleep (snd (watson_tones cfg w t)) = 0%Z.
Proof.
  apply enrichment_step_cost. unfold watson_tones.
  destruct (configured (IBM_WATSON_API_KEY cfg) && configured (IBM_WATSON_URL cfg));
    [right; eexists _, _; reflexivity | left; reflexivity].
Qed.

(** X5.  The cost of one request to the analysis route, whatever the
    services answer and, under [Promise.all], however the responses
    interleave: at most 34 HTTP requests (one upload, one submission, 30
    status requests and one request to each of two enrichment providers)
    and at most 90 000 ms spent sleeping; at most 32 requests for the
    route that only transcribes. *)
Theorem request_cost_is_bounded
        (cfg : Config) (w : World) (sched : nat) (req_file : option File) :
  bounded_cost 34 (Fallback.handler cfg w req_file st0)
  /\ bounded_cost 34 (Parallel.handler cfg w sched req_file st0)
  /\ bounded_cost 34 (Watson.handler cfg w req_file st0)
  /\ bounded_cost 32 (Basic.handler cfg w req_file st0).
Proof.
  destruct req_file as [file|];
    [|repeat split; cbn; lia].
  destruct (configured (ASSEMBLYAI_API_KEY cfg)) eqn:Hkey.
  2:{ split; [|split; [|split]].
      - rewrite fallback_handler_without_key by assumption.
        apply bounded_cost_quiet.
      - unfold Parallel.handler. rewrite Hkey. apply bounded_cost_quiet.
      - unfold Watson.handler. rewrite Hkey. apply bounded_cost_quiet.
      - unfold Basic.handler. rewrite Hkey. apply bounded_cost_quiet. }
  destruct (transcription_cost w (buffer file) st0)
    as (out & s1 & L & Hrun & Hlog & Hreq & Hsleep & Hout).
  cbn [st0 log app] in Hlog.
  split; [|split; [|split]].
  - rewrite fallback_handler_run by assumption. rewrite Hrun.
    assert (Hgen : forall a,
      bounded_cost 34
        (Return (fallback_answer a
                   (fst (fallback_emotions cfg w (buffer file)))
                   (fst (fallback_report cfg w a
                           (fst (fallback_emotions cfg w (buffer file)))))),
         add_log s1
           (snd (fallback_emotions cfg w (buffer file))
              ++ snd (fallback_report cfg w a
                        (fst (fallback_emotions cfg w (buffer file))))))).
    { intros a. unfold bounded_cost. cbn [snd add_log log].
      destruct (fallback_emotions_cost cfg w (buffer file)) as [He1 He2].
      destruct (fallback_report_cost cfg w a
                  (fst (fallback_emotions cfg w (buffer file))))
        as [Hp1 Hp2].
      rewrite !request_count_app, !total_sleep_app, Hlog, He2, Hp2. lia. }
    destruct out as [a|e|]; [| |congruence]; apply Hgen.
  - rewrite parallel_handler_run, parallel_classify_run by assumption.
    change {| log := []; polls := polls st0 |} with st0. rewrite Hrun.
    destruct (parallel_emotions_cost cfg w (buffer file)) as (He1 & He2 & He3).
    destruct out as [a|e|]; [| |congruence].
    + cbv zeta. unfold bounded_cost. cbn [fst snd add_log log st0 app].
      destruct (parallel_report_cost cfg w a
                  (fst (parallel_emotions cfg w (buffer file))))
        as [Hp1 Hp2].
      rewrite request_count_app, total_sleep_app,
        request_count_interleaved, total_sleep_interleaved, Hlog, He2, He3, Hp2.
      lia.
    + unfold bounded_cost. cbn [fst snd log st0 app].
      pose proof (request_count_abandoned sched (log s1)
                    (fst (snd (parallel_emotions cfg w (buffer file))))
                    (snd (snd (parallel_emotions cfg w (buffer file)))))
        as Hab.
      rewrite total_sleep_abandoned by exact He3.
      rewrite Hlog in *. rewrite He2. lia.
  - rewrite watson_handler_run by assumption. rewrite Hrun.
    destruct out as [a|e|]; [| |congruence].
    + cbv zeta. unfold bounded_cost. cbn [snd add_log log].
      destruct (watson_emotions_cost cfg w (text a)) as [He1 He2].
      destruct (watson_tones_cost cfg w (text a)) as [Hp1 Hp2].
      rewrite !request_count_app, !total_sleep_app, Hlog, He2, Hp2. lia.
    + unfold bounded_cost. cbn [snd]. rewrite Hlog. lia.
  - rewrite basic_handler_run by assumption.
    rewrite processWithAssemblyAI_run in Hrun.
    destruct (post_upload w (buffer file)) as [e|url].
    { unfold bounded_cost. cbn. repeat split; lia. }
    destruct (post_transcript w url) as [e|id].
    { unfold bounded_cost. cbn. repeat split; lia. }
    fold (submitted (buffer file) url) in Hrun.
    destruct (pollLoop w (S maxAttempts) id 0 None
                (add_log st0 (submitted (buffer file) url)))
      as [o s] eqn:Hloop.
    pose proof (after_loop_state (o, s)) as Hst. rewrite Hrun in Hst.
    cbn [snd] in Hst. subst s1.
    assert (Hb : forall x, bounded_cost 32 (x, s)).
    { intros x. unfold bounded_cost. cbn [snd]. rewrite Hlog. lia. }
    destruct o as [[attempts [result|]]|e|]; apply Hb.
Qed.

(* ================================================================== *)
(** * Edge cases of the routes *)


Lemma transcription_log_fresh w audio out s1 :
  processWithAssemblyAI w audio st0 = (out, s1) ->
  exists T, log s1 = Call (Upload audio) :: T
            /\ forallb transcription_event T = true.
Proof.
  intros Hrun.
  destruct (processWithAssemblyAI_fresh w audio)
    as (out' & s1' & T & Hrun' & Hlog & HT & _).
  rewrite Hrun in Hrun'. inversion Hrun'; subst. exists T. auto.
Qed.

Lemma transcription_no_enrichment w audio out s1 :
  processWithAssemblyAI w audio st0 = (out, s1) ->
  enrichment_calls (log s1) = [].
Proof.
  intros Hrun. destruct (transcription_log_fresh _ _ Hrun) as (T & -> & HT).
  apply (enrichment_calls_transcription (Call (Upload audio) :: T)).
  cbn. exact HT.
Qed.

Lemma parallel_emotion_calls cfg w audio :
  enrichment_calls (fst (snd (parallel_emotions cfg w audio)))
  = (if configured (HUGGING_FACE_TOKEN cfg) then [EmotionAudio audio] else [])
  /\ enrichment_calls (snd (snd (parallel_emotions cfg w audio))) = [].
Proof.
  unfold parallel_emotions.
  destruct (configured (HUGGING_FACE_TOKEN cfg)); split; reflexivity.
Qed.



(* ================================================================== *)
(** * HTTP status of the answers *)






(** X8.  The fallback variant never reports a missing or zero confidence
    or duration: a request with a file always gets audio metrics whose
    confidence and duration are non-zero numbers, 0.85 and 30 standing in
    for whatever the job left out or reported as 0, and the sentiment key
    is always present. *)
Theorem fallback_metrics_are_filled
        (cfg : Config) (w : World) (file : File) :
  exists r s m,
    Fallback.handler cfg w (Some file) st0 = (Return r, s)
    /\ Res.audioMetrics_of r = Some m
    /\ falsyNum (Res.confidence m) = false
    /\ falsyNum (Res.audioDuration m) = false
    /\ Res.sentiment m <> None
    /\ (forall t s1,
          processWithAssemblyAI w (buffer file) st0 = (Return t, s1) ->
          configured (ASSEMBLYAI_API_KEY cfg) = true ->
          str_or (text t) (transcript t) <> None ->
          Res.confidence m = num_or (confidence t) (85 # 100)
          /\ Res.audioDuration m = num_or (audio_duration t) (30 # 1)).
Proof.
  assert (Hnum : forall n q, Qeq_bool q 0 = false -> falsyNum (num_or n q) = false).
  { intros n q Hq. unfold num_or. destruct (falsyNum n) eqn:Hn; [exact Hq|exact Hn]. }
  destruct (configured (ASSEMBLYAI_API_KEY cfg)) eqn:Hkey.
  2:{ rewrite fallback_handler_without_key by assumption. eexists _, _, _.
      split; [reflexivity|]. split; [reflexivity|].
      split; [reflexivity|]. split; [reflexivity|]. split; [discriminate|].
      intros t s1 _ Hno. discriminate Hno. }
  rewrite fallback_handler_run by assumption.
  pose proof (processWithAssemblyAI_ends w (buffer file) st0) as Hends.
  destruct (processWithAssemblyAI w (buffer file) st0) as [[t|e|] s1];
    [| |exfalso; apply Hends; reflexivity]; cbv zeta.
  - unfold fallback_answer.
    destruct (calculateWPM (str_or (text t) (transcript t))
                (num_or (audio_duration t) (30 # 1))) as [err|wpm] eqn:Hwpm.
    + eexists _, _, _. split; [reflexivity|]. split; [reflexivity|].
      split; [reflexivity|]. split; [reflexivity|]. split; [discriminate|].
      intros t' s1' Heq _ Hsome. inversion Heq; subst t' s1'.
      exfalso. destruct (str_or (text t) (transcript t)) as [x|] eqn:Hs;
        [|apply Hsome; reflexivity].
      unfold calculateWPM in Hwpm.
      pose proof (Hnum (audio_duration t) (30 # 1)%Q eq_refl) as Hd.
      destruct (num_or (audio_duration t) (30 # 1)) as [d|]; [|discriminate].
      cbn [falsyNum] in Hd. rewrite Hd in Hwpm. discriminate.
    + eexists _, _, _. split; [reflexivity|]. split; [reflexivity|].
      cbn [Res.confidence Res.audioDuration Res.sentiment].
      split; [apply Hnum; reflexivity|]. split; [apply Hnum; reflexivity|].
      split; [discriminate|].
      intros t' s1' Heq _ _. inversion Heq; subst. split; reflexivity.
  - eexists _, _, _. split; [reflexivity|]. split; [reflexivity|].
    split; [reflexivity|]. split; [reflexivity|]. split; [discriminate|].
    intros t s1' Heq. discriminate Heq.
Qed.

Lemma fallback_metrics_are_filled_witness :
  exists r s m,
    Fallback.handler Sample.allKeys
      (Scenario.answers
         (Scenario.completed (Some Sample.sixWords) (Some 0%Q) None))
      (Some Sample.demoFile) st0 = (Return r, s)
    /\ Res.audioMetrics_of r = Some m
    /\ Res.confidence m = Some (85 # 100)%Q
    /\ Res.audioDuration m = Some (30 # 1)%Q.
Proof.
  destruct (fallback_metrics_are_filled Sample.allKeys
              (Scenario.answers
                 (Scenario.completed (Some Sample.sixWords) (Some 0%Q) None))
              Sample.demoFile)
    as (r & s & m & Hrun & Hm & _ & _ & _ & Hpass).
  exists r, s, m. split; [exact Hrun|]. split; [exact Hm|].
  apply (Hpass (Scenario.completed (Some Sample.sixWords) (Some 0%Q) None)
           (snd (processWithAssemblyAI
                   (Scenario.answers
                      (Scenario.completed (Some Sample.sixWords) (Some 0%Q)
                         None))
                   (buffer Sample.demoFile) st0))).
  - vm_compute. reflexivity.
  - reflexivity.
  - discriminate.
Defined.

(* ================================================================== *)
(** * The health route and the analysis route *)

Lemma never_requests_events P (run : Outcome Response * St) :
  forallb (not_calling P) (log (snd run)) = true -> never_requests P run.
Proof.
  unfold never_requests. generalize (log (snd run)) as l.
  induction l as [|e l IH]; [reflexivity|].
  cbn [forallb]. intros H. apply andb_true_iff in H. destruct H as [He Hl].
  destruct e as [r|r ok|ms]; cbn [calls flat_map app]; auto.
  cbn [forallb]. cbn [not_calling] in He. rewrite He. apply IH. exact Hl.
Qed.

Lemma transcription_not_calling P T :
  (forall r, transcription_request r = true -> P r = false) ->
  forallb transcription_event T = true ->
  forallb (not_calling P) T = true.
Proof.
  intros HP HT. rewrite forallb_forall in *. intros e He.
  specialize (HT e He). destruct e as [r|r ok|ms]; cbn in *; auto.
  rewrite (HP r HT). reflexivity.
Qed.

Lemma settled_not_calling {A} P r (answer : JsError + A) :
  P r = false -> forallb (not_calling P) (settled r answer) = true.
Proof. intros H. cbn. rewrite H. reflexivity. Qed.

Section NeverCalled.

Variable P : Request -> bool.
Hypothesis P_transcription :
  forall r, transcription_request r = true -> P r = false.
Variable cfg : Config.
Variable w : World.

Lemma transcription_log_not_calling audio out s1 :
  processWithAssemblyAI w audio st0 = (out, s1) ->
  forallb (not_calling P) (log s1) = true.
Proof.
  intros Hrun. destruct (transcription_log_fresh _ _ Hrun) as (T & -> & HT).
  apply transcription_not_calling; [exact P_transcription|]. cbn. exact HT.
Qed.

Lemma fallback_never req_file :
  (forall audio,
     forallb (not_calling P) (snd (fallback_emotions cfg w audio)) = true) ->
  (forall a h,
     forallb (not_calling P) (snd (fallback_report cfg w a h)) = true) ->
  never_requests P (Fallback.handler cfg w req_file st0).
Proof.
  intros HE HG. apply never_requests_events.
  destruct req_file as [file|]; [|reflexivity].
  destruct (configured (ASSEMBLYAI_API_KEY cfg)) eqn:Hkey.
  2:{ rewrite fallback_handler_without_key by assumption. reflexivity. }
  rewrite fallback_handler_run by assumption.
  destruct (processWithAssemblyAI w (buffer file) st0) as [out s1] eqn:Hrun.
  pose proof (transcription_log_not_calling _ Hrun) as HT.
  destruct out as [a|e|]; cbn [snd add_log log]; [| |exact HT];
    rewrite !forallb_app, HT, HE, HG; reflexivity.
Qed.

Lemma parallel_never sched req_file :
  (forall audio,
     forallb (not_calling P) (fst (snd (parallel_emotions cfg w audio))) = true
     /\ forallb (not_calling P) (snd (snd (parallel_emotions cfg w audio)))
        = true) ->
  (forall a h,
     forallb (not_calling P) (snd (parallel_report cfg w a h)) = true) ->
  never_requests P (Parallel.handler cfg w sched req_file st0).
Proof.
  intros HE HG. apply never_requests_events.
  destruct req_file as [file|]; [|reflexivity].
  destruct (configured (ASSEMBLYAI_API_KEY cfg)) eqn:Hkey.
  2:{ unfold Parallel.handler. rewrite Hkey. reflexivity. }
  rewrite parallel_handler_run, parallel_classify_run by assumption.
  change {| log := []; polls := polls st0 |} with st0.
  destruct (processWithAssemblyAI w (buffer file) st0) as [out s1] eqn:Hrun.
  pose proof (transcription_log_not_calling _ Hrun) as HT.
  destruct (HE (buffer file)) as [HI HD].
  destruct out as [a|e|]; cbn [snd add_log log st0 app].
  - rewrite forallb_app, HG, forallb_interleaved by assumption. reflexivity.
  - apply forallb_abandoned; assumption.
  - rewrite !forallb_app, HI, (forallb_firstn _ 1 _ HT),
      (forallb_skipn _ 1 _ HT). reflexivity.
Qed.

Lemma watson_never req_file :
  (forall t,
     forallb (not_calling P) (snd (watson_emotions cfg w t)) = true) ->
  (forall t,
     forallb (not_calling P) (snd (watson_tones cfg w t)) = true) ->
  never_requests P (Watson.handler cfg w req_file st0).
Proof.
  intros HE HG. apply never_requests_events.
  destruct req_file as [file|]; [|reflexivity].
  destruct (configured (ASSEMBLYAI_API_KEY cfg)) eqn:Hkey.
  2:{ unfold Watson.handler. rewrite Hkey. reflexivity. }
  rewrite watson_handler_run by assumption.
  destruct (processWithAssemblyAI w (buffer file) st0) as [out s1] eqn:Hrun.
  pose proof (transcription_log_not_calling _ Hrun) as HT.
  destruct out as [a|e|]; cbn [snd add_log log]; [| exact HT | exact HT].
  rewrite !forallb_app, HT, HE, HG. reflexivity.
Qed.

End NeverCalled.

Lemma enrichment_step_not_calling P (events : list Event) :
  events = []
  \/ (exists r (answer : JsError + JSON),
        events = settled r answer /\ P r = false) ->
  forallb (not_calling P) events = true.
Proof.
  intros [->|(r & answer & -> & Hr)]; [reflexivity|].
  apply settled_not_calling. exact Hr.
Qed.

(** X9.  A provider that the health route reports as unavailable is never
    called by the analysis route of the same variant, whatever the request
    and the answers of the other services: no emotion request without the
    Hugging Face token, no Perplexity request without its key, no tone
    request without the IBM Watson key. *)
Theorem unavailable_providers_are_never_called
        (cfg : Config) (w : World) (now : jsstring) (sched : nat)
        (req_file : option File) :
  (Health.service (Fallback_health cfg now) "huggingFace" = Some false ->
   never_requests emotion_request (Fallback.handler cfg w req_file st0))
  /\ (Health.service (Fallback_health cfg now) "perplexityAI" = Some false ->
      never_requests is_perplexity (Fallback.handler cfg w req_file st0))
  /\ (Health.service (Parallel_health cfg now) "huggingFace" = Some false ->
      never_requests emotion_request
        (Parallel.handler cfg w sched req_file st0))
  /\ (Health.service (Parallel_health cfg now) "perplexityAI" = Some false ->
      never_requests is_perplexity
        (Parallel.handler cfg w sched req_file st0))
  /\ (Health.service (Watson_health cfg now) "huggingFace" = Some false ->
      never_requests emotion_request (Watson.handler cfg w req_file st0))
  /\ (Health.service (Watson_health cfg now) "ibmWatson" = Some false ->
      never_requests is_tone (Watson.handler cfg w req_file st0)).
Proof.
  repeat split; cbn; intros Hflag; inversion Hflag as [Hoff]; clear Hflag.
  - apply fallback_never; [intros [] H; try discriminate; reflexivity | |];
      intros; apply enrichment_step_not_calling.
    + unfold fallback_emotions. rewrite Hoff. left. reflexivity.
    + unfold fallback_report.
      destruct (configured (PERPLEXITY_API_KEY cfg)); [|left; reflexivity].
      destruct (calculateWPM _ _); [left; reflexivity|].
      right. eexists _, _. split; reflexivity.
  - apply fallback_never; [intros [] H; try discriminate; reflexivity | |];
      intros; apply enrichment_step_not_calling.
    + unfold fallback_emotions.
      destruct (configured (HUGGING_FACE_TOKEN cfg)); [|left; reflexivity].
      right. eexists _, _. split; reflexivity.
    + unfold fallback_report. rewrite Hoff. left. reflexivity.
  - apply parallel_never; [intros [] H; try discriminate; reflexivity | |].
    + intros audio. unfold parallel_emotions. rewrite Hoff.
      split; reflexivity.
    + intros; apply enrichment_step_not_calling. unfold parallel_report.
      destruct (configured (PERPLEXITY_API_KEY cfg)); [|left; reflexivity].
      destruct (calculateWPM _ _); [left; reflexivity|].
      right. eexists _, _. split; reflexivity.
  - apply parallel_never; [intros [] H; try discriminate; reflexivity | |].
    + intros audio. unfold parallel_emotions.
      destruct (configured (HUGGING_FACE_TOKEN cfg)); split; reflexivity.
    + intros; apply enrichment_step_not_calling. unfold parallel_report.
      rewrite Hoff. left. reflexivity.
  - apply watson_never; [intros [] H; try discriminate; reflexivity | |];
      intros; apply enrichment_step_not_calling.
    + unfold watson_emotions. rewrite Hoff. left. reflexivity.
    + unfold watson_tones.
      destruct (configured (IBM_WATSON_API_KEY cfg)
                && configured (IBM_WATSON_URL cfg)); [|left; reflexivity].
      right. eexists _, _. split; reflexivity.
  - apply watson_never; [intros [] H; try discriminate; reflexivity | |];
      intros; apply enrichment_step_not_calling.
    + unfold watson_emotions.
      destruct (configured (HUGGING_FACE_TOKEN cfg)); [|left; reflexivity].
      right. eexists _, _. split; reflexivity.
    + unfold watson_tones. rewrite Hoff. left. reflexivity.
Qed.

Lemma unavailable_providers_are_never_called_witness :
  never_requests emotion_request
    (Parallel.handler Sample.transcriptionOnly
       (Sample.completesAfter 1 (Some Sample.sixWords)) 0
       (Some Sample.demoFile) st0)
  /\ never_requests is_tone
       (Watson.handler Sample.transcriptionOnly
          (Sample.completesAfter 1 (Some Sample.sixWords))
          (Some Sample.demoFile) st0).
Proof.
  pose proof (unavailable_providers_are_never_called
                Sample.transcriptionOnly
                (Sample.completesAfter 1 (Some Sample.sixWords))
                (str "2024-01-01T00:00:00.000Z") 0 (Some Sample.demoFile))
    as (_ & _ & Hpar & _ & _ & Hwat).
  split; [apply Hpar | apply Hwat]; reflexivity.
Defined.

(** X10.  In the sequential variant the health route looks at the IBM
    Watson key alone, the analysis route at the key and the URL: with the
    key set and the URL missing, health reports [ibmWatson: true] while the
    analysis route never sends a tone request, whatever the request and the
    services. *)
Theorem watson_flag_ignores_the_url
        (cfg : Config) (w : World) (now : jsstring) (req_file : option File) :
  configured (IBM_WATSON_API_KEY cfg) = true ->
  configured (IBM_WATSON_URL cfg) = false ->
  Health.service (Watson_health cfg now) "ibmWatson" = Some true
  /\ never_requests is_tone (Watson.handler cfg w req_file st0).
Proof.
  intros Hk Hurl. split; [cbn; rewrite Hk; reflexivity|].
  apply watson_never; [intros [] H; try discriminate; reflexivity | |];
    intros; apply enrichment_step_not_calling.
  - unfold watson_emotions.
    destruct (configured (HUGGING_FACE_TOKEN cfg)); [|left; reflexivity].
    right. eexists _, _. split; reflexivity.
  - unfold watson_tones. rewrite Hurl, andb_false_r. left. reflexivity.
Qed.

Lemma watson_flag_ignores_the_url_witness :
  Health.service
    (Watson_health Scenario.noWatsonUrl (str "2024-01-01T00:00:00.000Z"))
    "ibmWatson" = Some true
  /\ never_requests is_tone
       (Watson.handler Scenario.noWatsonUrl
          (Sample.completesAfter 1 (Some Sample.sixWords))
          (Some Sample.demoFile) st0).
Proof.
  apply (@watson_flag_ignores_the_url Scenario.noWatsonUrl
           (Sample.completesAfter 1 (Some Sample.sixWords))
           (str "2024-01-01T00:00:00.000Z") (Some Sample.demoFile));
    reflexivity.
Defined.

(** X11.  The [assemblyAI] flag of the health route tells what a request
    with a file does.  With the flag true, each variant answers after
    having started by uploading the audio to the transcription service.
    With the flag false no service is contacted at all: the variant with
    fallback answers with the simulated response, the [Promise.all] and
    sequential variants answer 500 'AssemblyAI API key not configured', the
    transcription-only variant (whose health route has no flags) answers
    500 'Server configuration error'. *)
Theorem health_flag_tells_whether_audio_is_uploaded
        (cfg : Config) (w : World) (now : jsstring) (sched : nat)
        (file : File) :
  let key := configured (ASSEMBLYAI_API_KEY cfg) in
  Health.service (Fallback_health cfg now) "assemblyAI" = Some key
  /\ Health.service (Parallel_health cfg now) "assemblyAI" = Some key
  /\ Health.service (Watson_health cfg now) "assemblyAI" = Some key
  /\ Health.service (Basic_health now) "assemblyAI" = None
  /\ if key then
       starts_with_upload (buffer file) st0
         (Fallback.handler cfg w (Some file) st0)
       /\ starts_with_upload (buffer file) st0
            (Parallel.handler cfg w sched (Some file) st0)
       /\ starts_with_upload (buffer file) st0
            (Watson.handler cfg w (Some file) st0)
       /\ starts_with_upload (buffer file) st0
            (Basic.handler cfg w (Some file) st0)
     else
       Fallback.handler cfg w (Some file) st0 = (Return simulatedResponse, st0)
       /\ Parallel.handler cfg w sched (Some file) st0
          = (Return {| Res.code := 500; Res.success := false;
                       Res.payload :=
                         ErrorMessage
                           (str "AssemblyAI API key not configured") None |},
             st0)
       /\ Watson.handler cfg w (Some file) st0
          = (Return {| Res.code := 500; Res.success := false;
                       Res.payload :=
                         ErrorMessage
                           (str "AssemblyAI API key not configured") None |},
             st0)
       /\ Basic.handler cfg w (Some file) st0
          = (Return {| Res.code := 500; Res.success := false;
                       Res.payload :=
                         ErrorMessage (str "Server configuration error")
                           None |},
             st0).
Proof.
  intros key. subst key.
  split; [reflexivity|]. split; [reflexivity|]. split; [reflexivity|].
  split; [reflexivity|].
  destruct (configured (ASSEMBLYAI_API_KEY cfg)) eqn:Hkey.
  2:{ split; [apply fallback_handler_without_key; exact Hkey|].
      unfold Parallel.handler, Watson.handler, Basic.handler.
      rewrite Hkey. repeat split. }
  destruct (processWithAssemblyAI w (buffer file) st0) as [out s1] eqn:Hrun.
  destruct (transcription_log_fresh _ _ Hrun) as (T & Hlog & HT).
  pose proof (processWithAssemblyAI_ends w (buffer file) st0) as Hends.
  rewrite Hrun in Hends. cbn [fst] in Hends.
  unfold starts_with_upload. cbn [st0 log app].
  split; [|split; [|split]].
  - rewrite fallback_handler_run, Hrun by assumption.
    destruct out as [a|e|]; [| |congruence];
      eexists _, _; (split; [reflexivity|]);
      cbn [snd add_log log]; rewrite Hlog; reflexivity.
  - rewrite parallel_handler_run, parallel_classify_run by assumption.
    change {| log := []; polls := polls st0 |} with st0. rewrite Hrun.
    destruct out as [a|e|]; [| |congruence];
      eexists _, _; (split; [reflexivity|]);
      cbn [snd add_log log st0 app]; rewrite Hlog;
      unfold interleaved, abandoned; cbn [firstn skipn app]; reflexivity.
  - rewrite watson_handler_run, Hrun by assumption.
    destruct out as [a|e|]; [| |congruence];
      eexists _, _; (split; [reflexivity|]);
      cbn [snd add_log log]; rewrite Hlog; reflexivity.
  - rewrite basic_handler_run by assumption.
    destruct (post_upload w (buffer file)) as [e|url];
      [eexists _, _; split; reflexivity|].
    destruct (post_transcript w url) as [e|id];
      [eexists _, _; split; reflexivity|].
    destruct (pollLoop_total w id (fuel := S maxAttempts) 0 None
                (add_log st0 (submitted (buffer file) url)))
      as (o & st' & oks & Hloop & Hlog' & _ & _ & Hout); [lia|].
    rewrite Hloop.
    destruct o as [[attempts [result|]]|e|]; [| | |congruence];
      eexists _, _; (split; [reflexivity|]);
      cbn [snd]; rewrite Hlog'; reflexivity.
Qed.

(* ================================================================== *)
(** * What Perplexity is told *)

(** X12.  Whenever a route has sent a prompt to Perplexity, it answers
    [success: true], and the response reports exactly what the prompt
    said: the same transcript, the same words per minute, confidence and
    duration, and the same emotion analysis.  This holds in the variant
    with fallback (where the prompt is built with the defaults 0.85 and 30)
    and in the [Promise.all] variant, whether Perplexity then answers or
    fails. *)
Theorem response_reports_what_the_prompt_said
        (cfg : Config) (w : World) (sched : nat) (req_file : option File)
        (prompt : Prompt) :
  (In (Call (Perplexity prompt))
      (log (snd (Fallback.handler cfg w req_file st0))) ->
   exists r, fst (Fallback.handler cfg w req_file st0) = Return r
             /\ Res.success r = true /\ prompt_matches prompt r)
  /\ (In (Call (Perplexity prompt))
         (log (snd (Parallel.handler cfg w sched req_file st0))) ->
      exists r, fst (Parallel.handler cfg w sched req_file st0) = Return r
                /\ Res.success r = true /\ prompt_matches prompt r).
Proof.
  split.
  - destruct req_file as [file|]; [|intros []].
    destruct (configured (ASSEMBLYAI_API_KEY cfg)) eqn:Hkey.
    2:{ rewrite fallback_handler_without_key by assumption. intros []. }
    rewrite fallback_handler_run by assumption.
    destruct (processWithAssemblyAI w (buffer file) st0) as [out s1] eqn:Hrun.
    destruct (transcription_log_fresh _ _ Hrun) as (T & Hlog & HT).
    assert (HA : forallb transcription_event (log s1) = true)
      by (rewrite Hlog; cbn; exact HT).
    assert (Hgen : forall a,
      In (Call (Perplexity prompt))
         (log s1 ++ snd (fallback_emotions cfg w (buffer file))
            ++ snd (fallback_report cfg w a
                      (fst (fallback_emotions cfg w (buffer file))))) ->
      Res.success
        (fallback_answer a (fst (fallback_emotions cfg w (buffer file)))
           (fst (fallback_report cfg w a
                   (fst (fallback_emotions cfg w (buffer file)))))) = true
      /\ prompt_matches prompt
           (fallback_answer a (fst (fallback_emotions cfg w (buffer file)))
              (fst (fallback_report cfg w a
                      (fst (fallback_emotions cfg w (buffer file))))))).
    { intros a Hin.
      destruct (fallback_emotions_events cfg w (buffer file)) as (_ & HE2 & _).
      destruct (fallback_report_events cfg w a
                  (fst (fallback_emotions cfg w (buffer file))))
        as (_ & HG2).
      rewrite app_assoc in Hin. apply perplexity_prompt_in in Hin.
      2:{ rewrite forallb_app, HE2, transcription_not_perplexity by exact HA.
          reflexivity. }
      destruct HG2 as [HG2|(wpm & Hwpm & HG2)]; rewrite HG2 in Hin;
        [destruct Hin|].
      apply in_settled in Hin. inversion Hin; subst prompt.
      unfold fallback_answer. rewrite Hwpm.
      split; [reflexivity|]. split; [reflexivity|]. split; [reflexivity|].
      eexists. repeat split. }
    destruct out as [a|e|]; cbn [fst snd add_log log].
    + intros Hin. eexists. split; [reflexivity|]. apply Hgen. exact Hin.
    + intros Hin. eexists. split; [reflexivity|]. apply Hgen. exact Hin.
    + intros Hin. exfalso. revert Hin.
      apply (not_in_by_forallb perplexity_call);
        [apply transcription_not_perplexity; exact HA | reflexivity].
  - destruct req_file as [file|]; [|intros []].
    destruct (configured (ASSEMBLYAI_API_KEY cfg)) eqn:Hkey.
    2:{ unfold Parallel.handler. rewrite Hkey. intros []. }
    rewrite parallel_handler_run, parallel_classify_run by assumption.
    change {| log := []; polls := polls st0 |} with st0.
    destruct (processWithAssemblyAI w (buffer file) st0) as [out s1] eqn:Hrun.
    destruct (transcription_log_fresh _ _ Hrun) as (T & Hlog & HT).
    assert (HA : forallb transcription_event (log s1) = true)
      by (rewrite Hlog; cbn; exact HT).
    destruct (parallel_emotions_events cfg w (buffer file))
      as (HI & HD & _ & _).
    pose proof (transcription_not_consumer _ HA) as HAc.
    destruct out as [a|e|]; cbn [fst snd add_log log st0 app].
    + cbv zeta. cbn [fst snd add_log log].
      destruct (parallel_report_events cfg w a
                  (fst (parallel_emotions cfg w (buffer file))))
        as (_ & HG2).
      intros Hin. apply perplexity_prompt_in in Hin.
      2:{ apply no_consumer_no_perplexity.
          apply forallb_interleaved; assumption. }
      destruct HG2 as [HG2|(wpm & Hwpm & HG2)]; rewrite HG2 in Hin;
        [destruct Hin|].
      apply in_settled in Hin. inversion Hin; subst prompt.
      eexists. split; [reflexivity|].
      unfold parallel_answer. rewrite Hwpm.
      split; [reflexivity|]. split; [reflexivity|]. split; [reflexivity|].
      eexists. repeat split.
    + intros Hin. exfalso. revert Hin.
      apply (not_in_by_forallb perplexity_call); [|reflexivity].
      apply no_consumer_no_perplexity. apply forallb_abandoned; assumption.
    + intros Hin. exfalso. revert Hin.
      apply (not_in_by_forallb perplexity_call); [|reflexivity].
      apply no_consumer_no_perplexity.
      rewrite !forallb_app, HI, (forallb_firstn _ 1 _ HAc),
        (forallb_skipn _ 1 _ HAc). reflexivity.
Qed.

Lemma response_reports_what_the_prompt_said_witness :
  let prompt :=
    parallel_prompt (Sample.job "completed" (Some Sample.sixWords))
      Sample.joy 12 in
  exists r,
    fst (Parallel.handler Sample.allKeys
           (Sample.completesAfter 1 (Some Sample.sixWords)) 2
           (Some Sample.demoFile) st0) = Return r
    /\ Res.success r = true /\ prompt_matches prompt r.
Proof.
  intros prompt.
  apply (proj2 (response_reports_what_the_prompt_said Sample.allKeys
                  (Sample.completesAfter 1 (Some Sample.sixWords)) 2
                  (Some Sample.demoFile) prompt)).
  vm_compute. do 12 right. left. reflexivity.
Defined.

(* ================================================================== *)
(** * More on calculateWPM *)


Lemma splitWs_run (a : jsstring) : forall tok inSep c1 c2 b,
  isWhiteSpace c1 = true -> isWhiteSpace c2 = true ->
  splitWs tok inSep (a ++ c1 :: c2 :: b) = splitWs tok inSep (a ++ c1 :: b).
Proof.
  induction a as [|c a IH]; intros tok inSep c1 c2 b H1 H2; cbn [app splitWs].
  - rewrite H1, H2. reflexivity.
  - destruct (isWhiteSpace c); [destruct inSep|]; rewrite IH by assumption;
      reflexivity.
Qed.

Lemma splitWs_kind (a : jsstring) : forall tok inSep c1 c2 b,
  isWhiteSpace c1 = true -> isWhiteSpace c2 = true ->
  splitWs tok inSep (a ++ c1 :: b) = splitWs tok inSep (a ++ c2 :: b).
Proof.
  induction a as [|c a IH]; intros tok inSep c1 c2 b H1 H2; cbn [app splitWs].
  - rewrite H1, H2. reflexivity.
  - destruct (isWhiteSpace c); [destruct inSep|];
      rewrite (IH _ _ c1 c2) by assumption; reflexivity.
Qed.

(** X13.  The words-per-minute metric does not depend on how much
    whitespace separates the words, nor on which whitespace characters are
    used: doubling a whitespace character, or replacing it by another one,
    anywhere in the text, leaves [calculateWPM] unchanged for every
    duration. *)
Theorem calculateWPM_ignores_the_amount_of_whitespace
        (a b : jsstring) (c1 c2 : N) (duration : option Q) :
  isWhiteSpace c1 = true ->
  isWhiteSpace c2 = true ->
  calculateWPM (Some (a ++ c1 :: c2 :: b)) duration
  = calculateWPM (Some (a ++ c1 :: b)) duration
  /\ calculateWPM (Some (a ++ c1 :: b)) duration
     = calculateWPM (Some (a ++ c2 :: b)) duration.
Proof.
  intros H1 H2. unfold calculateWPM, split_whitespace.
  rewrite (splitWs_run a [] false c1 c2 b H1 H2).
  rewrite (splitWs_kind a [] false c1 c2 b H1 H2).
  split; reflexivity.
Qed.

Lemma calculateWPM_ignores_the_amount_of_whitespace_witness :
  calculateWPM (Some (str "one" ++ 32%N :: 9%N :: str "two"))
    (Some (60 # 1)%Q)
  = calculateWPM (Some (str "one" ++ 32%N :: str "two")) (Some (60 # 1)%Q)
  /\ calculateWPM (Some (str "one" ++ 32%N :: str "two")) (Some (60 # 1)%Q)
     = calculateWPM (Some (str "one" ++ 9%N :: str "two")) (Some (60 # 1)%Q).
Proof.
  apply (@calculateWPM_ignores_the_amount_of_whitespace
           (str "one") (str "two") 32%N 9%N (Some (60 # 1)%Q));
    reflexivity.
Defined.





(* ================================================================== *)
(** * Failures of transcription *)

(** X15.  Whatever makes the transcription client throw (upload or
    submission refused, a status request failing, the job ending in error,
    the budget of the loop exhausted), the routes without fallback answer
    500 with [success: false], the message of that error (or 'Internal
    server error' when it is empty) and [details] set to the body of the
    failed response or null.  The sequential route then has called no
    enrichment provider; the [Promise.all] route has called the emotion
    provider (when configured) and nothing else.  The variant with
    fallback answers 200 with the simulated transcript and its metrics
    instead. *)
Theorem transcription_failure_is_reported
        (cfg : Config) (w : World) (sched : nat) (file : File)
        (e : JsError) (s1 : St) :
  configured (ASSEMBLYAI_API_KEY cfg) = true ->
  processWithAssemblyAI w (buffer file) st0 = (Throw e, s1) ->
  let reported :=
    {| Res.code := 500; Res.success := false;
       Res.payload :=
         ErrorMessage
           (str_or_lit (Some (message e)) (str "Internal server error"))
           (Some (match response_data e with
                  | Some data => json_or data JNull
                  | None => JNull
                  end)) |} in
  (Watson.handler cfg w (Some file) st0 = (Return reported, s1)
   /\ enrichment_calls (log s1) = [])
  /\ (exists s,
        Parallel.handler cfg w sched (Some file) st0 = (Return reported, s)
        /\ enrichment_calls (log s)
           = if configured (HUGGING_FACE_TOKEN cfg)
             then [EmotionAudio (buffer file)] else [])
  /\ (exists r s m,
        Fallback.handler cfg w (Some file) st0 = (Return r, s)
        /\ Res.code r = 200%Z /\ Res.success r = true
        /\ Res.transcript_of r = Some simulatedTranscript
        /\ Res.audioMetrics_of r = Some m
        /\ Res.wordsPerMinute m = 58%Z
        /\ Res.confidence m = Some (85 # 100)%Q
        /\ Res.audioDuration m = Some (30 # 1)%Q).
Proof.
  intros Hkey Hrun reported.
  pose proof (transcription_no_enrichment _ _ Hrun) as Hquiet.
  destruct (transcription_log_fresh _ _ Hrun) as (T & Hlog & HT).
  split; [|split].
  - split; [|exact Hquiet].
    rewrite watson_handler_run, Hrun by assumption. reflexivity.
  - rewrite parallel_handler_run, parallel_classify_run by assumption.
    change {| log := []; polls := polls st0 |} with st0. rewrite Hrun.
    eexists. split; [reflexivity|].
    cbn [log st0 app]. rewrite Hlog.
    destruct (parallel_emotion_calls cfg w (buffer file)) as [Hissued Hdone].
    rewrite enrichment_calls_abandoned by assumption. exact Hissued.
  - rewrite fallback_handler_run, Hrun by assumption.
    eexists _, _, _. split; [reflexivity|]. repeat split.
Qed.

Lemma transcription_failure_is_reported_witness :
  Watson.handler Sample.allKeys Sample.neverCompletes
    (Some Sample.demoFile) st0
  = (Return {| Res.code := 500; Res.success := false;
               Res.payload := ErrorMessage timeoutMessage (Some JNull) |},
     snd (processWithAssemblyAI Sample.neverCompletes
            (buffer Sample.demoFile) st0))
  /\ enrichment_calls
       (log (snd (processWithAssemblyAI Sample.neverCompletes
                    (buffer Sample.demoFile) st0))) = [].
Proof.
  apply (@transcription_failure_is_reported Sample.allKeys
           Sample.neverCompletes 0 Sample.demoFile (Error timeoutMessage)).
  - reflexivity.
  - vm_compute. reflexivity.
Defined.

(* ================================================================== *)
(** * The transcription-only route *)

Lemma status_requests_are_not_enrichment id n :
  filter enrichment_request (repeat (Status id) n) = [].
Proof. induction n as [|n IH]; [reflexivity|exact IH]. Qed.

(** X16.  In the route that only transcribes, when the job is pending on
    the first [i - 1] status requests and [completed] on the [i]-th,
    [1 <= i <= 30], the answer is 200 with [success: true], the text of
    the job and its sentiment results, an empty list standing in for
    missing results; the route has made exactly the upload, the submission
    and [i] status requests, and has called no enrichment provider. *)
Theorem basic_route_returns_the_completed_job
        (cfg : Config) (w : World) (file : File)
        (url id : option jsstring) (rs : nat -> TranscriptData)
        (r : TranscriptData) (i : nat) :
  configured (ASSEMBLYAI_API_KEY cfg) = true ->
  post_upload w (buffer file) = inr url ->
  post_transcript w url = inr id ->
  1 <= i <= maxAttempts ->
  (forall k, k < i - 1 ->
     get_transcript w id k = inr (rs k) /\ terminal (rs k) = false) ->
  get_transcript w id (i - 1) = inr r ->
  has_status r "completed" = true ->
  exists s,
    Basic.handler cfg w (Some file) st0
    = (Return {| Res.code := 200; Res.success := true;
                 Res.payload :=
                   Sentiments (text r)
                     (json_or (sentiment_analysis_results r) (JArr [])) |},
       s)
    /\ calls (log s)
       = Upload (buffer file) :: Transcribe url :: repeat (Status id) i
    /\ enrichment_calls (log s) = [].
Proof.
  intros Hkey Hup Hsub Hi Hrs Hr Hdone.
  destruct (pollLoop_terminal w id (k := i - 1) (fuel := S maxAttempts)
              0 None (add_log st0 (submitted (buffer file) url)) rs (r := r))
    as (s & Hrun & Hlog & _);
    [lia | lia | exact Hrs | exact Hr
     | unfold terminal; rewrite Hdone; reflexivity |].
  exists s. rewrite basic_handler_run, Hup, Hsub by assumption.
  rewrite Hrun, (has_status_completed_not_error r Hdone).
  replace (maxAttempts <=? 0 + (i - 1)) with false
    by (symmetry; apply Nat.leb_gt; lia).
  split; [reflexivity|].
  assert (Hcalls : calls (log s)
                   = Upload (buffer file) :: Transcribe url
                       :: repeat (Status id) i).
  { rewrite Hlog, calls_app, calls_turns, repeat_length.
    replace (S (i - 1)) with i by lia. reflexivity. }
  split; [exact Hcalls|].
  unfold enrichment_calls. rewrite Hcalls.
  cbn [filter enrichment_request transcription_request negb].
  apply status_requests_are_not_enrichment.
Qed.

Lemma basic_route_returns_the_completed_job_witness :
  exists s,
    Basic.handler Sample.allKeys
      (Sample.completesAfter 2 (Some Sample.sixWords))
      (Some Sample.demoFile) st0
    = (Return {| Res.code := 200; Res.success := true;
                 Res.payload :=
                   Sentiments (Some Sample.sixWords) (JArr []) |}, s)
    /\ calls (log s)
       = Upload (buffer Sample.demoFile)
           :: Transcribe (Some (str "https://cdn.example/upload/1"))
           :: repeat (Status (Some (str "job-1"))) 3
    /\ enrichment_calls (log s) = [].
Proof.
  apply (@basic_route_returns_the_completed_job Sample.allKeys
           (Sample.completesAfter 2 (Some Sample.sixWords)) Sample.demoFile
           (Some (str "https://cdn.example/upload/1")) (Some (str "job-1"))
           (fun _ => Sample.job "processing" None)
           (Sample.job "completed" (Some Sample.sixWords)) 3).
  - reflexivity.
  - reflexivity.
  - reflexivity.
  - unfold maxAttempts. lia.
  - intros k Hk. do 2 (destruct k as [|k]; [split; reflexivity|]). cbn in Hk. lia.
  - reflexivity.
  - reflexivity.
Defined.
